(** * Blood-donation eligibility engine: [check_availability] of app.py

    A shallow embedding of the business logic of app.py (lines 24-25 and
    75-123) together with the parts of Python's [datetime], [dateutil] and
    the builtins [sorted], [min], [sum] and [in] that the function relies
    on, followed by the properties of the engine.  The engine is embedded
    twice: as a function of the history as a value, and as a program on the
    heap of list and dict objects that hold the history; the second is
    shown to compute the first and to change no object.

    Conventions.
    - Python [str] values are [string]s holding the UTF-8 encoding of the
      text.  Comparing UTF-8 encodings byte by byte orders them as Python
      orders the texts code point by code point, and one text occurs in
      another exactly when its encoding does.
    - A Python exception is a value [Raise e] of the type [result]. *)

From Stdlib Require Import ZArith List String Ascii Bool Lia Permutation.
From Stdlib Require Import ZifyBool OrderedTypeEx Sorted.
Import ListNotations.
Open Scope Z_scope.

(** ** Exceptions *)

(** The exceptions the modelled code can raise.  [LoopBudget] is not a
    Python exception: it marks a loop of the model that used up its
    iteration budget (see [relativedelta_between_total]: it never happens on
    valid dates). *)
Inductive exn : Type :=
| ValueError | OverflowError | KeyError | TypeError | IndexError | LoopBudget.

Inductive result (A : Type) : Type :=
| Ok (a : A)
| Raise (e : exn).
Arguments Ok {A} a.
Arguments Raise {A} e.

Definition bind {A B : Type} (c : result A) (k : A -> result B) : result B :=
  match c with
  | Ok a => k a
  | Raise e => Raise e
  end.

Notation "x <- c1 ;; c2" := (bind c1 (fun x => c2))
  (at level 61, c1 at next level, right associativity).

(** A list comprehension [[h for h in l if p(h)]] whose condition may raise. *)
Fixpoint filterM {A : Type} (p : A -> result bool) (l : list A) : result (list A) :=
  match l with
  | [] => Ok []
  | h :: t =>
      b <- p h ;;
      r <- filterM p t ;;
      Ok (if b then h :: r else r)
  end.

(** ** datetime.date *)

Record date : Type := mkdate { year : Z; month : Z; day : Z }.

Definition MINYEAR : Z := 1.
Definition MAXYEAR : Z := 9999.

Definition isleap (y : Z) : bool :=
  (y mod 4 =? 0) && (negb (y mod 100 =? 0) || (y mod 400 =? 0)).

(** [calendar.monthrange(y, m)[1]], the number of days of a month. *)
Definition days_in_month (y m : Z) : Z :=
  if m =? 2 then (if isleap y then 29 else 28)
  else if (m =? 4) || (m =? 6) || (m =? 9) || (m =? 11) then 30
  else 31.

Definition valid_date (d : date) : bool :=
  (MINYEAR <=? year d) && (year d <=? MAXYEAR) &&
  (1 <=? month d) && (month d <=? 12) &&
  (1 <=? day d) && (day d <=? days_in_month (year d) (month d)).

(** The constructor [datetime.date(y, m, d)], also reached through
    [date.replace]: it refuses what is not a calendar date. *)
Definition new_date (y m d : Z) : result date :=
  let r := mkdate y m d in
  if valid_date r then Ok r else Raise ValueError.

(** Dates compare as the tuples (year, month, day). *)
Definition date_ltb (a b : date) : bool :=
  (year a <? year b) ||
  ((year a =? year b) &&
   ((month a <? month b) || ((month a =? month b) && (day a <? day b)))).

Definition date_eqb (a b : date) : bool :=
  (year a =? year b) && (month a =? month b) && (day a =? day b).

Definition date_leb (a b : date) : bool := date_ltb a b || date_eqb a b.

Declare Scope date_scope.
Delimit Scope date_scope with date.
Bind Scope date_scope with date.
Infix "<?" := date_ltb (at level 70, no associativity) : date_scope.
Infix "<=?" := date_leb (at level 70, no associativity) : date_scope.

(** [date.toordinal()]: the proleptic Gregorian day number, 0001-01-01 is 1. *)
Definition days_before_year (y : Z) : Z :=
  let y1 := y - 1 in y1 * 365 + y1 / 4 - y1 / 100 + y1 / 400.

Definition days_before_month (y m : Z) : Z :=
  fold_right Z.add 0
    (map (days_in_month y) (map Z.of_nat (seq 1 (Z.to_nat (m - 1))))).

Definition toordinal (d : date) : Z :=
  days_before_year (year d) + days_before_month (year d) (month d) + day d.

(** [d + timedelta(days=1)] and [d - timedelta(days=1)]. *)
Definition tomorrow (d : date) : result date :=
  if day d <? days_in_month (year d) (month d)
  then Ok (mkdate (year d) (month d) (day d + 1))
  else if month d <? 12 then Ok (mkdate (year d) (month d + 1) 1)
  else if year d <? MAXYEAR then Ok (mkdate (year d + 1) 1 1)
  else Raise OverflowError.

Definition yesterday (d : date) : result date :=
  if 1 <? day d then Ok (mkdate (year d) (month d) (day d - 1))
  else if 1 <? month d
       then Ok (mkdate (year d) (month d - 1) (days_in_month (year d) (month d - 1)))
  else if MINYEAR <? year d then Ok (mkdate (year d - 1) 12 31)
  else Raise OverflowError.

Fixpoint add_days (d : date) (n : nat) : result date :=
  match n with
  | O => Ok d
  | S k => d' <- tomorrow d ;; add_days d' k
  end.

Fixpoint sub_days (d : date) (n : nat) : result date :=
  match n with
  | O => Ok d
  | S k => d' <- yesterday d ;; sub_days d' k
  end.

(** [d + timedelta(days=n)]: the day [n] days after [d] (before, for a
    negative [n]); OverflowError outside 0001-01-01 .. 9999-12-31. *)
Definition add_timedelta (d : date) (n : Z) : result date :=
  if 0 <=? n then add_days d (Z.to_nat n) else sub_days d (Z.to_nat (- n)).

(** ** dateutil.relativedelta *)

(** The relative fields the program uses; every other field of a
    relativedelta keeps its default here. *)
Record relativedelta : Type := mkrd { years : Z; months : Z; days : Z }.

(** [relativedelta(weeks=w)] and [relativedelta(years=n)]. *)
Definition rd_weeks (w : Z) : relativedelta := mkrd 0 0 (w * 7).
Definition rd_years (n : Z) : relativedelta := mkrd n 0 0.

(** [relativedelta.__neg__]. *)
Definition rd_neg (rd : relativedelta) : relativedelta :=
  mkrd (- years rd) (- months rd) (- days rd).

(** [relativedelta._set_months]: a month count split into years and months
    of the same sign. *)
Definition set_months (ms : Z) : relativedelta :=
  if 11 <? Z.abs ms
  then let s := Z.sgn ms in mkrd ((ms * s / 12) * s) ((ms * s mod 12) * s) 0
  else mkrd 0 ms 0.

(** [other + rd] ([relativedelta.__add__] and [__radd__]): years and months
    first, the day clipped to the length of the month reached, then the
    days. *)
Definition rd_add (rd : relativedelta) (other : date) : result date :=
  let y := year other + years rd in
  let m := month other in
  let ym :=
    if months rd =? 0 then (y, m)
    else
      let m := m + months rd in
      if 12 <? m then (y + 1, m - 12)
      else if m <? 1 then (y - 1, m + 12)
      else (y, m) in
  let d := Z.min (days_in_month (fst ym) (snd ym)) (day other) in
  r <- new_date (fst ym) (snd ym) d ;;
  add_timedelta r (days rd).

(** [other - rd] ([relativedelta.__rsub__]). *)
Definition rd_sub (other : date) (rd : relativedelta) : result date :=
  rd_add (rd_neg rd) other.

(** The [while compare(dt1, dtm)] loop of [relativedelta(dt1, dt2)], with an
    iteration budget. *)
Fixpoint adjust_months (budget : nat) (compare : date -> date -> bool)
    (increment : Z) (dt1 dt2 : date) (ms : Z) (dtm : date) : result Z :=
  if compare dt1 dtm then
    match budget with
    | O => Raise LoopBudget
    | S b =>
        let ms := ms + increment in
        dtm <- rd_add (set_months ms) dt2 ;;
        adjust_months b compare increment dt1 dt2 ms dtm
    end
  else Ok ms.

(** [relativedelta(dt1, dt2)]: the difference of two dates in years, months
    and days. *)
Definition relativedelta_between (dt1 dt2 : date) : result relativedelta :=
  let ms := (year dt1 - year dt2) * 12 + (month dt1 - month dt2) in
  dtm <- rd_add (set_months ms) dt2 ;;
  ms <- (if (dt1 <? dt2)%date
         then adjust_months 2 (fun a b => (b <? a)%date) 1 dt1 dt2 ms dtm
         else adjust_months 2 date_ltb (-1) dt1 dt2 ms dtm) ;;
  dtm <- rd_add (set_months ms) dt2 ;;
  let rd := set_months ms in
  Ok (mkrd (years rd) (months rd) (toordinal dt1 - toordinal dtm)).

(** ** Python strings and builtins *)

Open Scope string_scope.

(** [sub in s] on strings. *)
Fixpoint contains (sub s : string) : bool :=
  prefix sub s ||
  match s with
  | EmptyString => false
  | String _ s' => contains sub s'
  end.

(** [sorted(l, key=key)] for string keys.  Python's sort is stable and
    compares keys with [<]; the result of a stable sort is determined by
    that, and straight insertion computes it. *)
Fixpoint insert_by {A : Type} (key : A -> string) (x : A) (l : list A) : list A :=
  match l with
  | [] => [x]
  | y :: t => if String.ltb (key y) (key x) then y :: insert_by key x t else x :: l
  end.

Fixpoint sorted {A : Type} (key : A -> string) (l : list A) : list A :=
  match l with
  | [] => []
  | x :: t => insert_by key x (sorted key t)
  end.

(** [min(l, key=key)]: the first element whose key is least; ValueError on
    an empty list. *)
Definition min_by {A : Type} (key : A -> string) (l : list A) : result A :=
  match l with
  | [] => Raise ValueError
  | x :: t =>
      Ok (fold_left (fun best y => if String.ltb (key y) (key best) then y else best) t x)
  end.

(** [sum(l)] over integers. *)
Definition sum (l : list Z) : Z := fold_left Z.add l 0.

(** [l[-1] if l else None]. *)
Fixpoint last_or_none {A : Type} (l : list A) : option A :=
  match l with
  | [] => None
  | [x] => Some x
  | _ :: t => last_or_none t
  end.

(** A [dict] with string keys, in insertion order. *)
Definition dict (V : Type) : Type := list (string * V).

Fixpoint dict_get {V : Type} (d : dict V) (k : string) : option V :=
  match d with
  | [] => None
  | (k', v) :: t => if k' =? k then Some v else dict_get t k
  end.

(** [d[k]], KeyError on a missing key. *)
Definition dict_item {V : Type} (d : dict V) (k : string) : result V :=
  match dict_get d k with
  | Some v => Ok v
  | None => Raise KeyError
  end.

(** [d[k] = v]. *)
Fixpoint dict_set {V : Type} (k : string) (v : V) (d : dict V) : dict V :=
  match d with
  | [] => [(k, v)]
  | (k', v') :: t => if k' =? k then (k, v) :: t else (k', v') :: dict_set k v t
  end.

(** ** strftime and strptime with the format "%Y-%m-%d" *)

Definition digit (n : Z) : ascii := ascii_of_nat (48 + Z.to_nat n).

Definition pad2 (n : Z) : string :=
  String (digit (n / 10)) (String (digit (n mod 10)) EmptyString).

Definition pad4 (n : Z) : string :=
  String (digit (n / 1000)) (String (digit (n / 100 mod 10)) (pad2 (n mod 100))).

(** [d.strftime("%Y-%m-%d")]: the year on four digits, month and day on two,
    padded with zeros.  This is the form Python documents for %Y and the text
    every platform gives for the years 1000 to 9999.  For the years 1 to 999
    the text is that of the C library: glibc writes such a year without
    leading zeros, and this definition is not its [strftime] there. *)
Definition strftime (d : date) : string :=
  pad4 (year d) ++ "-" ++ pad2 (month d) ++ "-" ++ pad2 (day d).

(** The value of one of the characters "0" to "9", the class [0-9] of a
    regular expression. *)
Definition digit_val (c : ascii) : option Z :=
  let n := Z.of_nat (nat_of_ascii c) in
  if (48 <=? n)%Z && (n <=? 57)%Z then Some (n - 48)%Z else None.

(** The code points of a text, read off its UTF-8 encoding: a byte below
    128 is a code point, a byte from 194 to 244 opens a sequence of two to
    four bytes whose other bytes lie between 128 and 191.  [need] counts the
    bytes still expected of the sequence being read and [acc] is the value
    read of it so far; [None] for bytes that encode no text. *)
Fixpoint code_points_from (need : nat) (acc : Z) (s : string) : option (list Z) :=
  match s with
  | EmptyString =>
      match need with
      | O => Some []
      | S _ => None
      end
  | String c s' =>
      let b := Z.of_nat (nat_of_ascii c) in
      match need with
      | O =>
          if (b <? 128)%Z then option_map (cons b) (code_points_from 0 0 s')
          else if (194 <=? b)%Z && (b <? 224)%Z then code_points_from 1 (b - 192)%Z s'
          else if (224 <=? b)%Z && (b <? 240)%Z then code_points_from 2 (b - 224)%Z s'
          else if (240 <=? b)%Z && (b <? 245)%Z then code_points_from 3 (b - 240)%Z s'
          else None
      | S n =>
          if (128 <=? b)%Z && (b <? 192)%Z then
            let acc := (acc * 64 + (b - 128))%Z in
            match n with
            | O => option_map (cons acc) (code_points_from 0 0 s')
            | S _ => code_points_from n acc s'
            end
          else None
      end
  end.

Definition code_points (s : string) : option (list Z) := code_points_from 0 0 s.

(** The digits zero of the decimal digits of Unicode 14 (general category
    Nd, the characters a [str] pattern matches with \d and [int] converts):
    each is followed by its digits one to nine. *)
Definition DECIMAL_ZEROS : list Z :=
  [48; 1632; 1776; 1984; 2406; 2534; 2662; 2790; 2918; 3046; 3174; 3302;
   3430; 3558; 3664; 3792; 3872; 4160; 4240; 6112; 6160; 6470; 6608; 6784;
   6800; 6992; 7088; 7232; 7248; 42528; 43216; 43264; 43472; 43504; 43600;
   44016; 65296; 66720; 68912; 69734; 69872; 69942; 70096; 70384; 70736;
   70864; 71248; 71360; 71472; 71904; 72016; 72784; 73040; 73120; 92768;
   92864; 93008; 120782; 120792; 120802; 120812; 120822; 123200; 123632;
   125264; 130032]%Z.

(** The value of a decimal digit, [None] for any other character. *)
Definition decimal_val (cp : Z) : option Z :=
  match find (fun zero => (zero <=? cp)%Z && (cp <=? zero + 9)%Z) DECIMAL_ZEROS with
  | Some zero => Some (cp - zero)%Z
  | None => None
  end.

(** The text before the first "-" and the text after it. *)
Fixpoint cut (s : string) : option (string * string) :=
  match s with
  | EmptyString => None
  | String c s' =>
      if Ascii.eqb c "-" then Some (EmptyString, s')
      else match cut s' with
           | Some (a, b) => Some (String c a, b)
           | None => None
           end
  end.

(** %Y is the regular expression \d\d\d\d: four decimal digits, of any
    script, which [int] converts. *)
Definition year_of (t : string) : option Z :=
  match code_points t with
  | Some [a; b; c; d] =>
      match decimal_val a, decimal_val b, decimal_val c, decimal_val d with
      | Some a, Some b, Some c, Some d => Some (1000 * a + 100 * b + 10 * c + d)%Z
      | _, _, _, _ => None
      end
  | _ => None
  end.

(** %m is 1[0-2]|0[1-9]|[1-9]. *)
Definition month_of (t : string) : option Z :=
  match t with
  | String a (String b EmptyString) =>
      match digit_val a, digit_val b with
      | Some a, Some b =>
          if (a =? 1)%Z && (b <=? 2)%Z then Some (10 + b)%Z
          else if (a =? 0)%Z && (1 <=? b)%Z then Some b
          else None
      | _, _ => None
      end
  | String a EmptyString =>
      match digit_val a with
      | Some a => if (1 <=? a)%Z then Some a else None
      | None => None
      end
  | _ => None
  end.

(** %d is 3[0-1]|[1-2]\d|0[1-9]|[1-9]| [1-9]: after "1" or "2" any decimal
    digit, elsewhere the characters "0" to "9" only.  The code points 32 and
    48 to 57 are the space and the characters "0" to "9". *)
Definition day_of (t : string) : option Z :=
  let one_to_nine (c : Z) := (49 <=? c)%Z && (c <=? 57)%Z in
  match code_points t with
  | Some [a; b] =>
      if (a =? 51)%Z && ((b =? 48)%Z || (b =? 49)%Z) then Some (30 + (b - 48))%Z
      else if (a =? 49)%Z || (a =? 50)%Z then
        match decimal_val b with
        | Some b => Some (10 * (a - 48) + b)%Z
        | None => None
        end
      else if ((a =? 48)%Z || (a =? 32)%Z) && one_to_nine b then Some (b - 48)%Z
      else None
  | Some [a] => if one_to_nine a then Some (a - 48)%Z else None
  | _ => None
  end.

(** [datetime.datetime.strptime(s, "%Y-%m-%d").date()].  The three fields
    are separated by "-"; the year and month texts hold digits only, so they
    end at the first "-" after their start, and the day text is all that
    remains (unconverted data is an error).  ValueError when the text does
    not match or when the fields are not a calendar date. *)
Definition strptime (s : string) : result date :=
  match cut s with
  | Some (ytext, s1) =>
      match cut s1 with
      | Some (mtext, dtext) =>
          match year_of ytext, month_of mtext, day_of dtext with
          | Some y, Some m, Some d => new_date y m d
          | _, _, _ => Raise ValueError
          end
      | None => Raise ValueError
      end
  | None => Raise ValueError
  end.

(** ** The donation records and the constants of app.py *)

(** A history entry, the dict built at line 158 of app.py. *)
Record record : Type := mkrecord {
  rec_id : string;
  title : string;
  start : string;
  location : string;
  notes : string;
  color : string
}.

(** The value stored per donation type: the dicts
    [{"available": True}] and [{"available": False, "reason": .., "next": ..}];
    an absent key is [None]. *)
Record verdict : Type := mkverdict {
  available : bool;
  reason : option string;
  next : option string
}.

Definition ALL_TYPES : list string := ["400ml全血"; "200ml全血"; "成分献血"].
Definition MAX_VOLUME : dict Z := [("男性", 1200%Z); ("女性", 800%Z)].

(** ** Business logic *)

Definition get_volume (donation_type : string) : Z :=
  if donation_type =? "200ml全血" then 200%Z
  else if donation_type =? "400ml全血" then 400%Z
  else 0%Z.

(** Lines 88-91: the age gate of one donation type. *)
Definition is_age_ok (don_type gender : string) (age_on_date : Z) : bool :=
  let is_age_ok := false in
  let is_age_ok :=
    if (don_type =? "200ml全血") && ((16 <=? age_on_date)%Z && (age_on_date <=? 69)%Z)
    then true else is_age_ok in
  let is_age_ok :=
    if (don_type =? "400ml全血") &&
       (((gender =? "男性") && ((17 <=? age_on_date)%Z && (age_on_date <=? 69)%Z)) ||
        ((gender =? "女性") && ((18 <=? age_on_date)%Z && (age_on_date <=? 69)%Z)))
    then true else is_age_ok in
  let is_age_ok :=
    if (don_type =? "成分献血") && ((18 <=? age_on_date)%Z && (age_on_date <=? 69)%Z)
    then true else is_age_ok in
  is_age_ok.

(** Lines 97-104: the date from which [don_type] is allowed again after
    [last_donation]. *)
Definition next_available_after (last_donation : record) (don_type gender : string)
  : result date :=
  last_date <- strptime (start last_donation) ;;
  let next_available := last_date in
  if contains "全血" (title last_donation) then
    if don_type =? "成分献血" then rd_add (rd_weeks 8) next_available
    else if title last_donation =? "400ml全血"
         then rd_add (rd_weeks (if gender =? "男性" then 12 else 16)) next_available
    else if title last_donation =? "200ml全血" then rd_add (rd_weeks 4) next_available
    else Ok next_available
  else if contains "成分" (title last_donation) then rd_add (rd_weeks 2) next_available
  else Ok next_available.

(** Line 84: the records dated before the target date. *)
Definition donations_before (target_date : date) (sorted_history : list record)
  : result (list record) :=
  filterM (fun h => d <- strptime (start h) ;; Ok (d <? target_date)%date)
          sorted_history.

(** Line 111: the whole-blood records strictly inside the last year. *)
Definition relevant_history (window_start target_date : date)
    (sorted_history : list record) : result (list record) :=
  filterM (fun h =>
             d <- strptime (start h) ;;
             Ok ((window_start <? d)%date && (d <? target_date)%date &&
                 contains "全血" (title h)))
          sorted_history.

(** Line 115: the whole-blood records of the last year, its first day
    included. *)
Definition donations_in_window (target_date : date) (sorted_history : list record)
  : result (list record) :=
  filterM (fun h =>
             lo <- rd_sub target_date (rd_years 1) ;;
             d <- strptime (start h) ;;
             Ok ((lo <=? d)%date && (d <? target_date)%date &&
                 contains "全血" (title h)))
          sorted_history.

Definition volume_of (l : list record) : Z :=
  sum (map (fun h => get_volume (title h)) l).

(** Lines 109-120: the yearly volume cap; [Some] of the date the block is
    lifted when [don_type] is blocked by it. *)
Definition annual_cap (target_date : date) (sorted_history : list record)
    (gender don_type : string) : result (option date) :=
  if contains "全血" don_type then
    window_start <- rd_sub target_date (rd_years 1) ;;
    relevant <- relevant_history window_start target_date sorted_history ;;
    let volume_in_year := volume_of relevant in
    cap <- dict_item MAX_VOLUME gender ;;
    if (cap <? volume_in_year + get_volume don_type)%Z then
      in_window <- donations_in_window target_date sorted_history ;;
      match in_window with
      | [] => Ok None
      | _ :: _ =>
          first_donation_in_window <- min_by start in_window ;;
          d <- strptime (start first_donation_in_window) ;;
          block_lift_date <- rd_add (rd_years 1) d ;;
          Ok (Some block_lift_date)
      end
    else Ok None
  else Ok None.

(** Lines 96-107: the minimum interval; [Some] of the next allowed date when
    [don_type] is blocked by it. *)
Definition minimum_interval (target_date : date) (last_donation : option record)
    (gender don_type : string) : result (option date) :=
  match last_donation with
  | Some l =>
      next_available <- next_available_after l don_type gender ;;
      Ok (if (target_date <? next_available)%date then Some next_available else None)
  | None => Ok None
  end.

(** The body of the loop of lines 87-122: the entry stored in [results] for
    one donation type. *)
Definition check_type (target_date : date) (sorted_history : list record)
    (last_donation : option record) (gender : string) (age_on_date : Z)
    (don_type : string) : result verdict :=
  if negb (is_age_ok don_type gender age_on_date)
  then Ok (mkverdict false (Some "年齢制限") None)
  else
    blocked <- minimum_interval target_date last_donation gender don_type ;;
    match blocked with
    | Some next_available =>
        Ok (mkverdict false (Some "献血間隔") (Some (strftime next_available)))
    | None =>
        capped <- annual_cap target_date sorted_history gender don_type ;;
        match capped with
        | Some block_lift_date =>
            Ok (mkverdict false (Some "年間総採血量上限")
                          (Some (strftime block_lift_date)))
        | None => Ok (mkverdict true None None)
        end
    end.

(** [for don_type in types: results[don_type] = body(don_type)]. *)
Fixpoint for_each (types : list string) (body : string -> result verdict)
    (results : dict verdict) : result (dict verdict) :=
  match types with
  | [] => Ok results
  | don_type :: rest =>
      v <- body don_type ;;
      for_each rest body (dict_set don_type v results)
  end.

Definition check_availability (target_date : date) (history : list record)
    (gender : string) (birthday : date) : result (dict verdict) :=
  delta <- relativedelta_between target_date birthday ;;
  let age_on_date := years delta in
  let sorted_history := sorted start history in
  donations_before_target <- donations_before target_date sorted_history ;;
  let last_donation := last_or_none donations_before_target in
  for_each ALL_TYPES
    (check_type target_date sorted_history last_donation gender age_on_date) [].

(** * Notions used to state the properties *)

Open Scope list_scope.
Open Scope Z_scope.

(** ** Calendar *)

(** The index of the month of a date, counted from year 0. *)
Definition month_index (d : date) : Z := year d * 12 + (month d - 1).

(** What [relativedelta(dt1, dt2)] finds as the number of whole months from
    [dt2] to [dt1]: the difference of the month indices, moved one month
    towards zero when the day of [dt1] has not been reached. *)
Definition months_between (dt1 dt2 : date) : Z :=
  let ms := (year dt1 - year dt2) * 12 + (month dt1 - month dt2) in
  let dm := Z.min (days_in_month (year dt1) (month dt1)) (day dt2) in
  if (dt1 <? dt2)%date then (if dm <? day dt1 then ms + 1 else ms)
  else (if day dt1 <? dm then ms - 1 else ms).

(** The age in whole years that [check_availability] reads off
    [relativedelta(target_date, birthday)]. *)
Definition age_at (target_date birthday : date) : Z :=
  years (set_months (months_between target_date birthday)).

(** The age counted by comparing month and day: the difference of the
    years, one less as long as the month and day of the birth date have not
    been reached in the year of the target date. *)
Definition age_by_month_day (target_date birthday : date) : Z :=
  year target_date - year birthday -
  (if (month target_date <? month birthday) ||
      ((month target_date =? month birthday) && (day target_date <? day birthday))
   then 1 else 0).

Definition born_on_leap_day (birthday : date) : bool :=
  (month birthday =? 2) && (day birthday =? 29).

(** The one case in which [relativedelta] counts a year more than the
    comparison of month and day: a birth date on 29 February and a target
    date on 28 February of a year without leap day, the day to which the
    birth date is clipped in that year. *)
Definition leap_day_clipped (target_date birthday : date) : bool :=
  born_on_leap_day birthday && (month target_date =? 2) && (day target_date =? 28) &&
  negb (isleap (year target_date)).

(** [d - relativedelta(years=1)] and [d + relativedelta(years=1)]: the same
    month a year away, the day clipped to the month (29 February becomes
    28 February). *)
Definition shift_year (d : date) (n : Z) : date :=
  mkdate (year d + n) (month d)
         (Z.min (days_in_month (year d + n) (month d)) (day d)).

Definition comparison_eqb (a b : comparison) : bool :=
  match a, b with
  | Eq, Eq | Lt, Lt | Gt, Gt => true
  | _, _ => false
  end.

(** ** Order of keys *)

(** [x] does not come after [y], and [x] comes before [y], by their keys. *)
Definition key_le {A : Type} (key : A -> string) (x y : A) : Prop :=
  String.ltb (key y) (key x) = false.
Definition key_lt {A : Type} (key : A -> string) (x y : A) : Prop :=
  String.ltb (key x) (key y) = true.

(** In the list, an occurrence of [a] is followed, somewhere, by an
    occurrence of [b]. *)
Inductive before {A : Type} (a b : A) : list A -> Prop :=
| before_here (l : list A) : In b l -> before a b (a :: l)
| before_later (x : A) (l : list A) : before a b l -> before a b (x :: l).

(** ** Well-formed input *)

(** The date of a record whose [start] is the text of a date. *)
Definition date_of (r : record) : date :=
  match strptime (start r) with
  | Ok d => d
  | Raise _ => mkdate 0 0 0
  end.

(** [strptime] accepts the [start] of the record. *)
Definition parseable (r : record) : bool :=
  match strptime (start r) with
  | Ok _ => true
  | Raise _ => false
  end.

(** The [start] of the record is what line 158 stores: the text
    [strftime] gives for its date. *)
Definition canonical (r : record) : bool :=
  match strptime (start r) with
  | Ok d => (strftime d =? start r)%string
  | Raise _ => false
  end.

Definition wf_record (r : record) : bool :=
  canonical r && existsb (String.eqb (title r)) ALL_TYPES.

Definition wf_history (history : list record) : bool := forallb wf_record history.

Definition wf_gender (gender : string) : bool :=
  (gender =? "男性")%string || (gender =? "女性")%string.

(** Well-formed input of the engine: calendar dates, the birth date not
    after the target date, a sex the engine knows, records as the program
    stores them; and a target date away from the first and the last year of
    the calendar, so that the dates a year around it exist. *)
Definition wf_input (target_date : date) (history : list record)
    (gender : string) (birthday : date) : bool :=
  valid_date target_date && valid_date birthday &&
  (birthday <=? target_date)%date &&
  (MINYEAR <? year target_date) && (year target_date <? MAXYEAR) &&
  wf_gender gender && wf_history history.

(** ** The rules in the words of the specification *)

(** Lines 83-85: the reference prior donation, the last record of the
    date-ascending view that is dated before the target date. *)
Definition reference_prior (target_date : date) (history : list record)
  : result (option record) :=
  donations_before_target <- donations_before target_date (sorted start history) ;;
  Ok (last_or_none donations_before_target).

Definition is_whole_blood (donation_type : string) : bool :=
  (donation_type =? "400ml全血")%string || (donation_type =? "200ml全血")%string.

(** The yearly cap in millilitres: 1200 for a man, 800 for a woman. *)
Definition gender_cap (gender : string) : Z :=
  if (gender =? "男性")%string then 1200 else 800.

(** The open window (target - 1 year, target) and the half-open window
    [target - 1 year, target). *)
Definition in_open_window (target_date d : date) : bool :=
  (shift_year target_date (-1) <? d)%date && (d <? target_date)%date.

Definition in_half_open_window (target_date d : date) : bool :=
  (shift_year target_date (-1) <=? d)%date && (d <? target_date)%date.

(** The volume of the whole-blood records dated inside the open window. *)
Definition window_volume (target_date : date) (history : list record) : Z :=
  sum (map (fun r => get_volume (title r))
           (filter (fun r => is_whole_blood (title r) &&
                             in_open_window target_date (date_of r)) history)).

(** The verdicts of the specification as the entries the engine stores. *)
Definition Available : verdict := mkverdict true None None.
Definition Blocked (reason : string) (next_eligible : option string) : verdict :=
  mkverdict false (Some reason) next_eligible.
Definition AgeRestriction : string := "年齢制限".
Definition MinimumInterval : string := "献血間隔".
Definition AnnualVolumeCap : string := "年間総採血量上限".

(** * The record forms and the map view of app.py *)

(** ** The entry form, [show_form] (lines 132-160) *)

(** Line 135: the types offered by the form. *)
Definition available_types (availability : dict verdict) : list string :=
  map fst (filter (fun tr => available (snd tr)) availability).

(** Lines 157 and 186: the colour of an entry. *)
Definition record_color (donation_type : string) : string :=
  if contains "成分" donation_type then "#4CAF50"%string else "#FF4C4C"%string.

(** [not s] on a string. *)
Definition is_empty (s : string) : bool :=
  match s with
  | EmptyString => true
  | String _ _ => false
  end.

(** Lines 152-159, the button of the entry form: without a place nothing is
    stored; otherwise a record of the chosen type, dated by the text of the
    target date, is appended to the history.  [new_id] is the identifier
    drawn by [uuid.uuid4()]. *)
Definition submit_new (new_id : string) (target_date : date)
    (donation_type final_location notes : string) (history : list record)
  : list record :=
  if is_empty final_location then history
  else
    let color := record_color donation_type in
    let new_record :=
      mkrecord new_id donation_type (strftime target_date) final_location notes color in
    history ++ [new_record].

(** ** The edit form, [show_edit_form] (lines 162-193) *)

(** Lines 187 and 192: the history without the records of the identifier of
    the edited record [rcd] (the [record] of the source). *)
Definition delete_record (rcd : record) (history : list record) : list record :=
  filter (fun r => negb (rec_id r =? rec_id rcd)%string) history.

(** Lines 181-189, the update button: without a place nothing changes;
    otherwise the record leaves its place, takes the new type, place, notes
    and colour, keeps its identifier and its date, and is appended. *)
Definition update_record (rcd : record)
    (donation_type final_location notes : string) (history : list record)
  : list record :=
  if is_empty final_location then history
  else
    let new_color := record_color donation_type in
    let history := delete_record rcd history in
    let rcd :=
      mkrecord (rec_id rcd) donation_type (start rcd) final_location notes
               new_color in
    history ++ [rcd].

(** Line 213: the first record of the clicked identifier, [None] without
    one. *)
Definition find_event (event_id : string) (history : list record) : option record :=
  find (fun e => (rec_id e =? event_id)%string) history.

(** ** The map view, [render_map_view] (lines 222-225) *)

(** [collections.Counter(l)]: each element with the number of its
    occurrences, in the order of first occurrence. *)
Definition counter_add (counts : dict Z) (elem : string) : dict Z :=
  dict_set elem
           (match dict_get counts elem with Some n => n | None => 0 end + 1)
           counts.

Definition Counter (l : list string) : dict Z := fold_left counter_add l [].

(** Line 222: the places of the records that have one, counted. *)
Definition visited_locations_counts (history : list record) : dict Z :=
  Counter (map location (filter (fun r => negb (is_empty (location r))) history)).

(** Lines 224-225: the two columns computed for a donation room. *)
Definition visited (history : list record) (name : string) : bool :=
  match dict_get (visited_locations_counts history) name with
  | Some _ => true
  | None => false
  end.

Definition donation_count (history : list record) (name : string) : Z :=
  match dict_get (visited_locations_counts history) name with
  | Some n => n
  | None => 0
  end.

(** * The engine on the heap of Python objects *)

(** The functions above take the history as a value.  In the program it is
    a list object that holds references to dict objects, both mutable and
    shared with the rest of the script.  This part transcribes lines 80-123
    once more, statement by statement, over a heap of such objects, with the
    reads, the allocations and the assignments the statements perform.  The
    target date, the birth date and the sex are a [datetime.date] and a
    [str]: immutable values, passed as such.  The module constants
    [ALL_TYPES] and [MAX_VOLUME] are read as the constants above. *)

(** ** Values, objects and the heap *)

Definition loc : Type := nat.

(** What a variable or an item holds: [None], a [bool], a [str], or a
    reference to a list or a dict. *)
Inductive value : Type :=
| VNone
| VBool (b : bool)
| VStr (s : string)
| VRef (l : loc).
Arguments VRef l%_nat.

Inductive object : Type :=
| ODict (d : dict value)
| OList (items : list value).

(** The heap: the objects in the order of their creation; a reference is
    the index of its object. *)
Definition heap : Type := list object.

(** A statement or expression: from the heap before to its result, a value
    or an exception, and the heap after. *)
Definition Py (A : Type) : Type := heap -> result A * heap.

Definition ret {A : Type} (a : A) : Py A := fun hp => (Ok a, hp).

Definition raise {A : Type} (e : exn) : Py A := fun hp => (Raise e, hp).

(** A computation on immutable values. *)
Definition lift {A : Type} (r : result A) : Py A := fun hp => (r, hp).

Definition bind_py {A B : Type} (c : Py A) (k : A -> Py B) : Py B :=
  fun hp =>
    match c hp with
    | (Ok a, hp') => k a hp'
    | (Raise e, hp') => (Raise e, hp')
    end.

Notation "x <~ c1 ;; c2" := (bind_py c1 (fun x => c2))
  (at level 61, c1 at next level, right associativity).

(** The object of a reference.  A reference of a running program has an
    object; the model ends the access to a missing one in TypeError. *)
Definition load (l : loc) : Py object :=
  fun hp =>
    match nth_error hp l with
    | Some o => (Ok o, hp)
    | None => (Raise TypeError, hp)
    end.

(** A new object: it takes the next place of the heap. *)
Definition alloc (o : object) : Py value :=
  fun hp => (Ok (VRef (List.length hp)), hp ++ [o]).

Fixpoint update (l : loc) (o : object) (hp : heap) : heap :=
  match hp, l with
  | [], _ => []
  | _ :: t, O => o :: t
  | x :: t, S l' => x :: update l' o t
  end.

(** The object of a reference replaced: every holder of the reference sees
    the change. *)
Definition store (l : loc) (o : object) : Py unit :=
  fun hp => (Ok tt, update l o hp).

(** ** Operations of Python on values *)

(** [v[k]] for a [str] key. *)
Definition getitem (v : value) (k : string) : Py value :=
  match v with
  | VRef l =>
      o <~ load l ;;
      match o with
      | ODict d => lift (dict_item d k)
      | OList _ => raise TypeError
      end
  | _ => raise TypeError
  end.

(** [v[k] = x] for a [str] key. *)
Definition setitem (v : value) (k : string) (x : value) : Py unit :=
  match v with
  | VRef l =>
      o <~ load l ;;
      match o with
      | ODict d => store l (ODict (dict_set k x d))
      | OList _ => raise TypeError
      end
  | _ => raise TypeError
  end.

(** [v == s] for a [str] [s]; it never raises. *)
Definition py_eq (v : value) (s : string) : bool :=
  match v with
  | VStr t => (t =? s)%string
  | _ => false
  end.

(** [sub in v]: part of a [str], item of a list, key of a dict. *)
Definition py_in (sub : string) (v : value) : Py bool :=
  match v with
  | VStr s => ret (contains sub s)
  | VRef l =>
      o <~ load l ;;
      match o with
      | OList items => ret (existsb (fun x => py_eq x sub) items)
      | ODict d => ret (match dict_get d sub with Some _ => true | None => false end)
      end
  | _ => raise TypeError
  end.

(** [bool(v)], the test of [if v] and of [x if v else y]. *)
Definition truthy (v : value) : Py bool :=
  match v with
  | VNone => ret false
  | VBool b => ret b
  | VStr s => ret (match s with EmptyString => false | String _ _ => true end)
  | VRef l =>
      o <~ load l ;;
      ret (match o with
           | ODict [] | OList [] => false
           | _ => true
           end)
  end.

(** [datetime.datetime.strptime(v, "%Y-%m-%d").date()]. *)
Definition py_strptime (v : value) : Py date :=
  match v with
  | VStr s => lift (strptime s)
  | _ => raise TypeError
  end.

(** The items an iteration over [v] goes through: the items of a list, the
    keys of a dict.  (The characters of a [str] are not modelled: iterating
    over one ends in TypeError here.) *)
Definition items_of (v : value) : Py (list value) :=
  match v with
  | VRef l =>
      o <~ load l ;;
      match o with
      | OList items => ret items
      | ODict d => ret (map (fun kv => VStr (fst kv)) d)
      end
  | _ => raise TypeError
  end.

(** [for x in l: acc = body(acc, x)].  The iterator holds the list and an
    index: each round it reads the item at the index from the list as it is
    then, and stops when there is none.  The budget, the length of the list
    at the start, is used up only when the list grows during the loop. *)
Fixpoint for_in_from {T : Type} (budget : nat) (l : value) (index : nat)
    (body : T -> value -> Py T) (acc : T) : Py T :=
  items <~ items_of l ;;
  match nth_error items index with
  | None => ret acc
  | Some x =>
      match budget with
      | O => raise LoopBudget
      | S budget =>
          acc <~ body acc x ;;
          for_in_from budget l (S index) body acc
      end
  end.

Definition for_in {T : Type} (l : value) (body : T -> value -> Py T) (acc : T)
  : Py T :=
  items <~ items_of l ;;
  for_in_from (List.length items) l 0 body acc.

(** [[h for h in l if cond(h)]]: the selected items, then the new list that
    holds them (nothing else can reach it while it is filled). *)
Definition comprehension (l : value) (cond : value -> Py bool) : Py value :=
  selected <~ for_in l (fun acc h =>
                          b <~ cond h ;;
                          ret (if b then acc ++ [h] else acc)) [] ;;
  alloc (OList selected).

Fixpoint map_py {A B : Type} (f : A -> Py B) (l : list A) : Py (list B) :=
  match l with
  | [] => ret []
  | x :: t =>
      y <~ f x ;;
      r <~ map_py f t ;;
      ret (y :: r)
  end.

(** [sorted(l, key=key)] for [str] keys: the items are copied, their keys
    computed once each, in the order of the items, and the copy is sorted;
    the result is a new list. *)
Definition py_sorted (l : value) (key : value -> Py string) : Py value :=
  items <~ items_of l ;;
  keyed <~ map_py (fun x => k <~ key x ;; ret (k, x)) items ;;
  alloc (OList (map snd (sorted fst keyed))).

(** [min(l, key=key)] for [str] keys: the first item of the least key. *)
Definition py_min (l : value) (key : value -> Py string) : Py value :=
  best <~ for_in l (fun best x =>
                      k <~ key x ;;
                      ret (match best with
                           | None => Some (k, x)
                           | Some (kb, _) =>
                               if String.ltb k kb then Some (k, x) else best
                           end)) None ;;
  match best with
  | Some (_, x) => ret x
  | None => raise ValueError
  end.

(** [l[-1]]. *)
Definition last_item (l : value) : Py value :=
  match l with
  | VRef r =>
      o <~ load r ;;
      match o with
      | OList items =>
          match last_or_none items with
          | Some x => ret x
          | None => raise IndexError
          end
      | ODict _ => raise KeyError
      end
  | _ => raise TypeError
  end.

(** ** Lines 75-123 on the heap *)

(** [get_volume(v)]. *)
Definition get_volume_py (donation_type : value) : Z :=
  if py_eq donation_type "200ml全血" then 200%Z
  else if py_eq donation_type "400ml全血" then 400%Z
  else 0%Z.

(** [lambda x: x['start']] as a sort key; a key that is not a [str] ends in
    TypeError. *)
Definition start_key (x : value) : Py string :=
  v <~ getitem x "start" ;;
  match v with
  | VStr s => ret s
  | _ => raise TypeError
  end.

(** [datetime.datetime.strptime(h['start'], "%Y-%m-%d").date()]. *)
Definition start_date (h : value) : Py date :=
  v <~ getitem h "start" ;;
  py_strptime v.

(** [sub in h['title']]. *)
Definition title_has (sub : string) (h : value) : Py bool :=
  v <~ getitem h "title" ;;
  py_in sub v.

(** [h['title'] == s]. *)
Definition title_is (s : string) (h : value) : Py bool :=
  v <~ getitem h "title" ;;
  ret (py_eq v s).

(** Lines 97-104. *)
Definition next_available_after_py (last_donation : value) (don_type gender : string)
  : Py date :=
  last_date <~ start_date last_donation ;;
  let next_available := last_date in
  whole <~ title_has "全血" last_donation ;;
  if whole then
    if (don_type =? "成分献血")%string then lift (rd_add (rd_weeks 8) next_available)
    else
      is400 <~ title_is "400ml全血" last_donation ;;
      if is400
      then lift (rd_add (rd_weeks (if (gender =? "男性")%string then 12 else 16))
                        next_available)
      else
        is200 <~ title_is "200ml全血" last_donation ;;
        if is200 then lift (rd_add (rd_weeks 4) next_available)
        else ret next_available
  else
    component <~ title_has "成分" last_donation ;;
    if component then lift (rd_add (rd_weeks 2) next_available)
    else ret next_available.

(** Lines 96-107. *)
Definition minimum_interval_py (target_date : date) (last_donation : value)
    (gender don_type : string) : Py (option date) :=
  some <~ truthy last_donation ;;
  if some then
    next_available <~ next_available_after_py last_donation don_type gender ;;
    ret (if (target_date <? next_available)%date then Some next_available else None)
  else ret None.

(** Lines 109-120.  In [a < d < b and c] the date [d] is computed once and
    [c] only when the comparisons hold. *)
Definition annual_cap_py (target_date : date) (sorted_history : value)
    (gender don_type : string) : Py (option date) :=
  if contains "全血" don_type then
    window_start <~ lift (rd_sub target_date (rd_years 1)) ;;
    relevant_history <~
      comprehension sorted_history
        (fun h =>
           d <~ start_date h ;;
           if (window_start <? d)%date && (d <? target_date)%date
           then title_has "全血" h else ret false) ;;
    volume_in_year <~
      for_in relevant_history
        (fun total h =>
           t <~ getitem h "title" ;;
           ret (total + get_volume_py t)%Z) 0%Z ;;
    cap <~ lift (dict_item MAX_VOLUME gender) ;;
    if (cap <? volume_in_year + get_volume don_type)%Z then
      donations_in_window <~
        comprehension sorted_history
          (fun h =>
             lo <~ lift (rd_sub target_date (rd_years 1)) ;;
             d <~ start_date h ;;
             if (lo <=? d)%date && (d <? target_date)%date
             then title_has "全血" h else ret false) ;;
      some <~ truthy donations_in_window ;;
      if some then
        first_donation_in_window <~ py_min donations_in_window start_key ;;
        d <~ start_date first_donation_in_window ;;
        block_lift_date <~ lift (rd_add (rd_years 1) d) ;;
        ret (Some block_lift_date)
      else ret None
    else ret None
  else ret None.

(** The body of the loop of lines 87-122 up to the assignment: the dict
    display that is stored for the type. *)
Definition check_type_py (target_date : date) (sorted_history last_donation : value)
    (gender : string) (age_on_date : Z) (don_type : string) : Py (dict value) :=
  if negb (is_age_ok don_type gender age_on_date)
  then ret [("available", VBool false); ("reason", VStr "年齢制限")]
  else
    blocked <~ minimum_interval_py target_date last_donation gender don_type ;;
    match blocked with
    | Some next_available =>
        ret [("available", VBool false); ("reason", VStr "献血間隔");
             ("next", VStr (strftime next_available))]
    | None =>
        capped <~ annual_cap_py target_date sorted_history gender don_type ;;
        match capped with
        | Some block_lift_date =>
            ret [("available", VBool false); ("reason", VStr "年間総採血量上限");
                 ("next", VStr (strftime block_lift_date))]
        | None => ret [("available", VBool true)]
        end
    end.

(** [for don_type in types: results[don_type] = {...}]: the dict of the
    type is created and assigned to its key of [results]. *)
Fixpoint for_each_py (types : list string) (body : string -> Py (dict value))
    (results : value) : Py unit :=
  match types with
  | [] => ret tt
  | don_type :: rest =>
      display <~ body don_type ;;
      entry <~ alloc (ODict display) ;;
      _ <~ setitem results don_type entry ;;
      for_each_py rest body results
  end.

Definition check_availability_py (target_date : date) (history : value)
    (gender : string) (birthday : date) : Py value :=
  results <~ alloc (ODict []) ;;
  delta <~ lift (relativedelta_between target_date birthday) ;;
  let age_on_date := years delta in
  sorted_history <~ py_sorted history start_key ;;
  donations_before_target <~
    comprehension sorted_history
      (fun h => d <~ start_date h ;; ret (d <? target_date)%date) ;;
  some <~ truthy donations_before_target ;;
  last_donation <~ (if some then last_item donations_before_target else ret VNone) ;;
  _ <~ for_each_py ALL_TYPES
         (check_type_py target_date sorted_history last_donation gender age_on_date)
         results ;;
  ret results.

(** ** What the heap holds *)

(** The record a dict holds: the six texts stored at line 158. *)
Definition record_of_dict (d : dict value) : option record :=
  match dict_get d "id", dict_get d "title", dict_get d "start",
        dict_get d "location", dict_get d "notes", dict_get d "color" with
  | Some (VStr i), Some (VStr t), Some (VStr s),
    Some (VStr p), Some (VStr n), Some (VStr c) => Some (mkrecord i t s p n c)
  | _, _, _, _, _, _ => None
  end.

Definition record_at (hp : heap) (v : value) : option record :=
  match v with
  | VRef l =>
      match nth_error hp l with
      | Some (ODict d) => record_of_dict d
      | _ => None
      end
  | _ => None
  end.

Fixpoint records_at (hp : heap) (items : list value) : option (list record) :=
  match items with
  | [] => Some []
  | v :: t =>
      match record_at hp v, records_at hp t with
      | Some r, Some rs => Some (r :: rs)
      | _, _ => None
      end
  end.

(** The items of the list a reference points to. *)
Definition list_at (hp : heap) (v : value) : option (list value) :=
  match v with
  | VRef l =>
      match nth_error hp l with
      | Some (OList items) => Some items
      | _ => None
      end
  | _ => None
  end.

(** The history a reference stands for: a list of references to dicts that
    hold records.  One dict may be referred to more than once. *)
Definition history_at (hp : heap) (v : value) : option (list record) :=
  match list_at hp v with
  | Some items => records_at hp items
  | None => None
  end.

(** The text under a key that may be absent. *)
Definition text_under (d : dict value) (k : string) : option (option string) :=
  match dict_get d k with
  | None => Some None
  | Some (VStr s) => Some (Some s)
  | Some _ => None
  end.

Definition verdict_of_dict (d : dict value) : option verdict :=
  match dict_get d "available", text_under d "reason", text_under d "next" with
  | Some (VBool a), Some r, Some n => Some (mkverdict a r n)
  | _, _, _ => None
  end.

Definition verdict_at (hp : heap) (v : value) : option verdict :=
  match v with
  | VRef l =>
      match nth_error hp l with
      | Some (ODict d) => verdict_of_dict d
      | _ => None
      end
  | _ => None
  end.

Fixpoint verdicts_at (hp : heap) (d : dict value) : option (dict verdict) :=
  match d with
  | [] => Some []
  | (k, v) :: t =>
      match verdict_at hp v, verdicts_at hp t with
      | Some x, Some r => Some ((k, x) :: r)
      | _, _ => None
      end
  end.

(** The verdict map a returned reference stands for. *)
Definition results_at (hp : heap) (v : value) : option (dict verdict) :=
  match v with
  | VRef l =>
      match nth_error hp l with
      | Some (ODict d) => verdicts_at hp d
      | _ => None
      end
  | _ => None
  end.

(** The outcome of a call: the verdict map it returns or the exception it
    raises. *)
Definition outcome_at (hp : heap) (res : result value) : option (result (dict verdict)) :=
  match res with
  | Ok v =>
      match results_at hp v with
      | Some results => Some (Ok results)
      | None => None
      end
  | Raise e => Some (Raise e)
  end.

(** The dict display of a verdict. *)
Definition display_of (v : verdict) : dict value :=
  ("available"%string, VBool (available v)) ::
  match reason v with Some r => [("reason"%string, VStr r)] | None => [] end ++
  match next v with Some n => [("next"%string, VStr n)] | None => [] end.

(** A loop whose body may raise, on immutable values. *)
Fixpoint foldM {T A : Type} (f : T -> A -> result T) (l : list A) (acc : T)
  : result T :=
  match l with
  | [] => Ok acc
  | x :: t =>
      acc <- f acc x ;;
      foldM f t acc
  end.

(** ** What a step may do to the heap *)

(** The step [c] changes no object of [hp0]: from a heap that begins with
    [hp0] it leads to a heap that begins with [hp0], whatever else it
    creates or changes, and whether it returns or raises. *)
Definition keeps (hp0 : heap) {A : Type} (c : Py A) : Prop :=
  forall rest, exists rest', snd (c (hp0 ++ rest)) = hp0 ++ rest'.

(** * Properties *)

(** [lia] also decides goals with division and remainder by constants. *)
Ltac Zify.zify_post_hook ::= Z.to_euclidean_division_equations.

(** ** The error monad *)

Lemma bind_Ok {A B : Type} (c : result A) (k : A -> result B) (b : B) :
  bind c k = Ok b -> exists a, c = Ok a /\ k a = Ok b.
Proof. destruct c as [a|e]; simpl; intros H; [eauto | discriminate]. Qed.

Lemma filterM_pure {A : Type} (p : A -> result bool) (q : A -> bool) (l : list A) :
  Forall (fun h => p h = Ok (q h)) l -> filterM p l = Ok (filter q l).
Proof.
  induction 1 as [|h t Hh _ IH]; simpl; [reflexivity|].
  rewrite Hh, IH. simpl. reflexivity.
Qed.

Lemma filterM_Ok {A : Type} (p : A -> result bool) (l r : list A) :
  filterM p l = Ok r ->
  exists q, Forall (fun h => p h = Ok (q h)) l /\ r = filter q l.
Proof.
  revert r. induction l as [|h t IH]; simpl; intros r H.
  - inversion H. exists (fun _ => true). split; constructor.
  - apply bind_Ok in H. destruct H as (b & Hb & H).
    apply bind_Ok in H. destruct H as (r' & Hr' & H).
    inversion H; subst; clear H.
    destruct (IH _ Hr') as (q & Hq & ->).
    exists (fun x => match p x with Ok c => c | Raise _ => false end).
    split.
    + constructor; [rewrite Hb; reflexivity|].
      rewrite Forall_forall in *. intros x Hx. rewrite (Hq x Hx). reflexivity.
    + simpl. rewrite Hb.
      assert (E : filter q t =
                  filter (fun x => match p x with Ok c => c | Raise _ => false end) t).
      { apply filter_ext_in. intros x Hx. rewrite Forall_forall in Hq.
        rewrite (Hq x Hx). reflexivity. }
      rewrite E. reflexivity.
Qed.

(** ** Calendar facts *)

Lemma days_in_month_bounds (y m : Z) : 28 <= days_in_month y m <= 31.
Proof.
  unfold days_in_month.
  destruct (m =? 2); [destruct (isleap y); lia|].
  destruct ((m =? 4) || (m =? 6) || (m =? 9) || (m =? 11))%bool; lia.
Qed.

Ltac date_simpl :=
  unfold date_leb, date_ltb, date_eqb, valid_date, MINYEAR, MAXYEAR in *;
  simpl year in *; simpl month in *; simpl day in *.

Lemma date_ltb_irrefl (a : date) : (a <? a)%date = false.
Proof. date_simpl. lia. Qed.

Lemma date_ltb_trans (a b c : date) :
  (a <? b)%date = true -> (b <? c)%date = true -> (a <? c)%date = true.
Proof. date_simpl. lia. Qed.

Lemma date_ltb_asym (a b : date) : (a <? b)%date = true -> (b <? a)%date = false.
Proof. date_simpl. lia. Qed.

Lemma date_eqb_eq (a b : date) : date_eqb a b = true <-> a = b.
Proof.
  destruct a, b. date_simpl. split.
  - intros H. f_equal; lia.
  - intros H. inversion H. lia.
Qed.

Lemma date_leb_ltb (a b : date) : (a <=? b)%date = negb (b <? a)%date.
Proof. date_simpl. lia. Qed.

Lemma date_total (a b : date) :
  (a <? b)%date = false -> (b <? a)%date = false -> a = b.
Proof.
  intros H1 H2. apply date_eqb_eq. revert H1 H2. date_simpl. lia.
Qed.

Lemma new_date_Ok (y m d : Z) (r : date) :
  new_date y m d = Ok r -> r = mkdate y m d /\ valid_date r = true.
Proof.
  unfold new_date. destruct (valid_date (mkdate y m d)) eqn:E; [|discriminate].
  intros H. inversion H. subst. auto.
Qed.

Lemma new_date_valid (d : date) : valid_date d = true -> new_date (year d) (month d) (day d) = Ok d.
Proof. unfold new_date. destruct d; simpl. intros ->. reflexivity. Qed.

Lemma tomorrow_Ok (d d' : date) :
  valid_date d = true -> tomorrow d = Ok d' ->
  valid_date d' = true /\ (d <? d')%date = true.
Proof.
  unfold tomorrow. intros V.
  pose proof (days_in_month_bounds (year d) (month d)) as B.
  pose proof (days_in_month_bounds (year d) (month d + 1)) as B1.
  destruct (day d <? days_in_month (year d) (month d)) eqn:E1.
  { intros H; inversion H; subst; clear H. date_simpl. lia. }
  destruct (month d <? 12) eqn:E2.
  { intros H; inversion H; subst; clear H. date_simpl. lia. }
  destruct (year d <? MAXYEAR) eqn:E3; [|discriminate].
  intros H; inversion H; subst; clear H.
  assert (days_in_month (year d + 1) 1 = 31) by reflexivity.
  date_simpl. lia.
Qed.

Lemma add_days_Ok (n : nat) (d d' : date) :
  valid_date d = true -> add_days d n = Ok d' ->
  valid_date d' = true /\ (d' <? d)%date = false.
Proof.
  revert d. induction n as [|n IH]; simpl; intros d V H.
  - inversion H; subst. split; [assumption | apply date_ltb_irrefl].
  - apply bind_Ok in H. destruct H as (d1 & H1 & H2).
    destruct (tomorrow_Ok _ _ V H1) as [V1 L1].
    destruct (IH _ V1 H2) as [V2 L2]. split; [assumption|].
    revert L1 L2. date_simpl. lia.
Qed.

Lemma add_days_plus (n m : nat) (d : date) :
  add_days d (n + m) = (d' <- add_days d n ;; add_days d' m).
Proof.
  revert d. induction n as [|n IH]; simpl; intros d; [reflexivity|].
  destruct (tomorrow d) as [d1|e]; simpl; [apply IH | reflexivity].
Qed.

(** ** Date arithmetic of relativedelta *)

Lemma rd_add_set_months (dt2 : date) (ms : Z) :
  valid_date dt2 = true ->
  12 <= month_index dt2 + ms < 120000 ->
  let idx := month_index dt2 + ms in
  rd_add (set_months ms) dt2 =
  Ok (mkdate (idx / 12) (idx mod 12 + 1)
             (Z.min (days_in_month (idx / 12) (idx mod 12 + 1)) (day dt2))).
Proof.
  intros V R idx.
  assert (Hym :
    (let y := year dt2 + years (set_months ms) in
     let m := month dt2 in
     if months (set_months ms) =? 0 then (y, m)
     else
       let m := m + months (set_months ms) in
       if 12 <? m then (y + 1, m - 12)
       else if m <? 1 then (y - 1, m + 12)
       else (y, m)) = (idx / 12, idx mod 12 + 1)).
  { subst idx. unfold month_index in *. unfold set_months.
    revert V. date_simpl. intros V.
    destruct (11 <? Z.abs ms) eqn:E; cbn [years months];
      [destruct (Z.sgn_spec ms) as [[Hs ->]|[[Hs ->]|[Hs ->]]]; try lia|];
      repeat match goal with
             | |- context [if ?c then _ else _] => destruct c eqn:?
             end; f_equal; lia. }
  unfold rd_add. cbv zeta in Hym. rewrite Hym. cbn [fst snd].
  assert (Hd : days (set_months ms) = 0).
  { unfold set_months. destruct (11 <? Z.abs ms); reflexivity. }
  rewrite Hd.
  pose proof (days_in_month_bounds (idx / 12) (idx mod 12 + 1)) as B.
  unfold new_date.
  assert (Hv : valid_date (mkdate (idx / 12) (idx mod 12 + 1)
             (Z.min (days_in_month (idx / 12) (idx mod 12 + 1)) (day dt2))) = true).
  { subst idx. revert V. date_simpl. lia. }
  rewrite Hv. reflexivity.
Qed.

Ltac split_ifs :=
  repeat match goal with
         | |- context [if ?c then _ else _] => destruct c eqn:?
         end.

(** The loop of [relativedelta(dt1, dt2)] ends within its budget, and no
    date computed on the way leaves the calendar. *)
Lemma relativedelta_between_total (dt1 dt2 : date) :
  valid_date dt1 = true -> valid_date dt2 = true ->
  exists rd, relativedelta_between dt1 dt2 = Ok rd /\
             years rd = years (set_months (months_between dt1 dt2)) /\
             months rd = months (set_months (months_between dt1 dt2)).
Proof.
  intros V1 V2. unfold relativedelta_between.
  set (ms := (year dt1 - year dt2) * 12 + (month dt1 - month dt2)).
  assert (I0 : month_index dt2 + ms = year dt1 * 12 + (month dt1 - 1))
    by (unfold month_index; lia).
  assert (R0 : 12 <= month_index dt2 + ms < 120000)
    by (rewrite I0; revert V1; date_simpl; lia).
  rewrite (rd_add_set_months dt2 ms V2 R0). cbv zeta. rewrite I0.
  replace ((year dt1 * 12 + (month dt1 - 1)) / 12) with (year dt1)
    by (revert V1; date_simpl; lia).
  replace ((year dt1 * 12 + (month dt1 - 1)) mod 12 + 1) with (month dt1)
    by (revert V1; date_simpl; lia).
  cbn [bind].
  set (dm := Z.min (days_in_month (year dt1) (month dt1)) (day dt2)).
  pose proof (days_in_month_bounds (year dt1) (month dt1)) as B.
  assert (Hfin : forall k, 12 <= month_index dt2 + k < 120000 ->
            exists rd,
              (dtm <- rd_add (set_months k) dt2 ;;
               Ok (mkrd (years (set_months k)) (months (set_months k))
                        (toordinal dt1 - toordinal dtm))) = Ok rd /\
              years rd = years (set_months k) /\ months rd = months (set_months k)).
  { intros k Rk. rewrite (rd_add_set_months dt2 k V2 Rk). cbn [bind].
    eexists. split; [reflexivity|]. split; reflexivity. }
  unfold months_between. fold ms. fold dm.
  destruct (dt1 <? dt2)%date eqn:L.
  - (* dt1 before dt2: the loop moves forward *)
    cbn [adjust_months].
    destruct ({| year := year dt1; month := month dt1; day := dm |} <? dt1)%date eqn:C.
    + assert (Hd : (dm <? day dt1) = true) by (revert C; date_simpl; lia).
      rewrite Hd.
      assert (R1 : 12 <= month_index dt2 + (ms + 1) < 120000).
      { revert V1 V2 L Hd. unfold month_index, ms, dm. date_simpl. lia. }
      rewrite (rd_add_set_months dt2 (ms + 1) V2 R1). cbv zeta. cbn [bind].
      replace (month_index dt2 + (ms + 1)) with (year dt1 * 12 + month dt1)
        by (unfold month_index in *; lia).
      match goal with
      | |- context [(?a <? dt1)%date] =>
          assert (C1 : (a <? dt1)%date = false)
            by (revert V1; date_simpl; lia);
          rewrite C1
      end.
      cbn [bind]. apply Hfin. exact R1.
    + assert (Hd : (dm <? day dt1) = false) by (revert C; date_simpl; lia).
      rewrite Hd. cbn [bind]. apply Hfin. exact R0.
  - (* dt1 not before dt2: the loop moves backward *)
    cbn [adjust_months].
    destruct (dt1 <? {| year := year dt1; month := month dt1; day := dm |})%date eqn:C.
    + assert (Hd : (day dt1 <? dm) = true) by (revert C; date_simpl; lia).
      rewrite Hd.
      assert (R1 : 12 <= month_index dt2 + (ms + -1) < 120000).
      { revert V1 V2 L Hd. unfold month_index, ms, dm. date_simpl. lia. }
      rewrite (rd_add_set_months dt2 (ms + -1) V2 R1). cbv zeta. cbn [bind].
      replace (month_index dt2 + (ms + -1)) with (year dt1 * 12 + (month dt1 - 2))
        by (unfold month_index in *; lia).
      match goal with
      | |- context [(dt1 <? ?a)%date] =>
          assert (C1 : (dt1 <? a)%date = false)
            by (revert V1; date_simpl; lia);
          rewrite C1
      end.
      cbn [bind]. replace (ms - 1) with (ms + -1) by lia. apply Hfin. exact R1.
    + assert (Hd : (day dt1 <? dm) = false) by (revert C; date_simpl; lia).
      rewrite Hd. cbn [bind]. apply Hfin. exact R0.
Qed.

(** ** The age *)

Lemma years_set_months_nonpos (ms : Z) : ms <= 0 -> years (set_months ms) <= 0.
Proof.
  intros H. unfold set_months. destruct (11 <? Z.abs ms) eqn:E; cbn [years]; [|lia].
  destruct (Z.sgn_spec ms) as [[Hs ->]|[[Hs ->]|[Hs ->]]]; lia.
Qed.

Lemma years_set_months_nonneg (ms : Z) : 0 <= ms -> years (set_months ms) = ms / 12.
Proof.
  intros H. unfold set_months. destruct (11 <? Z.abs ms) eqn:E; cbn [years]; [|lia].
  destruct (Z.sgn_spec ms) as [[Hs ->]|[[Hs ->]|[Hs ->]]]; lia.
Qed.

(** Before the birth date the age is not positive. *)
Lemma age_before_birth (target_date birthday : date) :
  valid_date target_date = true -> valid_date birthday = true ->
  (target_date <? birthday)%date = true -> age_at target_date birthday <= 0.
Proof.
  intros V1 V2 L. unfold age_at. apply years_set_months_nonpos.
  unfold months_between. rewrite L.
  pose proof (days_in_month_bounds (year target_date) (month target_date)).
  revert V1 V2 L. date_simpl. split_ifs; lia.
Qed.

(** The age never exceeds the difference of the calendar years. *)
Lemma age_le_year_diff (target_date birthday : date) :
  valid_date target_date = true -> valid_date birthday = true ->
  0 < age_at target_date birthday ->
  age_at target_date birthday <= year target_date - year birthday.
Proof.
  intros V1 V2. unfold age_at.
  destruct (Z_le_gt_dec 0 (months_between target_date birthday)) as [P|N].
  - rewrite (years_set_months_nonneg _ P).
    revert P. unfold months_between.
    pose proof (days_in_month_bounds (year target_date) (month target_date)).
    revert V1 V2. date_simpl. split_ifs; lia.
  - pose proof (years_set_months_nonpos (months_between target_date birthday)). lia.
Qed.

(** The age the engine reads is the age by month and day, but for the
    clipped leap day. *)
Lemma age_at_month_day (target_date birthday : date) :
  valid_date target_date = true -> valid_date birthday = true ->
  (birthday <=? target_date)%date = true ->
  age_at target_date birthday =
  age_by_month_day target_date birthday +
  (if leap_day_clipped target_date birthday then 1 else 0).
Proof.
  intros V1 V2 L. unfold age_at.
  assert (N : (target_date <? birthday)%date = false).
  { rewrite date_leb_ltb in L. destruct (target_date <? birthday)%date; [discriminate|reflexivity]. }
  assert (P : 0 <= months_between target_date birthday).
  { unfold months_between. rewrite N.
    pose proof (days_in_month_bounds (year target_date) (month target_date)).
    revert V1 V2 N. date_simpl. split_ifs; lia. }
  rewrite (years_set_months_nonneg _ P). clear P.
  unfold months_between, age_by_month_day, leap_day_clipped, born_on_leap_day.
  rewrite N. clear L.
  revert V1 V2 N. date_simpl. unfold days_in_month.
  split_ifs; lia.
Qed.

Lemma isleap_eighteen_years_later (y : Z) : isleap y = true -> isleap (y + 18) = false.
Proof. unfold isleap. lia. Qed.

Lemma days_in_month_cases (y m : Z) :
  (m = 2 /\ days_in_month y m = (if isleap y then 29 else 28)) \/
  (m <> 2 /\ 30 <= days_in_month y m <= 31).
Proof. unfold days_in_month. split_ifs; lia. Qed.

(** The day on which the age by month and day becomes eighteen, and the
    day before. *)
Lemma eve_of_eighteenth_birthday (eve target_date birthday : date) :
  valid_date eve = true -> valid_date birthday = true ->
  tomorrow eve = Ok target_date ->
  age_by_month_day target_date birthday = 18 ->
  age_by_month_day eve birthday = 17 ->
  leap_day_clipped target_date birthday = false /\
  leap_day_clipped eve birthday = born_on_leap_day birthday /\
  (born_on_leap_day birthday = true -> eve = mkdate (year birthday + 18) 2 28).
Proof.
  intros V0 V2 T. destruct eve as [ye me de]. revert T. unfold tomorrow.
  cbn [year month day].
  pose proof (isleap_eighteen_years_later (year birthday)) as Leap.
  assert (Y : ye = year birthday + 18 -> isleap ye = isleap (year birthday + 18))
    by (intros ->; reflexivity).
  pose proof (days_in_month_cases ye me) as De.
  pose proof (days_in_month_cases (year birthday) (month birthday)) as Db.
  revert V0 V2 De Db. date_simpl.
  generalize (days_in_month ye me) (days_in_month (year birthday) (month birthday)).
  intros dim_e dim_b V0 V2 De Db.
  destruct (de <? dim_e) eqn:E1;
    [|destruct (me <? 12) eqn:E2;
      [|destruct (ye <? 9999) eqn:E3; [|discriminate]]];
    intros T; inversion T; subst target_date; clear T;
    unfold age_by_month_day, leap_day_clipped, born_on_leap_day;
    cbn [year month day]; intros A18 A17.
  all: repeat split; try (intros B; f_equal).
  all: revert V0 V2 E1 A18 A17 Leap Y De Db; try revert B; try revert E2; try revert E3.
  all: (split_ifs;
             repeat match goal with
                    | |- context [isleap ?y] => destruct (isleap y) eqn:?
                    end; lia).
Qed.

(** ** Day numbers *)

Lemma fold_right_add_app (l : list Z) (x : Z) :
  fold_right Z.add 0 (l ++ [x]) = fold_right Z.add 0 l + x.
Proof. induction l as [|a l IH]; simpl; lia. Qed.

Lemma days_before_month_succ (y m : Z) :
  1 <= m -> days_before_month y (m + 1) = days_before_month y m + days_in_month y m.
Proof.
  intros H. unfold days_before_month.
  replace (Z.to_nat (m + 1 - 1)) with (S (Z.to_nat (m - 1))) by lia.
  rewrite seq_S, !map_app. cbn [map]. rewrite fold_right_add_app.
  replace (Z.of_nat (1 + Z.to_nat (m - 1))) with m by lia. reflexivity.
Qed.

Lemma days_before_month_year_end (y m : Z) :
  1 <= m <= 12 ->
  0 <= days_before_month y m /\
  days_before_month y m + days_in_month y m <= (if isleap y then 366 else 365) /\
  days_before_month y 12 + 31 = (if isleap y then 366 else 365).
Proof.
  intros H.
  assert (C : m = 1 \/ m = 2 \/ m = 3 \/ m = 4 \/ m = 5 \/ m = 6 \/ m = 7 \/
              m = 8 \/ m = 9 \/ m = 10 \/ m = 11 \/ m = 12) by lia.
  unfold days_before_month, days_in_month.
  repeat (destruct C as [->|C]); try subst m; destruct (isleap y);
    repeat split; (reflexivity || (vm_compute; discriminate)).
Qed.

Lemma days_before_year_succ (y : Z) :
  days_before_year (y + 1) = days_before_year y + (if isleap y then 366 else 365).
Proof.
  unfold days_before_year, isleap. cbv zeta.
  replace (y + 1 - 1) with y by lia.
  split_ifs; lia.
Qed.

Lemma toordinal_bounds (d : date) :
  valid_date d = true ->
  days_before_year (year d) < toordinal d <= days_before_year (year d + 1).
Proof.
  intros V. unfold toordinal. rewrite days_before_year_succ.
  assert (M : 1 <= month d <= 12) by (revert V; date_simpl; lia).
  destruct (days_before_month_year_end (year d) (month d) M) as (A & B & _).
  revert V. date_simpl. lia.
Qed.

(** [tomorrow] is the day whose number is one more: the calendar walk of
    [add_days] agrees with Python's arithmetic on day numbers. *)
Lemma toordinal_tomorrow (d d' : date) :
  valid_date d = true -> tomorrow d = Ok d' -> toordinal d' = toordinal d + 1.
Proof.
  intros V. unfold tomorrow, toordinal.
  assert (M : 1 <= month d <= 12) by (revert V; date_simpl; lia).
  destruct (day d <? days_in_month (year d) (month d)) eqn:E1.
  { intros H; inversion H; subst; simpl. lia. }
  destruct (month d <? 12) eqn:E2.
  { intros H; inversion H; subst; simpl.
    rewrite days_before_month_succ by lia. revert V. date_simpl. lia. }
  destruct (year d <? MAXYEAR) eqn:E3; [|discriminate].
  intros H; inversion H; subst; simpl.
  rewrite days_before_year_succ.
  destruct (days_before_month_year_end (year d) 12 ltac:(lia)) as (_ & _ & Y).
  assert (M12 : month d = 12) by lia.
  rewrite M12 in *.
  assert (D : day d = 31).
  { assert (days_in_month (year d) 12 = 31) by reflexivity.
    revert V. date_simpl. rewrite M12. lia. }
  rewrite D. change (days_before_month (year d + 1) 1) with 0. lia.
Qed.

Lemma toordinal_add_days (n : nat) (d d' : date) :
  valid_date d = true -> add_days d n = Ok d' ->
  toordinal d' = toordinal d + Z.of_nat n.
Proof.
  revert d. induction n as [|n IH]; intros d V H.
  - simpl in H. inversion H. lia.
  - simpl in H. apply bind_Ok in H. destruct H as (d1 & H1 & H2).
    destruct (tomorrow_Ok _ _ V H1) as [V1 _].
    rewrite (IH _ V1 H2), (toordinal_tomorrow _ _ V H1). lia.
Qed.

Lemma days_before_year_mono (y z : Z) : y <= z -> days_before_year y <= days_before_year z.
Proof. unfold days_before_year. cbv zeta. lia. Qed.

(** Up to a year after a date of a year before 9999, the calendar does not
    end. *)
Lemma add_days_total (n : nat) (d : date) :
  valid_date d = true -> year d < MAXYEAR -> (n <= 365)%nat ->
  exists d', add_days d n = Ok d'.
Proof.
  intros V Y. induction n as [|n IH]; intros N.
  - exists d. reflexivity.
  - destruct IH as (d1 & H1); [lia|].
    replace (S n) with (n + 1)%nat by lia.
    rewrite add_days_plus, H1. cbn [bind add_days].
    destruct (add_days_Ok _ _ _ V H1) as [V1 _].
    pose proof (toordinal_add_days _ _ _ V H1) as O.
    unfold tomorrow.
    destruct (day d1 <? days_in_month (year d1) (month d1)) eqn:E1;
      [eexists; reflexivity|].
    destruct (month d1 <? 12) eqn:E2; [eexists; reflexivity|].
    destruct (year d1 <? MAXYEAR) eqn:E3; [eexists; reflexivity|].
    exfalso.
    pose proof (toordinal_bounds d V) as B.
    assert (Y1 : year d1 = 9999) by (revert V1 E3; date_simpl; lia).
    assert (M1 : month d1 = 12) by (revert V1 E2; date_simpl; lia).
    assert (D1 : day d1 = 31).
    { assert (days_in_month (year d1) 12 = 31) by reflexivity.
      revert V1 E1. date_simpl. rewrite M1. lia. }
    pose proof (days_before_year_mono (year d + 1) 9999
                  ltac:(unfold MAXYEAR in *; lia)) as Mo.
    destruct (days_before_month_year_end 9999 12 ltac:(lia)) as (_ & _ & E).
    pose proof (days_before_year_succ 9999) as S9.
    unfold toordinal in O at 1. rewrite Y1, M1, D1 in O.
    destruct (isleap 9999); lia.
Qed.

Lemma add_timedelta_0 (d : date) : add_timedelta d 0 = Ok d.
Proof. reflexivity. Qed.

Lemma rd_add_weeks (w : Z) (d : date) :
  valid_date d = true -> 0 <= w ->
  rd_add (rd_weeks w) d = add_days d (Z.to_nat (w * 7)).
Proof.
  intros V W. unfold rd_add, rd_weeks. cbn [years months days fst snd Z.eqb].
  replace (year d + 0) with (year d) by lia.
  replace (Z.min (days_in_month (year d) (month d)) (day d)) with (day d)
    by (revert V; date_simpl; lia).
  rewrite (new_date_valid d V). cbn [bind]. unfold add_timedelta.
  replace (0 <=? w * 7) with true by lia. reflexivity.
Qed.

Lemma shift_year_valid (d : date) (n : Z) :
  valid_date d = true -> MINYEAR <= year d + n <= MAXYEAR ->
  valid_date (shift_year d n) = true.
Proof.
  intros V R. pose proof (days_in_month_bounds (year d + n) (month d)).
  revert V R. unfold shift_year. date_simpl. lia.
Qed.

Lemma rd_sub_year (d : date) :
  valid_date d = true -> MINYEAR < year d ->
  rd_sub d (rd_years 1) = Ok (shift_year d (-1)).
Proof.
  intros V Y. unfold rd_sub, rd_add, rd_neg, rd_years.
  cbn [years months days fst snd Z.eqb Z.opp].
  pose proof (shift_year_valid d (-1) V ltac:(revert V; date_simpl; lia)) as S.
  unfold new_date. unfold shift_year in S. rewrite S. reflexivity.
Qed.

Lemma rd_add_year (d : date) :
  valid_date d = true -> year d < MAXYEAR ->
  rd_add (rd_years 1) d = Ok (shift_year d 1).
Proof.
  intros V Y. unfold rd_add, rd_years.
  cbn [years months days fst snd Z.eqb].
  pose proof (shift_year_valid d 1 V ltac:(revert V; date_simpl; lia)) as S.
  unfold new_date. unfold shift_year in S. rewrite S. reflexivity.
Qed.

Lemma rd_sub_year_raises (d : date) :
  valid_date d = true -> year d = MINYEAR ->
  rd_sub d (rd_years 1) = Raise ValueError.
Proof.
  intros V Y. unfold rd_sub, rd_add, rd_neg, rd_years.
  cbn [years months days fst snd Z.eqb Z.opp].
  unfold new_date.
  match goal with |- context [valid_date ?r] =>
    assert (E : valid_date r = false) by (revert V Y; date_simpl; lia); rewrite E
  end. reflexivity.
Qed.

(** ** Dates as text *)

Section DateText.
Open Scope string_scope.
Open Scope Z_scope.

Lemma Z_range_forallb (P : Z -> bool) (lo : Z) (n : nat) :
  forallb P (map (fun k => lo + Z.of_nat k) (seq 0 n)) = true ->
  forall z, lo <= z < lo + Z.of_nat n -> P z = true.
Proof.
  intros H z R. rewrite forallb_forall in H. apply H.
  apply in_map_iff. exists (Z.to_nat (z - lo)). split; [lia|].
  apply in_seq. lia.
Qed.

Lemma comparison_eqb_eq (a b : comparison) : comparison_eqb a b = true -> a = b.
Proof. destruct a, b; simpl; congruence. Qed.

Lemma digit_val_digit (n : Z) : 0 <= n <= 9 -> digit_val (digit n) = Some n.
Proof.
  intros R.
  pose proof (Z_range_forallb
    (fun n => match digit_val (digit n) with Some k => k =? n | None => false end)
    0 10 eq_refl n ltac:(lia)) as H.
  cbv beta in H. destruct (digit_val (digit n)); [f_equal; lia | discriminate].
Qed.

Lemma digit_not_dash (n : Z) : 0 <= n <= 9 -> Ascii.eqb (digit n) "-" = false.
Proof.
  intros R.
  pose proof (Z_range_forallb (fun n => negb (Ascii.eqb (digit n) "-"))
    0 10 eq_refl n ltac:(lia)) as H.
  cbv beta in H. destruct (Ascii.eqb (digit n) "-"); [discriminate | reflexivity].
Qed.

Lemma compare_digit (i j : Z) :
  0 <= i <= 9 -> 0 <= j <= 9 -> Ascii.compare (digit i) (digit j) = (i ?= j).
Proof.
  intros Ri Rj. apply comparison_eqb_eq.
  pose proof (Z_range_forallb
    (fun i => forallb (fun j => comparison_eqb (Ascii.compare (digit i) (digit j)) (i ?= j))
                      (map (fun k => 0 + Z.of_nat k) (seq 0 10)))
    0 10 eq_refl i ltac:(lia)) as H.
  cbv beta in H.
  exact (Z_range_forallb _ 0 10 H j ltac:(lia)).
Qed.

Lemma cut_digit (n : Z) (s : string) :
  0 <= n <= 9 ->
  cut (String (digit n) s) =
  match cut s with Some (a, b) => Some (String (digit n) a, b) | None => None end.
Proof. intros R. cbn [cut]. rewrite (digit_not_dash n R). reflexivity. Qed.

Lemma month_of_pad2 (m : Z) : 1 <= m <= 12 -> month_of (pad2 m) = Some m.
Proof.
  intros R.
  pose proof (Z_range_forallb
    (fun n => match month_of (pad2 n) with Some k => k =? n | None => false end)
    1 12 eq_refl m ltac:(lia)) as H.
  cbv beta in H. destruct (month_of (pad2 m)); [f_equal; lia | discriminate].
Qed.

Lemma day_of_pad2 (d : Z) : 1 <= d <= 31 -> day_of (pad2 d) = Some d.
Proof.
  intros R.
  pose proof (Z_range_forallb
    (fun n => match day_of (pad2 n) with Some k => k =? n | None => false end)
    1 31 eq_refl d ltac:(lia)) as H.
  cbv beta in H. destruct (day_of (pad2 d)); [f_equal; lia | discriminate].
Qed.

Lemma cut_dash (s : string) : cut (String "-" s) = Some (EmptyString, s).
Proof. reflexivity. Qed.

Lemma cut_pad2 (n : Z) (s : string) :
  0 <= n <= 99 -> cut (pad2 n ++ String "-" s) = Some (pad2 n, s).
Proof.
  intros R. unfold pad2. cbn [append].
  rewrite !cut_digit by lia. rewrite cut_dash. reflexivity.
Qed.

Lemma cut_pad4 (n : Z) (s : string) :
  0 <= n <= 9999 -> cut (pad4 n ++ String "-" s) = Some (pad4 n, s).
Proof.
  intros R. unfold pad4, pad2. cbn [append].
  rewrite !cut_digit by lia. rewrite cut_dash. reflexivity.
Qed.

Lemma year_of_pad4 (n : Z) : 0 <= n <= 9999 -> year_of (pad4 n) = Some n.
Proof.
  intros R.
  assert (T : forallb
                (fun n => match year_of (pad4 n) with Some k => k =? n | None => false end)
                (map (fun k => 0 + Z.of_nat k) (seq 0 (Z.to_nat 10000))) = true)
    by (vm_compute; reflexivity).
  pose proof (Z_range_forallb _ 0 (Z.to_nat 10000) T n ltac:(lia)) as H.
  cbv beta in H. destruct (year_of (pad4 n)); [f_equal; lia | discriminate].
Qed.

(** Parsing the text of a date gives the date back. *)
Lemma strptime_strftime (d : date) :
  valid_date d = true -> strptime (strftime d) = Ok d.
Proof.
  intros V.
  pose proof (days_in_month_bounds (year d) (month d)) as B.
  assert (Ry : 1 <= year d <= 9999) by (revert V; date_simpl; lia).
  assert (Rm : 1 <= month d <= 12) by (revert V; date_simpl; lia).
  assert (Rd : 1 <= day d <= 31) by (revert V; date_simpl; lia).
  unfold strptime, strftime.
  change (pad4 (year d) ++ "-" ++ pad2 (month d) ++ "-" ++ pad2 (day d))
    with (pad4 (year d) ++ String "-" (pad2 (month d) ++ String "-" (pad2 (day d)))).
  rewrite cut_pad4 by lia. rewrite cut_pad2 by lia.
  rewrite year_of_pad4 by lia.
  rewrite (month_of_pad2 _ Rm), (day_of_pad2 _ Rd).
  apply new_date_valid. exact V.
Qed.

(** The year may be written with the decimal digits of any script, and so
    may the second digit of a day from 10 to 29; the month may not. *)
Example strptime_other_digits :
  strptime "２０２４-05-25" = Ok (mkdate 2024 5 25) /\
  strptime "2024-05-1٣" = Ok (mkdate 2024 5 13) /\
  strptime "2024-０5-13" = Raise ValueError /\
  strptime "2024-05-3٠" = Raise ValueError.
Proof. repeat split; vm_compute; reflexivity. Qed.

Lemma strftime_inj (a b : date) :
  valid_date a = true -> valid_date b = true -> strftime a = strftime b -> a = b.
Proof.
  intros Va Vb E. pose proof (strptime_strftime a Va) as Ha.
  rewrite E, (strptime_strftime b Vb) in Ha. congruence.
Qed.

Lemma pad2_compare (a b : Z) (s t : string) :
  0 <= a <= 99 -> 0 <= b <= 99 ->
  String.compare (pad2 a ++ s) (pad2 b ++ t) =
  match a ?= b with Eq => String.compare s t | c => c end.
Proof.
  intros Ra Rb. unfold pad2. cbn [append String.compare].
  rewrite !compare_digit by lia.
  destruct (Z.compare_spec (a / 10) (b / 10));
    destruct (Z.compare_spec (a mod 10) (b mod 10));
    destruct (Z.compare_spec a b); try lia; reflexivity.
Qed.

Lemma strftime_pad2 (d : date) :
  strftime d =
  pad2 (year d / 100) ++ pad2 (year d mod 100) ++
  String "-" (pad2 (month d) ++ String "-" (pad2 (day d) ++ "")).
Proof.
  unfold strftime, pad4, pad2. cbn [append].
  replace (year d / 100 / 10) with (year d / 1000) by lia. reflexivity.
Qed.

(** The texts of two dates are ordered as the dates are. *)
Lemma strftime_ltb (a b : date) :
  valid_date a = true -> valid_date b = true ->
  String.ltb (strftime a) (strftime b) = (a <? b)%date.
Proof.
  intros Va Vb.
  pose proof (days_in_month_bounds (year a) (month a)).
  pose proof (days_in_month_bounds (year b) (month b)).
  assert (Dash : forall s t, String.compare (String "-" s) (String "-" t) =
                             String.compare s t) by reflexivity.
  unfold String.ltb. rewrite !strftime_pad2.
  rewrite !pad2_compare by (revert Va Vb; date_simpl; lia).
  rewrite Dash.
  rewrite !pad2_compare by (revert Va Vb; date_simpl; lia).
  rewrite Dash.
  rewrite !pad2_compare by (revert Va Vb; date_simpl; lia).
  cbn [String.compare].
  revert Va Vb. date_simpl. intros Va Vb.
  destruct (Z.compare_spec (year a / 100) (year b / 100));
    destruct (Z.compare_spec (year a mod 100) (year b mod 100));
    destruct (Z.compare_spec (month a) (month b));
    destruct (Z.compare_spec (day a) (day b)); lia.
Qed.

End DateText.

(** ** The order of strings *)

Lemma str_ltb_lt (a b : string) : String.ltb a b = true <-> String_as_OT.lt a b.
Proof.
  unfold String.ltb. rewrite <- String_as_OT.cmp_lt. unfold String_as_OT.cmp.
  destruct (String.compare a b); split; congruence.
Qed.

Lemma str_ltb_irrefl (a : string) : String.ltb a a = false.
Proof.
  unfold String.ltb.
  assert (E : String.compare a a = Eq).
  { induction a as [|c a IH]; simpl; [reflexivity|].
    unfold Ascii.compare. rewrite N.compare_refl. exact IH. }
  rewrite E. reflexivity.
Qed.

Lemma str_ltb_trans (a b c : string) :
  String.ltb a b = true -> String.ltb b c = true -> String.ltb a c = true.
Proof.
  rewrite !str_ltb_lt. apply String_as_OT.lt_trans.
Qed.

Lemma str_ltb_total (a b : string) :
  String.ltb a b = false -> String.ltb b a = false -> a = b.
Proof.
  unfold String.ltb. rewrite (String.compare_antisym a b).
  destruct (String.compare b a) eqn:E; simpl; try discriminate.
  intros _ _. symmetry. apply String.compare_eq_iff. exact E.
Qed.

(** [a < b <= c] gives [a < c], and [a <= b < c] gives [a < c]. *)
Lemma str_lt_le_trans (a b c : string) :
  String.ltb a b = true -> String.ltb c b = false -> String.ltb a c = true.
Proof.
  intros H1 H2. destruct (String.ltb b c) eqn:E.
  - eapply str_ltb_trans; eassumption.
  - rewrite <- (str_ltb_total _ _ E H2). exact H1.
Qed.

Lemma str_le_lt_trans (a b c : string) :
  String.ltb b a = false -> String.ltb b c = true -> String.ltb a c = true.
Proof.
  intros H1 H2. destruct (String.ltb a b) eqn:E.
  - eapply str_ltb_trans; eassumption.
  - rewrite (str_ltb_total _ _ E H1). exact H2.
Qed.

Lemma str_le_trans (a b c : string) :
  String.ltb b a = false -> String.ltb c b = false -> String.ltb c a = false.
Proof.
  intros H1 H2. destruct (String.ltb c a) eqn:E; [|reflexivity].
  pose proof (str_lt_le_trans _ _ _ E H1) as H. congruence.
Qed.

(** ** [sorted] and [min] *)

Section Sorting.
Context {A : Type} (key : A -> string).

Local Abbreviation key_le := (key_le key).
Local Abbreviation key_lt := (key_lt key).

Lemma insert_by_perm (x : A) (l : list A) :
  Permutation (insert_by key x l) (x :: l).
Proof.
  induction l as [|y t IH]; simpl; [reflexivity|].
  destruct (String.ltb (key y) (key x)); [|reflexivity].
  rewrite IH. apply perm_swap.
Qed.

Lemma sorted_perm (l : list A) : Permutation (sorted key l) l.
Proof.
  induction l as [|x t IH]; simpl; [reflexivity|].
  rewrite insert_by_perm. constructor. exact IH.
Qed.

Lemma sorted_In (l : list A) (x : A) : In x (sorted key l) <-> In x l.
Proof.
  split; apply Permutation_in; [|symmetry]; apply sorted_perm.
Qed.

Lemma insert_by_sorted (x : A) (l : list A) :
  StronglySorted key_le l -> StronglySorted key_le (insert_by key x l).
Proof.
  induction 1 as [|y t St IH Hy]; simpl.
  - constructor; constructor.
  - destruct (String.ltb (key y) (key x)) eqn:E.
    + constructor; [exact IH|].
      apply Forall_forall. intros z Hz.
      apply (Permutation_in _ (insert_by_perm x t)) in Hz.
      destruct Hz as [<-|Hz].
      * unfold key_le. destruct (String.ltb (key x) (key y)) eqn:E'; [|reflexivity].
        pose proof (str_ltb_trans _ _ _ E E') as C.
        rewrite str_ltb_irrefl in C. discriminate.
      * rewrite Forall_forall in Hy. apply Hy. exact Hz.
    + constructor; [constructor; assumption|].
      constructor; [exact E|].
      apply Forall_forall. intros z Hz. rewrite Forall_forall in Hy.
      unfold key_le in *. eapply str_le_trans; [exact E | apply Hy; exact Hz].
Qed.

Lemma sorted_sorted (l : list A) : StronglySorted key_le (sorted key l).
Proof.
  induction l as [|x t IH]; simpl; [constructor | apply insert_by_sorted, IH].
Qed.

(** With pairwise different keys a sorted list is strictly sorted, and a
    strictly sorted list is determined by its elements. *)
Lemma sorted_strict (l : list A) :
  StronglySorted key_le l -> NoDup (map key l) -> StronglySorted key_lt l.
Proof.
  induction 1 as [|y t St IH Hy]; simpl; intros N; [constructor|].
  inversion N as [|? ? Hn Nt]; subst. constructor; [apply IH, Nt|].
  rewrite Forall_forall in *. intros z Hz. specialize (Hy z Hz).
  unfold key_le, key_lt in *.
  destruct (String.ltb (key y) (key z)) eqn:E; [reflexivity|].
  exfalso. apply Hn. rewrite (str_ltb_total _ _ E Hy).
  apply in_map. exact Hz.
Qed.

Lemma strict_sorted_unique (l l' : list A) :
  StronglySorted key_lt l -> StronglySorted key_lt l' ->
  Permutation l l' -> l = l'.
Proof.
  intros S. revert l'. induction S as [|a s Ss IH Ha]; intros l' S' P.
  - apply Permutation_nil in P. congruence.
  - destruct S' as [|b t St Hb].
    + symmetry in P. apply Permutation_nil in P. discriminate.
    + assert (E : a = b).
      { assert (Ia : In a (b :: t)) by (eapply Permutation_in; [exact P | left; reflexivity]).
        assert (Ib : In b (a :: s))
          by (eapply Permutation_in; [symmetry; exact P | left; reflexivity]).
        destruct Ia as [->|Ia]; [reflexivity|].
        destruct Ib as [->|Ib]; [reflexivity|].
        rewrite Forall_forall in Ha, Hb.
        pose proof (Ha _ Ib) as H1. pose proof (Hb _ Ia) as H2.
        unfold key_lt in *. pose proof (str_ltb_trans _ _ _ H1 H2) as C.
        rewrite str_ltb_irrefl in C. discriminate. }
      subst b. f_equal. apply IH; [exact St|].
      eapply Permutation_cons_inv. exact P.
Qed.

(** The sorted view does not depend on the order of the input when no two
    keys are equal. *)
Lemma sorted_permutation_invariant (l l' : list A) :
  Permutation l l' -> NoDup (map key l) -> sorted key l = sorted key l'.
Proof.
  intros P N.
  assert (P1 : Permutation (sorted key l) (sorted key l')).
  { rewrite !sorted_perm. exact P. }
  apply strict_sorted_unique; [| |exact P1].
  - apply sorted_strict; [apply sorted_sorted|].
    eapply Permutation_NoDup; [|exact N].
    apply Permutation_map. symmetry. apply sorted_perm.
  - apply sorted_strict; [apply sorted_sorted|].
    eapply Permutation_NoDup; [|exact N].
    apply Permutation_map. rewrite sorted_perm. exact P.
Qed.

(** Inserting around an element [b] that has nothing after it up to its
    own key. *)
Lemma insert_by_above (x b : A) (lo hi : list A) :
  Forall (fun y => key_le y b) lo -> key_lt b x ->
  insert_by key x (lo ++ b :: hi) = lo ++ b :: insert_by key x hi.
Proof.
  intros Hlo Hx. induction Hlo as [|y lo Hy _ IH]; simpl.
  - unfold key_lt in Hx. rewrite Hx. reflexivity.
  - assert (E : String.ltb (key y) (key x) = true)
      by (eapply str_le_lt_trans; [exact Hy | exact Hx]).
    rewrite E, IH. reflexivity.
Qed.

Lemma insert_by_below (x b : A) (lo hi : list A) :
  Forall (fun y => key_le y b) lo -> key_le x b ->
  exists lo', insert_by key x (lo ++ b :: hi) = lo' ++ b :: hi /\
              Permutation lo' (x :: lo).
Proof.
  intros Hlo Hx. induction Hlo as [|y lo Hy _ IH]; simpl.
  - unfold key_le in Hx. rewrite Hx. exists [x]. split; reflexivity.
  - destruct (String.ltb (key y) (key x)) eqn:E.
    + destruct IH as (lo' & -> & P). exists (y :: lo'). split; [reflexivity|].
      rewrite P. apply perm_swap.
    + exists (x :: y :: lo). split; reflexivity.
Qed.

(** The place of the record appended last among those of its key: behind
    it in the sorted view come only records of a greater key, and every
    record appended before it that is not of a greater key comes before
    it. *)
Lemma sorted_last_of_key (pre post : list A) (b : A) :
  (forall x, In x post -> key x <> key b) ->
  exists lo hi,
    sorted key (pre ++ b :: post) = lo ++ b :: hi /\
    Forall (fun y => key_le y b) lo /\
    Forall (fun y => key_lt b y) hi /\
    (forall x, In x pre -> key_le x b -> In x lo).
Proof.
  intros Hpost. induction pre as [|x pre IH].
  - simpl.
    assert (G : forall s, StronglySorted key_le s ->
                (forall y, In y s -> key y <> key b) ->
                exists lo hi, insert_by key b s = lo ++ b :: hi /\
                  Forall (fun y => key_le y b) lo /\ Forall (fun y => key_lt b y) hi).
    { induction 1 as [|y t St IHt Hy]; intros Hne; simpl.
      - exists [], []. repeat split; constructor.
      - destruct (String.ltb (key y) (key b)) eqn:E.
        + destruct IHt as (lo & hi & -> & Hlo & Hhi);
            [intros z Hz; apply Hne; right; exact Hz|].
          exists (y :: lo), hi. repeat split; [|exact Hhi].
          constructor; [|exact Hlo].
          unfold key_le. destruct (String.ltb (key b) (key y)) eqn:E'; [|reflexivity].
          pose proof (str_ltb_trans _ _ _ E E') as C.
          rewrite str_ltb_irrefl in C. discriminate.
        + assert (Lb : key_lt b y).
          { unfold key_lt. destruct (String.ltb (key b) (key y)) eqn:E'; [reflexivity|].
            exfalso. apply (Hne y); [left; reflexivity|].
            symmetry. apply str_ltb_total; assumption. }
          exists [], (y :: t). repeat split; [constructor|].
          constructor; [exact Lb|].
          rewrite Forall_forall in *. intros z Hz.
          unfold key_lt, key_le in *. eapply str_lt_le_trans; [exact Lb | apply Hy, Hz]. }
    destruct (G (sorted key post) (sorted_sorted post)) as (lo & hi & E & Hlo & Hhi).
    { intros y Hy. apply Hpost. apply sorted_In. exact Hy. }
    exists lo, hi. repeat split; try assumption. intros x [].
  - destruct IH as (lo & hi & E & Hlo & Hhi & Hin).
    simpl. rewrite E.
    destruct (String.ltb (key b) (key x)) eqn:Ex.
    + rewrite (insert_by_above x b lo hi Hlo Ex).
      exists lo, (insert_by key x hi). repeat split; try assumption.
      * apply Forall_forall. intros z Hz.
        apply (Permutation_in _ (insert_by_perm x hi)) in Hz.
        destruct Hz as [<-|Hz]; [exact Ex|].
        rewrite Forall_forall in Hhi. apply Hhi, Hz.
      * intros z [<-|Hz] Hle; [unfold key_le in Hle; congruence|].
        apply Hin; assumption.
    + destruct (insert_by_below x b lo hi Hlo Ex) as (lo' & -> & P).
      exists lo', hi. repeat split; try assumption.
      * apply Forall_forall. intros z Hz.
        apply (Permutation_in _ P) in Hz.
        destruct Hz as [<-|Hz]; [exact Ex|].
        rewrite Forall_forall in Hlo. apply Hlo, Hz.
      * intros z Hz Hle. apply (Permutation_in _ (Permutation_sym P)).
        destruct Hz as [<-|Hz]; [left; reflexivity|].
        right. apply Hin; assumption.
Qed.

Lemma min_by_spec (l : list A) (m : A) :
  min_by key l = Ok m -> In m l /\ forall x, In x l -> key_le m x.
Proof.
  destruct l as [|x t]; simpl; [discriminate|].
  intros H. inversion H as [Hm]; clear H.
  set (f := fun best y => if String.ltb (key y) (key best) then y else best).
  assert (G : forall t x, In (fold_left f t x) (x :: t) /\
                 key_le (fold_left f t x) x /\
                 forall y, In y t -> key_le (fold_left f t x) y).
  { clear. induction t as [|y t IH]; intros x; simpl.
    - repeat split; [left; reflexivity | apply str_ltb_irrefl | intros _ []].
    - destruct (IH (f x y)) as (I & Lx & Lt).
      assert (Lf : key_le (f x y) x /\ key_le (f x y) y).
      { unfold f, key_le. destruct (String.ltb (key y) (key x)) eqn:E.
        - split; [|apply str_ltb_irrefl].
          destruct (String.ltb (key x) (key y)) eqn:E'; [|reflexivity].
          pose proof (str_ltb_trans _ _ _ E E') as C.
          rewrite str_ltb_irrefl in C. discriminate.
        - split; [apply str_ltb_irrefl | exact E]. }
      repeat split.
      + destruct I as [I|I]; [|right; right; exact I].
        rewrite <- I. unfold f. destruct (String.ltb (key y) (key x)); auto.
      + unfold key_le in *. eapply str_le_trans; [exact Lx | apply Lf].
      + intros z [<-|Hz]; [|apply Lt, Hz].
        unfold key_le in *. eapply str_le_trans; [exact Lx | apply Lf]. }
  destruct (G t x) as (I & Lx & Lt). split; [exact I|].
  intros y [<-|Hy]; [exact Lx | apply Lt, Hy].
Qed.

End Sorting.

Lemma last_or_none_app {A : Type} (l : list A) (x : A) :
  last_or_none (l ++ [x]) = Some x.
Proof.
  induction l as [|y t IH]; simpl; [reflexivity|].
  rewrite IH. destruct (t ++ [x]) eqn:E; [|reflexivity].
  destruct t; discriminate.
Qed.

Lemma last_or_none_In {A : Type} (l : list A) (x : A) :
  last_or_none l = Some x -> In x l.
Proof.
  induction l as [|y t IH]; simpl; [discriminate|].
  destruct t as [|z t']; [intros H; inversion H; left; reflexivity|].
  intros H. right. apply IH, H.
Qed.

Lemma filter_none {A : Type} (p : A -> bool) (l : list A) :
  (forall x, In x l -> p x = false) -> filter p l = [].
Proof.
  induction l as [|y t IH]; simpl; intros H; [reflexivity|].
  rewrite (H y (or_introl eq_refl)). apply IH. intros x Hx. apply H. right. exact Hx.
Qed.

Lemma filter_perm {A : Type} (p : A -> bool) (l l' : list A) :
  Permutation l l' -> Permutation (filter p l) (filter p l').
Proof.
  induction 1 as [|x l l' _ IH|x y l|l l' l'' _ IH1 _ IH2]; simpl.
  - constructor.
  - destruct (p x); [constructor|]; exact IH.
  - destruct (p x), (p y); try reflexivity. apply perm_swap.
  - etransitivity; eassumption.
Qed.

Lemma fold_left_add_acc (l : list Z) (a : Z) :
  fold_left Z.add l a = a + fold_left Z.add l 0.
Proof.
  revert a. induction l as [|y t IH]; intros a; simpl; [lia|].
  rewrite (IH (a + y)), (IH y). lia.
Qed.

Lemma sum_cons (x : Z) (l : list Z) : sum (x :: l) = x + sum l.
Proof. unfold sum. simpl. apply fold_left_add_acc. Qed.

Lemma sum_perm (l l' : list Z) : Permutation l l' -> sum l = sum l'.
Proof.
  induction 1 as [|x l l' _ IH|x y l|l l' l'' _ IH1 _ IH2].
  - reflexivity.
  - rewrite !sum_cons. lia.
  - rewrite !sum_cons. lia.
  - lia.
Qed.

(** ** Records and their dates *)

Lemma parseable_date_of (r : record) :
  parseable r = true ->
  strptime (start r) = Ok (date_of r) /\ valid_date (date_of r) = true.
Proof.
  unfold parseable, date_of. destruct (strptime (start r)) as [d|e] eqn:E; [|discriminate].
  intros _. split; [reflexivity|].
  unfold strptime in E.
  destruct (cut (start r)) as [[yt s1]|]; [|discriminate].
  destruct (cut s1) as [[mt dt]|]; [|discriminate].
  destruct (year_of yt), (month_of mt), (day_of dt); try discriminate.
  apply new_date_Ok in E. apply E.
Qed.

Lemma canonical_start (r : record) :
  canonical r = true -> parseable r = true /\ start r = strftime (date_of r).
Proof.
  unfold canonical, parseable, date_of.
  destruct (strptime (start r)) as [d|e]; [|discriminate].
  intros H. apply String.eqb_eq in H. auto.
Qed.

Lemma wf_history_canonical (history : list record) :
  wf_history history = true -> Forall (fun r => canonical r = true) history.
Proof.
  unfold wf_history. rewrite forallb_forall, Forall_forall.
  intros H r Hr. specialize (H r Hr). unfold wf_record in H.
  apply andb_prop in H. apply H.
Qed.

Lemma wf_history_parseable (history : list record) :
  wf_history history = true -> Forall (fun r => parseable r = true) history.
Proof.
  intros H. apply wf_history_canonical in H.
  eapply Forall_impl; [|exact H]. intros r Hr. apply canonical_start, Hr.
Qed.

Lemma wf_history_title (history : list record) (r : record) :
  wf_history history = true -> In r history ->
  title r = "400ml全血"%string \/ title r = "200ml全血"%string \/
  title r = "成分献血"%string.
Proof.
  unfold wf_history. rewrite forallb_forall. intros H Hr.
  specialize (H r Hr). unfold wf_record in H. apply andb_prop in H.
  destruct H as [_ H]. unfold ALL_TYPES in H. cbn [existsb] in H.
  repeat (apply orb_prop in H; destruct H as [H|H]);
    try discriminate; apply String.eqb_eq in H; auto.
Qed.

(** For the titles the program stores, "whole blood" in the words of the
    specification is what the engine tests by looking for "全血". *)
Lemma wf_title_whole_blood (t : string) :
  t = "400ml全血"%string \/ t = "200ml全血"%string \/ t = "成分献血"%string ->
  contains "全血" t = is_whole_blood t.
Proof. intros [-> | [-> | ->]]; reflexivity. Qed.

Lemma sorted_parseable (history : list record) :
  Forall (fun r => parseable r = true) history ->
  Forall (fun r => parseable r = true) (sorted start history).
Proof.
  rewrite !Forall_forall. intros H r Hr. apply H. apply sorted_In in Hr. exact Hr.
Qed.

(** On records with a date the three list comprehensions are filters. *)
Lemma donations_before_pure (target_date : date) (s : list record) :
  Forall (fun r => parseable r = true) s ->
  donations_before target_date s =
  Ok (filter (fun h => (date_of h <? target_date)%date) s).
Proof.
  intros H. unfold donations_before. apply filterM_pure.
  eapply Forall_impl; [|exact H]. intros r Hr. cbv beta.
  destruct (parseable_date_of r Hr) as [-> _]. reflexivity.
Qed.

Lemma relevant_history_pure (window_start target_date : date) (s : list record) :
  Forall (fun r => parseable r = true) s ->
  relevant_history window_start target_date s =
  Ok (filter (fun h => (window_start <? date_of h)%date &&
                       (date_of h <? target_date)%date &&
                       contains "全血" (title h)) s).
Proof.
  intros H. unfold relevant_history. apply filterM_pure.
  eapply Forall_impl; [|exact H]. intros r Hr. cbv beta.
  destruct (parseable_date_of r Hr) as [-> _]. reflexivity.
Qed.

Lemma donations_in_window_pure (target_date : date) (s : list record) :
  valid_date target_date = true -> MINYEAR < year target_date ->
  Forall (fun r => parseable r = true) s ->
  donations_in_window target_date s =
  Ok (filter (fun h => (shift_year target_date (-1) <=? date_of h)%date &&
                       (date_of h <? target_date)%date &&
                       contains "全血" (title h)) s).
Proof.
  intros V Y H. unfold donations_in_window. apply filterM_pure.
  eapply Forall_impl; [|exact H]. intros r Hr. cbv beta.
  rewrite (rd_sub_year _ V Y). cbn [bind].
  destruct (parseable_date_of r Hr) as [-> _]. reflexivity.
Qed.

(** ** The steps of the engine *)

Lemma wf_gender_cases (gender : string) :
  wf_gender gender = true -> gender = "男性"%string \/ gender = "女性"%string.
Proof.
  unfold wf_gender. intros H. apply orb_prop in H.
  destruct H as [H|H]; apply String.eqb_eq in H; auto.
Qed.

Lemma max_volume_item (gender : string) :
  wf_gender gender = true -> dict_item MAX_VOLUME gender = Ok (gender_cap gender).
Proof. intros H. destruct (wf_gender_cases _ H) as [-> | ->]; reflexivity. Qed.

Lemma is_age_ok_gender (gender : string) (age : Z) :
  is_age_ok "400ml全血" gender age = true -> wf_gender gender = true.
Proof.
  unfold is_age_ok, wf_gender.
  change ("400ml全血" =? "200ml全血")%string with false.
  change ("400ml全血" =? "400ml全血")%string with true.
  change ("400ml全血" =? "成分献血")%string with false.
  cbn [andb].
  destruct (gender =? "男性")%string, (gender =? "女性")%string; cbn; try reflexivity.
  discriminate.
Qed.

Lemma is_age_ok_bounds (don_type gender : string) (age : Z) :
  is_age_ok don_type gender age = true -> 16 <= age <= 69.
Proof.
  unfold is_age_ok.
  destruct (don_type =? "200ml全血")%string, (don_type =? "400ml全血")%string,
    (don_type =? "成分献血")%string, (gender =? "男性")%string,
    (gender =? "女性")%string; cbn [andb orb]; cbv zeta;
    split_ifs; intros; try discriminate; lia.
Qed.

(** The date after a wait is a date, not before the donation. *)
Lemma rd_add_weeks_Ok (w : Z) (d d' : date) :
  valid_date d = true -> 0 <= w -> rd_add (rd_weeks w) d = Ok d' ->
  valid_date d' = true /\ (d' <? d)%date = false.
Proof.
  intros V W H. rewrite (rd_add_weeks w d V W) in H.
  exact (add_days_Ok _ _ _ V H).
Qed.

Lemma next_available_after_Ok (l : record) (don_type gender : string) (na : date) :
  next_available_after l don_type gender = Ok na ->
  valid_date na = true /\ parseable l = true /\ (na <? date_of l)%date = false.
Proof.
  unfold next_available_after. intros H.
  apply bind_Ok in H. destruct H as (d & Hd & H).
  assert (P : parseable l = true) by (unfold parseable; rewrite Hd; reflexivity).
  assert (E : date_of l = d) by (unfold date_of; rewrite Hd; reflexivity).
  destruct (parseable_date_of l P) as [_ V]. rewrite E in *.
  assert (G : valid_date na = true /\ (na <? d)%date = false).
  { destruct (gender =? "男性")%string;
      repeat match type of H with
             | (if ?c then _ else _) = _ => destruct c
             end;
      try (apply rd_add_weeks_Ok in H; [exact H | exact V | lia]);
      inversion H; subst; (split; [exact V | apply date_ltb_irrefl]). }
  destruct G as [G1 G2]. auto.
Qed.

Lemma next_available_after_total (l : record) (don_type gender : string) :
  parseable l = true -> year (date_of l) < MAXYEAR ->
  exists na, next_available_after l don_type gender = Ok na.
Proof.
  intros P Y. destruct (parseable_date_of l P) as [E V].
  unfold next_available_after. rewrite E. cbn [bind].
  assert (W : forall w, 0 <= w <= 16 -> exists na, rd_add (rd_weeks w) (date_of l) = Ok na).
  { intros w Rw. rewrite (rd_add_weeks w _ V) by lia.
    apply add_days_total; [exact V | exact Y | lia]. }
  split_ifs; try (apply W; lia); eexists; reflexivity.
Qed.

Lemma minimum_interval_Some (target_date : date) (last_donation : option record)
    (gender don_type : string) (na : date) :
  minimum_interval target_date last_donation gender don_type = Ok (Some na) ->
  (target_date <? na)%date = true /\ valid_date na = true.
Proof.
  unfold minimum_interval. destruct last_donation as [l|]; [|discriminate].
  intros H. apply bind_Ok in H. destruct H as (d & Hd & H).
  destruct (target_date <? d)%date eqn:E; inversion H; subst.
  split; [exact E|]. apply (next_available_after_Ok _ _ _ _ Hd).
Qed.

Lemma minimum_interval_total (target_date : date) (last_donation : option record)
    (gender don_type : string) :
  (forall l, last_donation = Some l ->
             parseable l = true /\ year (date_of l) < MAXYEAR) ->
  exists r, minimum_interval target_date last_donation gender don_type = Ok r.
Proof.
  intros H. unfold minimum_interval. destruct last_donation as [l|].
  - destruct (H l eq_refl) as [P Y].
    destruct (next_available_after_total l don_type gender P Y) as (na & ->).
    cbn [bind]. eexists; reflexivity.
  - eexists; reflexivity.
Qed.

Lemma date_ltb_year (a b : date) : (a <? b)%date = true -> year a <= year b.
Proof. date_simpl. lia. Qed.

(** The yearly cap on records with a date, for a known sex. *)
Lemma annual_cap_eq (target_date : date) (s : list record) (gender don_type : string) :
  valid_date target_date = true -> MINYEAR < year target_date ->
  wf_gender gender = true ->
  Forall (fun r => parseable r = true) s ->
  contains "全血" don_type = true ->
  annual_cap target_date s gender don_type =
  (if gender_cap gender <?
      volume_of (filter (fun h => (shift_year target_date (-1) <? date_of h)%date &&
                                  (date_of h <? target_date)%date &&
                                  contains "全血" (title h)) s) + get_volume don_type
   then
     let in_window :=
       filter (fun h => (shift_year target_date (-1) <=? date_of h)%date &&
                        (date_of h <? target_date)%date &&
                        contains "全血" (title h)) s in
     match in_window with
     | [] => Ok None
     | _ :: _ =>
         first_donation_in_window <- min_by start in_window ;;
         d <- strptime (start first_donation_in_window) ;;
         block_lift_date <- rd_add (rd_years 1) d ;;
         Ok (Some block_lift_date)
     end
   else Ok None).
Proof.
  intros V Y G P W. unfold annual_cap. rewrite W.
  rewrite (rd_sub_year _ V Y). cbn [bind].
  rewrite (relevant_history_pure _ _ _ P). cbn [bind].
  rewrite (max_volume_item _ G). cbn [bind].
  destruct (gender_cap gender <? _); [|reflexivity].
  rewrite (donations_in_window_pure _ _ V Y P). cbn [bind]. reflexivity.
Qed.

Lemma annual_cap_total (target_date : date) (s : list record) (gender don_type : string) :
  valid_date target_date = true ->
  MINYEAR < year target_date -> year target_date < MAXYEAR ->
  wf_gender gender = true ->
  Forall (fun r => parseable r = true) s ->
  exists r, annual_cap target_date s gender don_type = Ok r.
Proof.
  intros V Y Y' G P.
  destruct (contains "全血" don_type) eqn:W;
    [|unfold annual_cap; rewrite W; eexists; reflexivity].
  rewrite (annual_cap_eq _ _ _ _ V Y G P W).
  destruct (gender_cap gender <? _); [|eexists; reflexivity].
  cbv zeta.
  destruct (filter _ s) as [|x w] eqn:E; [eexists; reflexivity|].
  destruct (min_by start (x :: w)) as [f|e] eqn:M; [|discriminate].
  cbn [bind]. apply min_by_spec in M. destruct M as [I _].
  rewrite <- E in I. apply filter_In in I. destruct I as [I C].
  rewrite Forall_forall in P. destruct (parseable_date_of f (P f I)) as [-> Vf].
  cbn [bind].
  assert (Yf : year (date_of f) < MAXYEAR).
  { apply andb_prop in C. destruct C as [C _]. apply andb_prop in C.
    destruct C as [_ C]. apply date_ltb_year in C. lia. }
  rewrite (rd_add_year _ Vf Yf). cbn [bind]. eexists; reflexivity.
Qed.

(** The verdict of one donation type, by the gate that decides it. *)
Lemma check_type_age_blocked (target_date : date) (s : list record)
    (last_donation : option record) (gender : string) (age : Z) (don_type : string) :
  is_age_ok don_type gender age = false ->
  check_type target_date s last_donation gender age don_type =
  Ok (Blocked AgeRestriction None).
Proof. intros H. unfold check_type. rewrite H. reflexivity. Qed.

Lemma check_type_cases (target_date : date) (s : list record)
    (last_donation : option record) (gender : string) (age : Z) (don_type : string)
    (v : verdict) :
  check_type target_date s last_donation gender age don_type = Ok v ->
  (is_age_ok don_type gender age = false /\ v = Blocked AgeRestriction None) \/
  (is_age_ok don_type gender age = true /\
   ((exists na, minimum_interval target_date last_donation gender don_type = Ok (Some na) /\
                v = Blocked MinimumInterval (Some (strftime na))) \/
    (minimum_interval target_date last_donation gender don_type = Ok None /\
     ((exists bl, annual_cap target_date s gender don_type = Ok (Some bl) /\
                  v = Blocked AnnualVolumeCap (Some (strftime bl))) \/
      (annual_cap target_date s gender don_type = Ok None /\ v = Available))))).
Proof.
  unfold check_type. destruct (is_age_ok don_type gender age); cbn [negb].
  - intros H. right. split; [reflexivity|].
    apply bind_Ok in H. destruct H as ([na|] & Hm & H).
    + left. exists na. inversion H. auto.
    + right. split; [exact Hm|].
      apply bind_Ok in H. destruct H as ([bl|] & Hc & H); inversion H.
      * left. exists bl. auto.
      * right. auto.
  - intros H. inversion H. left. auto.
Qed.

Lemma check_type_total (target_date : date) (s : list record)
    (last_donation : option record) (gender : string) (age : Z) (don_type : string) :
  valid_date target_date = true ->
  MINYEAR < year target_date -> year target_date < MAXYEAR ->
  wf_gender gender = true ->
  Forall (fun r => parseable r = true) s ->
  (forall l, last_donation = Some l ->
             parseable l = true /\ year (date_of l) < MAXYEAR) ->
  exists v, check_type target_date s last_donation gender age don_type = Ok v.
Proof.
  intros V Y Y' G P L. unfold check_type.
  destruct (is_age_ok don_type gender age); cbn [negb]; [|eexists; reflexivity].
  destruct (minimum_interval_total target_date last_donation gender don_type L)
    as ([na|] & ->); cbn [bind]; [eexists; reflexivity|].
  destruct (annual_cap_total target_date s gender don_type V Y Y' G P)
    as ([bl|] & ->); cbn [bind]; eexists; reflexivity.
Qed.

(** ** The whole call *)

Lemma for_each_all_types (body : string -> result verdict) :
  for_each ALL_TYPES body [] =
  (v1 <- body "400ml全血"%string ;;
   v2 <- body "200ml全血"%string ;;
   v3 <- body "成分献血"%string ;;
   Ok [("400ml全血"%string, v1); ("200ml全血"%string, v2); ("成分献血"%string, v3)]).
Proof.
  unfold ALL_TYPES. cbn [for_each].
  destruct (body "400ml全血"%string) as [v1|]; [|reflexivity].
  destruct (body "200ml全血"%string) as [v2|]; [|reflexivity].
  destruct (body "成分献血"%string) as [v3|]; reflexivity.
Qed.

(** What a call that returns has computed. *)
Lemma check_availability_Ok (target_date : date) (history : list record)
    (gender : string) (birthday : date) (results : dict verdict) :
  check_availability target_date history gender birthday = Ok results ->
  exists delta before v1 v2 v3,
    relativedelta_between target_date birthday = Ok delta /\
    donations_before target_date (sorted start history) = Ok before /\
    (let body := check_type target_date (sorted start history)
                            (last_or_none before) gender (years delta) in
     body "400ml全血"%string = Ok v1 /\ body "200ml全血"%string = Ok v2 /\
     body "成分献血"%string = Ok v3) /\
    results = [("400ml全血"%string, v1); ("200ml全血"%string, v2);
               ("成分献血"%string, v3)].
Proof.
  unfold check_availability. intros H.
  apply bind_Ok in H. destruct H as (delta & Hd & H).
  apply bind_Ok in H. destruct H as (before & Hb & H).
  rewrite for_each_all_types in H.
  apply bind_Ok in H. destruct H as (v1 & H1 & H).
  apply bind_Ok in H. destruct H as (v2 & H2 & H).
  apply bind_Ok in H. destruct H as (v3 & H3 & H).
  inversion H. exists delta, before, v1, v2, v3. cbv zeta.
  repeat split; assumption.
Qed.

(** The call on records with a date. *)
Lemma check_availability_eq (target_date : date) (history : list record)
    (gender : string) (birthday : date) :
  valid_date target_date = true -> valid_date birthday = true ->
  Forall (fun r => parseable r = true) history ->
  check_availability target_date history gender birthday =
  (let s := sorted start history in
   let last_donation :=
     last_or_none (filter (fun h => (date_of h <? target_date)%date) s) in
   let body := check_type target_date s last_donation gender
                          (age_at target_date birthday) in
   v1 <- body "400ml全血"%string ;;
   v2 <- body "200ml全血"%string ;;
   v3 <- body "成分献血"%string ;;
   Ok [("400ml全血"%string, v1); ("200ml全血"%string, v2); ("成分献血"%string, v3)]).
Proof.
  intros V1 V2 P. unfold check_availability.
  destruct (relativedelta_between_total _ _ V1 V2) as (rd & -> & Hy & _).
  cbn [bind]. rewrite (donations_before_pure _ _ (sorted_parseable _ P)).
  cbn [bind]. rewrite for_each_all_types. rewrite Hy. reflexivity.
Qed.

Lemma reference_prior_eq (target_date : date) (history : list record) :
  Forall (fun r => parseable r = true) history ->
  reference_prior target_date history =
  Ok (last_or_none (filter (fun h => (date_of h <? target_date)%date)
                           (sorted start history))).
Proof.
  intros P. unfold reference_prior.
  rewrite (donations_before_pure _ _ (sorted_parseable _ P)). reflexivity.
Qed.

Lemma last_before_target (target_date : date) (history : list record) (l : record) :
  Forall (fun r => parseable r = true) history ->
  year target_date < MAXYEAR ->
  last_or_none (filter (fun h => (date_of h <? target_date)%date)
                       (sorted start history)) = Some l ->
  parseable l = true /\ year (date_of l) < MAXYEAR.
Proof.
  intros P Y H. apply last_or_none_In in H. apply filter_In in H.
  destruct H as [I L]. apply sorted_In in I. rewrite Forall_forall in P.
  split; [apply P, I|]. apply date_ltb_year in L. lia.
Qed.

(** On well-formed input the call returns: no date it computes leaves the
    calendar, and every lookup succeeds. *)
Lemma check_availability_total (target_date : date) (history : list record)
    (gender : string) (birthday : date) :
  valid_date target_date = true -> valid_date birthday = true ->
  MINYEAR < year target_date -> year target_date < MAXYEAR ->
  wf_gender gender = true ->
  Forall (fun r => parseable r = true) history ->
  exists v1 v2 v3,
    (let s := sorted start history in
     let last_donation :=
       last_or_none (filter (fun h => (date_of h <? target_date)%date) s) in
     let body := check_type target_date s last_donation gender
                            (age_at target_date birthday) in
     body "400ml全血"%string = Ok v1 /\ body "200ml全血"%string = Ok v2 /\
     body "成分献血"%string = Ok v3) /\
    check_availability target_date history gender birthday =
    Ok [("400ml全血"%string, v1); ("200ml全血"%string, v2); ("成分献血"%string, v3)].
Proof.
  intros V1 V2 Y Y' G P.
  rewrite (check_availability_eq _ _ _ _ V1 V2 P). cbv zeta.
  pose proof (sorted_parseable _ P) as Ps.
  pose proof (fun l => last_before_target target_date history l P Y') as L.
  destruct (check_type_total target_date (sorted start history) _ gender
              (age_at target_date birthday) "400ml全血" V1 Y Y' G Ps L) as (v1 & H1).
  destruct (check_type_total target_date (sorted start history) _ gender
              (age_at target_date birthday) "200ml全血" V1 Y Y' G Ps L) as (v2 & H2).
  destruct (check_type_total target_date (sorted start history) _ gender
              (age_at target_date birthday) "成分献血" V1 Y Y' G Ps L) as (v3 & H3).
  exists v1, v2, v3. rewrite H1, H2, H3. cbn [bind]. auto.
Qed.

(** ** Auxiliary facts for the claims *)

Lemma forallb_parseable (history : list record) :
  forallb parseable history = true -> Forall (fun r => parseable r = true) history.
Proof. rewrite forallb_forall, Forall_forall. auto. Qed.

Lemma dict_get_results (don_type : string) (v1 v2 v3 v : verdict) :
  dict_get [("400ml全血"%string, v1); ("200ml全血"%string, v2);
            ("成分献血"%string, v3)] don_type = Some v ->
  (don_type = "400ml全血"%string /\ v = v1) \/
  (don_type = "200ml全血"%string /\ v = v2) \/
  (don_type = "成分献血"%string /\ v = v3).
Proof.
  cbn [dict_get].
  destruct (String.eqb_spec "400ml全血" don_type) as [<-|_];
    [intros H; inversion H; auto|].
  destruct (String.eqb_spec "200ml全血" don_type) as [<-|_];
    [intros H; inversion H; auto|].
  destruct (String.eqb_spec "成分献血" don_type) as [<-|_];
    [intros H; inversion H; auto|].
  discriminate.
Qed.

Lemma wf_input_parts (target_date : date) (history : list record)
    (gender : string) (birthday : date) :
  wf_input target_date history gender birthday = true ->
  valid_date target_date = true /\ valid_date birthday = true /\
  (birthday <=? target_date)%date = true /\
  MINYEAR < year target_date /\ year target_date < MAXYEAR /\
  wf_gender gender = true /\ wf_history history = true.
Proof.
  unfold wf_input. intros W.
  destruct (valid_date target_date), (valid_date birthday),
    (birthday <=? target_date)%date, (wf_gender gender), (wf_history history);
    cbn [andb] in W; try discriminate W; try (rewrite !andb_false_r in W; discriminate W).
  rewrite !andb_true_r in W. apply andb_prop in W. destruct W as [W1 W2].
  repeat split; lia.
Qed.

(** *** Days and years *)

Lemma add_days_lt (n : nat) (d d' : date) :
  valid_date d = true -> add_days d (S n) = Ok d' -> (d <? d')%date = true.
Proof.
  intros V H. simpl in H. apply bind_Ok in H. destruct H as (d1 & H1 & H2).
  destruct (tomorrow_Ok _ _ V H1) as [V1 L1].
  destruct (add_days_Ok _ _ _ V1 H2) as [_ L2].
  revert L1 L2. date_simpl. lia.
Qed.

Lemma tomorrow_year (eve d : date) :
  valid_date eve = true -> tomorrow eve = Ok d ->
  year eve <= year d <= year eve + 1.
Proof.
  intros V. unfold tomorrow. split_ifs; intros H; inversion H; subst; simpl; lia.
Qed.


Lemma volume_of_cons (r : record) (l : list record) :
  volume_of (r :: l) = get_volume (title r) + volume_of l.
Proof. unfold volume_of. cbn [map]. apply sum_cons. Qed.

Lemma volume_of_perm (l l' : list record) :
  Permutation l l' -> volume_of l = volume_of l'.
Proof. intros P. unfold volume_of. apply sum_perm, Permutation_map, P. Qed.

(** *** Stability of [sorted] *)

Section Stability.
Context {A : Type} (key : A -> string).

Lemma before_In (a b : A) (l : list A) : before a b l -> In a l /\ In b l.
Proof.
  induction 1 as [l I|x l _ [Ia Ib]]; split;
    solve [left; reflexivity | right; assumption].
Qed.

Lemma before_split (a b : A) (l : list A) :
  before a b l -> exists s1 s2 s3, l = s1 ++ a :: s2 ++ b :: s3.
Proof.
  induction 1 as [l I|x l _ (s1 & s2 & s3 & ->)].
  - destruct (in_split _ _ I) as (s2 & s3 & ->). exists [], s2, s3. reflexivity.
  - exists (x :: s1), s2, s3. reflexivity.
Qed.

Lemma insert_by_before (x a b : A) (l : list A) :
  before a b l -> before a b (insert_by key x l).
Proof.
  induction 1 as [l I|y l H IH]; simpl.
  - destruct (String.ltb (key a) (key x)).
    + apply before_here. apply (Permutation_in _ (Permutation_sym (insert_by_perm key x l))).
      right. exact I.
    + apply before_later, before_here, I.
  - destruct (String.ltb (key y) (key x)).
    + apply before_later, IH.
    + apply before_later, before_later, H.
Qed.

Lemma insert_by_before_equal (a b : A) (l : list A) :
  key a = key b -> In b l -> before a b (insert_by key a l).
Proof.
  intros E. induction l as [|y t IH]; simpl; intros I; [contradiction|].
  destruct (String.ltb (key y) (key a)) eqn:L.
  - destruct I as [->|I].
    + rewrite E, str_ltb_irrefl in L. discriminate.
    + apply before_later, IH, I.
  - apply before_here, I.
Qed.

(** [sorted] is stable: of two elements with the same key, the one that
    comes first in the input comes first in the result. *)
Lemma sorted_stable (a b : A) (l1 l2 l3 : list A) :
  key a = key b -> before a b (sorted key (l1 ++ a :: l2 ++ b :: l3)).
Proof.
  intros E. induction l1 as [|x l1 IH]; simpl.
  - apply insert_by_before_equal; [exact E|].
    apply sorted_In. apply in_or_app. right. left. reflexivity.
  - apply insert_by_before, IH.
Qed.

End Stability.

(** *** The record appended last among those of the latest date *)

(** Among the records that satisfy [p], when there is one: the place of the
    record appended last among those of the latest date. *)
Lemma last_of_latest_date (p : record -> bool) (l : list record) :
  existsb p l = true ->
  exists pre L post,
    l = pre ++ L :: post /\ p L = true /\
    (forall r, In r l -> p r = true -> (date_of L <? date_of r)%date = false) /\
    (forall r, In r post -> p r = true -> (date_of r <? date_of L)%date = true).
Proof.
  induction l as [|x t IH]; simpl; [discriminate|]. intros E.
  destruct (existsb p t) eqn:Et.
  - destruct (IH eq_refl) as (pre & L & post & -> & pL & Max & Post).
    destruct (p x && (date_of L <? date_of x)%date) eqn:Ex.
    + apply andb_prop in Ex. destruct Ex as [px Lx].
      exists [], x, (pre ++ L :: post). repeat split; [exact px| |].
      * intros r [<-|Ir] pr; [apply date_ltb_irrefl|].
        destruct (date_of x <? date_of r)%date eqn:C; [|reflexivity].
        rewrite <- (Max r Ir pr). symmetry. apply (date_ltb_trans _ _ _ Lx C).
      * intros r Ir pr.
        destruct (date_of r <? date_of x)%date eqn:C; [reflexivity|].
        pose proof (Max r Ir pr) as M.
        destruct (date_of x <? date_of r)%date eqn:C'.
        { rewrite (date_ltb_trans _ _ _ Lx C') in M. discriminate. }
        rewrite (date_total _ _ C C') in M. congruence.
    + exists (x :: pre), L, post. repeat split; [exact pL| |exact Post].
      intros r [<-|Ir] pr; [|apply (Max r Ir pr)].
      rewrite pr in Ex. exact Ex.
  - rewrite orb_false_r in E.
    exists [], x, t. repeat split; [exact E| |].
    + intros r [<-|Ir] pr; [apply date_ltb_irrefl|].
      assert (C : existsb p t = true) by (apply existsb_exists; exists r; auto).
      congruence.
    + intros r Ir pr.
      assert (C : existsb p t = true) by (apply existsb_exists; exists r; auto).
      congruence.
Qed.

(** Two ways of cutting a list: the element of the later cut lies behind
    the earlier one. *)
Lemma app_eq_In_later {A : Type} (xs ys pre post : list A) (b L : A) :
  xs ++ b :: ys = pre ++ L :: post ->
  (List.length pre < List.length xs)%nat -> In b post.
Proof.
  revert xs. induction pre as [|a pre IH]; intros xs E Hl.
  - destruct xs as [|x xs]; [simpl in Hl; lia|].
    simpl in E. injection E as _ E. rewrite <- E. apply in_or_app. right. left. reflexivity.
  - destruct xs as [|x xs]; [simpl in Hl; lia|].
    simpl in E. injection E as _ E. apply (IH xs E). simpl in Hl. lia.
Qed.

Lemma app_eq_same_length {A : Type} (xs ys pre post : list A) (b L : A) :
  xs ++ b :: ys = pre ++ L :: post ->
  List.length pre = List.length xs -> xs = pre /\ b = L /\ ys = post.
Proof.
  revert xs. induction pre as [|a pre IH]; intros xs E Hl.
  - destruct xs as [|x xs]; [|discriminate Hl].
    simpl in E. injection E as E1 E2. auto.
  - destruct xs as [|x xs]; [discriminate Hl|].
    simpl in E. injection E as E1 E2.
    destruct (IH xs E2) as (-> & -> & ->); [simpl in Hl; lia|].
    subst. auto.
Qed.

(** On a well-formed history the reference prior donation of the engine,
    [donations_before_target[-1]], is the record appended last among those
    of the latest date before the target date. *)
Lemma reference_is_last_of_latest_date
    (target_date : date) (pre post : list record) (L : record) :
  wf_history (pre ++ L :: post) = true ->
  (date_of L <? target_date)%date = true ->
  (forall r, In r (pre ++ L :: post) -> (date_of r <? target_date)%date = true ->
             (date_of L <? date_of r)%date = false) ->
  (forall r, In r post -> (date_of r <? target_date)%date = true ->
             (date_of r <? date_of L)%date = true) ->
  last_or_none (filter (fun h => (date_of h <? target_date)%date)
                       (sorted start (pre ++ L :: post))) = Some L.
Proof.
  intros W pL Max Post.
  pose proof (wf_history_canonical _ W) as Cn. rewrite Forall_forall in Cn.
  assert (IL : In L (pre ++ L :: post)) by (apply in_or_app; right; left; reflexivity).
  destruct (canonical_start _ (Cn _ IL)) as [PL SL].
  destruct (parseable_date_of _ PL) as [_ VL].
  destruct (sorted_last_of_key start pre post L) as (lo & hi & Es & _ & Hhi & _).
  { intros x Hx Kx.
    assert (D : date_of x = date_of L) by (unfold date_of; rewrite Kx; reflexivity).
    assert (px : (date_of x <? target_date)%date = true) by (rewrite D; exact pL).
    pose proof (Post x Hx px) as C. rewrite D, date_ltb_irrefl in C. discriminate. }
  rewrite Es, filter_app. cbn [filter]. rewrite pL.
  rewrite (filter_none _ hi); [apply last_or_none_app|].
  intros x Hx. rewrite Forall_forall in Hhi. pose proof (Hhi x Hx) as Lx.
  assert (Ix : In x (pre ++ L :: post)).
  { apply (sorted_In start). rewrite Es. apply in_or_app. right. right. exact Hx. }
  destruct (canonical_start _ (Cn _ Ix)) as [Px Sx].
  destruct (parseable_date_of _ Px) as [_ Vx].
  unfold key_lt in Lx. rewrite SL, Sx, (strftime_ltb _ _ VL Vx) in Lx.
  destruct (date_of x <? target_date)%date eqn:Tx; [|reflexivity].
  rewrite (Max x Ix Tx) in Lx. discriminate.
Qed.

(** *** The yearly cap *)

Lemma volume_of_nil : volume_of [] = 0.
Proof. reflexivity. Qed.

(** The sum the engine computes over the sorted view is the volume of the
    whole-blood records of the history inside the open window. *)
Lemma volume_in_year_window (target_date : date) (history : list record) :
  wf_history history = true ->
  volume_of (filter (fun h => (shift_year target_date (-1) <? date_of h)%date &&
                              (date_of h <? target_date)%date &&
                              contains "全血" (title h))
                    (sorted start history)) =
  window_volume target_date history.
Proof.
  intros W. unfold window_volume. fold (volume_of
    (filter (fun r => is_whole_blood (title r) &&
                      in_open_window target_date (date_of r)) history)).
  rewrite (volume_of_perm _ _ (filter_perm _ _ _ (sorted_perm start history))).
  f_equal. apply filter_ext_in. intros r Hr.
  rewrite (wf_title_whole_blood _ (wf_history_title _ _ W Hr)).
  unfold in_open_window. apply andb_comm.
Qed.

(** When the cap is exceeded the engine finds the earliest whole-blood
    record of the half-open window and reports the day one year after it. *)
Lemma annual_cap_exceeded (target_date : date) (history : list record)
    (gender don_type : string) :
  valid_date target_date = true ->
  MINYEAR < year target_date -> year target_date < MAXYEAR ->
  wf_gender gender = true -> wf_history history = true ->
  is_whole_blood don_type = true ->
  gender_cap gender < window_volume target_date history + get_volume don_type ->
  exists first,
    annual_cap target_date (sorted start history) gender don_type =
    Ok (Some (shift_year (date_of first) 1)) /\
    In first history /\ is_whole_blood (title first) = true /\
    in_half_open_window target_date (date_of first) = true /\
    (forall r, In r history -> is_whole_blood (title r) = true ->
               in_half_open_window target_date (date_of r) = true ->
               (date_of first <=? date_of r)%date = true).
Proof.
  intros V Ymin Ymax G W Wb Cap.
  pose proof (wf_history_parseable _ W) as P.
  pose proof (sorted_parseable _ P) as Ps.
  pose proof (wf_history_canonical _ W) as Cn. rewrite Forall_forall in Cn.
  assert (Ct : contains "全血" don_type = true /\ get_volume don_type <= 400).
  { unfold is_whole_blood in Wb. apply orb_prop in Wb.
    destruct Wb as [E|E]; apply String.eqb_eq in E; rewrite E;
      split; (reflexivity || (vm_compute; discriminate)). }
  destruct Ct as [Ct Vt].
  rewrite (annual_cap_eq _ _ _ _ V Ymin G Ps Ct).
  rewrite (volume_in_year_window _ _ W).
  replace (gender_cap gender <? window_volume target_date history + get_volume don_type)
    with true by lia.
  cbv zeta.
  set (half := fun h : record =>
                 (shift_year target_date (-1) <=? date_of h)%date &&
                 (date_of h <? target_date)%date && contains "全血" (title h)).
  (* the window is not empty: some volume is counted *)
  assert (Ne : exists x, In x (filter half (sorted start history))).
  { rewrite <- (volume_in_year_window _ _ W) in Cap.
    assert (Gc : 800 <= gender_cap gender)
      by (unfold gender_cap; destruct (gender =? "男性")%string; lia).
    destruct (filter (fun h => (shift_year target_date (-1) <? date_of h)%date &&
                               (date_of h <? target_date)%date &&
                               contains "全血" (title h))
                     (sorted start history)) as [|x rel] eqn:E.
    - rewrite volume_of_nil in Cap. lia.
    - exists x. assert (Ix : In x (x :: rel)) by (left; reflexivity).
      rewrite <- E in Ix. apply filter_In in Ix. destruct Ix as [Ix Fx].
      apply filter_In. split; [exact Ix|]. unfold half.
      apply andb_prop in Fx. destruct Fx as [Fx ->].
      apply andb_prop in Fx. destruct Fx as [Fx ->].
      unfold date_leb. rewrite Fx. reflexivity. }
  destruct (filter half (sorted start history)) as [|x w] eqn:E;
    [destruct Ne as (x & []) | clear Ne].
  destruct (min_by start (x :: w)) as [first|e] eqn:M; [|discriminate].
  cbn [bind]. apply min_by_spec in M. destruct M as [I Min].
  rewrite <- E in I, Min. apply filter_In in I. destruct I as [I F].
  apply sorted_In in I.
  destruct (canonical_start _ (Cn _ I)) as [Pf Sf].
  destruct (parseable_date_of _ Pf) as [Ef Vf].
  rewrite Ef. cbn [bind].
  unfold half in F. apply andb_prop in F. destruct F as [F Cf].
  pose proof F as F'. apply andb_prop in F'. destruct F' as [_ Lf].
  assert (Yf : year (date_of first) < MAXYEAR) by (apply date_ltb_year in Lf; lia).
  rewrite (rd_add_year _ Vf Yf). cbn [bind].
  exists first. split; [reflexivity|]. split; [exact I|].
  split; [rewrite <- (wf_title_whole_blood _ (wf_history_title _ _ W I)); exact Cf|].
  split; [exact F|].
  intros r Ir Wr Hr.
  assert (Fr : In r (filter half (sorted start history))).
  { apply filter_In. split; [apply sorted_In, Ir|]. unfold half.
    unfold in_half_open_window in Hr. rewrite Hr.
    rewrite (wf_title_whole_blood _ (wf_history_title _ _ W Ir)). exact Wr. }
  pose proof (Min r Fr) as Kr. unfold key_le in Kr.
  destruct (canonical_start _ (Cn _ Ir)) as [Pr Sr].
  destruct (parseable_date_of _ Pr) as [_ Vr].
  rewrite Sr, Sf, (strftime_ltb _ _ Vr Vf) in Kr.
  rewrite date_leb_ltb, Kr. reflexivity.
Qed.

(** *** A prior 200 mL donation *)

(** The 400 mL verdict five weeks after a single 200 mL record. *)
Lemma check_type_400_after_200
    (d target_date : date) (r : record) (gender : string) (birthday : date) :
  valid_date d = true -> valid_date birthday = true ->
  start r = strftime d -> title r = "200ml全血"%string ->
  add_days d 35 = Ok target_date ->
  is_age_ok "400ml全血" gender (age_at target_date birthday) = true ->
  check_type target_date [r] (Some r) gender (age_at target_date birthday)
             "400ml全血" = Ok Available.
Proof.
  intros Vd Vb Hs Ht Ha Age.
  destruct (add_days_Ok _ _ _ Vd Ha) as [Vt _].
  pose proof (is_age_ok_gender _ _ Age) as G.
  pose proof (is_age_ok_bounds _ _ _ Age) as Ab.
  pose proof (age_le_year_diff _ _ Vt Vb ltac:(lia)) as Ay.
  assert (Ymin : MINYEAR < year target_date)
    by (revert Vb; date_simpl; lia).
  assert (Sr : strptime (start r) = Ok d) by (rewrite Hs; apply strptime_strftime, Vd).
  assert (Pr : parseable r = true) by (unfold parseable; rewrite Sr; reflexivity).
  assert (P : Forall (fun x => parseable x = true) [r]) by (constructor; [exact Pr | constructor]).
  (* the minimum interval: four weeks after the record *)
  assert (M : minimum_interval target_date (Some r) gender "400ml全血" = Ok None).
  { unfold minimum_interval, next_available_after. rewrite Sr, Ht. cbn [bind].
    change (contains "全血" "200ml全血") with true.
    change ("400ml全血" =? "成分献血")%string with false.
    change ("200ml全血" =? "400ml全血")%string with false.
    change ("200ml全血" =? "200ml全血")%string with true. cbv iota.
    rewrite (rd_add_weeks 4 d Vd) by lia.
    change (Z.to_nat (4 * 7)) with 28%nat.
    change 35%nat with (28 + 7)%nat in Ha. rewrite add_days_plus in Ha.
    destruct (add_days d 28) as [na|e] eqn:E; [|discriminate].
    cbn [bind] in *.
    destruct (add_days_Ok _ _ _ Vd E) as [Vna _].
    destruct (add_days_Ok _ _ _ Vna Ha) as [_ L]. rewrite L. reflexivity. }
  (* the yearly cap: at most 200 mL before, 400 mL asked, 800 mL allowed *)
  assert (C : annual_cap target_date [r] gender "400ml全血" = Ok None).
  { rewrite (annual_cap_eq target_date [r] gender "400ml全血" Vt Ymin G P eq_refl).
    assert (B : (gender_cap gender <?
                 volume_of (filter (fun h => (shift_year target_date (-1) <? date_of h)%date &&
                                             (date_of h <? target_date)%date &&
                                             contains "全血" (title h)) [r]) +
                 get_volume "400ml全血") = false).
    { assert (Vol : volume_of [r] = 200)
        by (unfold volume_of; cbn [map]; rewrite Ht; reflexivity).
      assert (Vol0 : volume_of [] = 0) by reflexivity.
      change (get_volume "400ml全血") with 400.
      cbn [filter].
      destruct (wf_gender_cases _ G) as [-> | ->];
        match goal with |- context [if ?c then _ else _] => destruct c end;
        rewrite ?Vol, ?Vol0; reflexivity. }
    rewrite B. reflexivity. }
  unfold check_type. rewrite Age. cbn [negb]. rewrite M. cbn [bind].
  rewrite C. reflexivity.
Qed.

(** In the last year of the calendar the call can end in an exception
    before any verdict is returned: eight weeks after 9999-11-20 there is no
    date. *)
Example calendar_end_overflow :
  check_availability (mkdate 9999 12 25)
    [mkrecord "a" "200ml全血" "9999-11-20" "" "" ""] "男性" (mkdate 9970 1 1) =
  Raise OverflowError.
Proof. vm_compute. reflexivity. Qed.

(** * The engine on the heap: properties *)

(** ** The heap *)

Lemma bind_py_run {A B : Type} (c : Py A) (k : A -> Py B) (hp : heap) :
  bind_py c k hp =
  match c hp with
  | (Ok a, hp') => k a hp'
  | (Raise e, hp') => (Raise e, hp')
  end.
Proof. reflexivity. Qed.

Lemma nth_error_old (hp new : heap) (l : loc) (o : object) :
  nth_error hp l = Some o -> nth_error (hp ++ new) l = Some o.
Proof.
  intros H. rewrite nth_error_app1; [exact H|].
  apply nth_error_Some. congruence.
Qed.

Lemma nth_error_new (hp : heap) (o : object) (new : heap) :
  nth_error (hp ++ o :: new) (List.length hp) = Some o.
Proof. rewrite nth_error_app2, Nat.sub_diag; [reflexivity | lia]. Qed.

Lemma update_app_r (hp rest : heap) (l : loc) (o : object) :
  (List.length hp <= l)%nat ->
  update l o (hp ++ rest) = hp ++ update (l - List.length hp)%nat o rest.
Proof.
  revert l. induction hp as [|x hp IH]; intros l H; simpl.
  - rewrite Nat.sub_0_r. reflexivity.
  - destruct l as [|l]; [simpl in H; lia|]. simpl. rewrite IH; [reflexivity|].
    simpl in H. lia.
Qed.

Lemma nth_error_update_same (hp : heap) (l : loc) (o o' : object) :
  nth_error hp l = Some o' -> nth_error (update l o hp) l = Some o.
Proof.
  revert l. induction hp as [|x hp IH]; intros [|l]; simpl; try discriminate.
  - reflexivity.
  - apply IH.
Qed.

Lemma nth_error_update_other (hp : heap) (l l' : loc) (o : object) :
  l <> l' -> nth_error (update l o hp) l' = nth_error hp l'.
Proof.
  revert l l'. induction hp as [|x hp IH]; intros [|l] [|l'] H; simpl;
    try reflexivity; try congruence.
  apply IH. congruence.
Qed.

(** ** Reading a record *)

Lemma record_at_loc (hp : heap) (v : value) (r : record) :
  record_at hp v = Some r ->
  exists l d, v = VRef l /\ nth_error hp l = Some (ODict d) /\
              record_of_dict d = Some r /\ (l < List.length hp)%nat.
Proof.
  unfold record_at. destruct v as [| | |l]; try discriminate.
  destruct (nth_error hp l) as [[d|]|] eqn:E; try discriminate.
  intros H. exists l, d. repeat split; try assumption.
  apply nth_error_Some. congruence.
Qed.

Lemma record_at_old (hp new : heap) (v : value) (r : record) :
  record_at hp v = Some r -> record_at (hp ++ new) v = Some r.
Proof.
  intros H. destruct (record_at_loc _ _ _ H) as (l & d & -> & E & R & _).
  unfold record_at. rewrite (nth_error_old _ new _ _ E). exact R.
Qed.

Lemma record_of_dict_fields (d : dict value) (r : record) :
  record_of_dict d = Some r ->
  dict_get d "start" = Some (VStr (start r)) /\
  dict_get d "title" = Some (VStr (title r)) /\ d <> [].
Proof.
  unfold record_of_dict. intros H.
  assert (N : d <> []) by (intros ->; discriminate H).
  destruct (dict_get d "id") as [[| | i|]|]; try discriminate.
  destruct (dict_get d "title") as [[| | t|]|]; try discriminate.
  destruct (dict_get d "start") as [[| | s|]|]; try discriminate.
  destruct (dict_get d "location") as [[| | p|]|]; try discriminate.
  destruct (dict_get d "notes") as [[| | n|]|]; try discriminate.
  destruct (dict_get d "color") as [[| | c|]|]; try discriminate.
  inversion H. auto.
Qed.

Lemma getitem_start (hp : heap) (v : value) (r : record) :
  record_at hp v = Some r -> getitem v "start" hp = (Ok (VStr (start r)), hp).
Proof.
  intros H. destruct (record_at_loc _ _ _ H) as (l & d & -> & E & R & _).
  destruct (record_of_dict_fields _ _ R) as (S & _ & _).
  unfold getitem, bind_py, load, lift, dict_item. rewrite E, S. reflexivity.
Qed.

Lemma getitem_title (hp : heap) (v : value) (r : record) :
  record_at hp v = Some r -> getitem v "title" hp = (Ok (VStr (title r)), hp).
Proof.
  intros H. destruct (record_at_loc _ _ _ H) as (l & d & -> & E & R & _).
  destruct (record_of_dict_fields _ _ R) as (_ & T & _).
  unfold getitem, bind_py, load, lift, dict_item. rewrite E, T. reflexivity.
Qed.

Lemma start_key_record (hp : heap) (v : value) (r : record) :
  record_at hp v = Some r -> start_key v hp = (Ok (start r), hp).
Proof.
  intros H. unfold start_key. rewrite bind_py_run, (getitem_start _ _ _ H).
  reflexivity.
Qed.

Lemma start_date_record (hp : heap) (v : value) (r : record) :
  record_at hp v = Some r -> start_date v hp = (strptime (start r), hp).
Proof.
  intros H. unfold start_date. rewrite bind_py_run, (getitem_start _ _ _ H).
  reflexivity.
Qed.

Lemma title_has_record (sub : string) (hp : heap) (v : value) (r : record) :
  record_at hp v = Some r ->
  title_has sub v hp = (Ok (contains sub (title r)), hp).
Proof.
  intros H. unfold title_has. rewrite bind_py_run, (getitem_title _ _ _ H).
  reflexivity.
Qed.

Lemma title_is_record (s : string) (hp : heap) (v : value) (r : record) :
  record_at hp v = Some r ->
  title_is s v hp = (Ok (title r =? s)%string, hp).
Proof.
  intros H. unfold title_is. rewrite bind_py_run, (getitem_title _ _ _ H).
  reflexivity.
Qed.

Lemma truthy_record (hp : heap) (v : value) (r : record) :
  record_at hp v = Some r -> truthy v hp = (Ok true, hp).
Proof.
  intros H. destruct (record_at_loc _ _ _ H) as (l & d & -> & E & R & _).
  destruct (record_of_dict_fields _ _ R) as (_ & _ & N).
  unfold truthy, bind_py, load. rewrite E. destruct d; [contradiction|reflexivity].
Qed.

Lemma get_volume_py_str (t : string) : get_volume_py (VStr t) = get_volume t.
Proof. reflexivity. Qed.

(** ** Reading a list *)

Lemma list_at_loc (hp : heap) (v : value) (items : list value) :
  list_at hp v = Some items ->
  exists l, v = VRef l /\ nth_error hp l = Some (OList items).
Proof.
  unfold list_at. destruct v as [| | |l]; try discriminate.
  destruct (nth_error hp l) as [[|its]|] eqn:E; try discriminate.
  intros H. inversion H. subst. exists l. auto.
Qed.

Lemma list_at_old (hp new : heap) (v : value) (items : list value) :
  list_at hp v = Some items -> list_at (hp ++ new) v = Some items.
Proof.
  intros H. destruct (list_at_loc _ _ _ H) as (l & -> & E).
  unfold list_at. rewrite (nth_error_old _ new _ _ E). reflexivity.
Qed.

Lemma list_at_new (hp new : heap) (items : list value) :
  list_at (hp ++ OList items :: new) (VRef (List.length hp)) = Some items.
Proof. unfold list_at. rewrite nth_error_new. reflexivity. Qed.

Lemma items_of_list (hp : heap) (v : value) (items : list value) :
  list_at hp v = Some items -> items_of v hp = (Ok items, hp).
Proof.
  intros H. destruct (list_at_loc _ _ _ H) as (l & -> & E).
  unfold items_of, bind_py, load. rewrite E. reflexivity.
Qed.

Lemma truthy_list (hp : heap) (v : value) (items : list value) :
  list_at hp v = Some items ->
  truthy v hp = (Ok (match items with [] => false | _ :: _ => true end), hp).
Proof.
  intros H. destruct (list_at_loc _ _ _ H) as (l & -> & E).
  unfold truthy, bind_py, load. rewrite E. destruct items; reflexivity.
Qed.

Lemma last_item_list (hp : heap) (v x : value) (items : list value) :
  list_at hp v = Some items -> last_or_none items = Some x ->
  last_item v hp = (Ok x, hp).
Proof.
  intros H L. destruct (list_at_loc _ _ _ H) as (l & -> & E).
  unfold last_item, bind_py, load. rewrite E, L. reflexivity.
Qed.

(** A loop whose body reads only runs through the items of the list. *)
Lemma for_in_from_reads {T : Type} (hp : heap) (l : value) (items : list value)
    (body : T -> value -> Py T) (f : T -> value -> result T) :
  list_at hp l = Some items ->
  (forall acc x, In x items -> body acc x hp = (f acc x, hp)) ->
  forall budget index acc,
    (index + budget = List.length items)%nat ->
    for_in_from budget l index body acc hp = (foldM f (skipn index items) acc, hp).
Proof.
  intros L B. induction budget as [|budget IH]; intros index acc E.
  - cbn [for_in_from]. rewrite bind_py_run, (items_of_list _ _ _ L).
    assert (N : nth_error items index = None) by (apply nth_error_None; lia).
    rewrite N. rewrite skipn_all2 by lia. reflexivity.
  - cbn [for_in_from]. rewrite bind_py_run, (items_of_list _ _ _ L).
    destruct (nth_error items index) as [x|] eqn:N.
    2:{ apply nth_error_None in N. lia. }
    assert (Sk : skipn index items = x :: skipn (S index) items).
    { clear - N. revert index N. induction items as [|y t IHt]; intros [|i] N;
        simpl in *; try discriminate.
      - inversion N. reflexivity.
      - apply IHt, N. }
    rewrite Sk. cbn [foldM]. rewrite bind_py_run.
    rewrite (B acc x (nth_error_In _ _ N)).
    destruct (f acc x) as [acc'|e]; [|reflexivity].
    cbn [bind]. apply IH. lia.
Qed.

Lemma for_in_reads {T : Type} (hp : heap) (l : value) (items : list value)
    (body : T -> value -> Py T) (f : T -> value -> result T) (acc : T) :
  list_at hp l = Some items ->
  (forall acc x, In x items -> body acc x hp = (f acc x, hp)) ->
  for_in l body acc hp = (foldM f items acc, hp).
Proof.
  intros L B. unfold for_in. rewrite bind_py_run, (items_of_list _ _ _ L).
  rewrite (for_in_from_reads hp l items body f L B); [reflexivity | lia].
Qed.

Lemma foldM_select {A : Type} (p : A -> result bool) (l acc : list A) :
  foldM (fun acc x => b <- p x ;; Ok (if b then acc ++ [x] else acc)) l acc =
  (r <- filterM p l ;; Ok (acc ++ r)).
Proof.
  revert acc. induction l as [|x t IH]; intros acc; cbn [foldM filterM bind].
  - rewrite app_nil_r. reflexivity.
  - destruct (p x) as [b|e]; cbn [bind]; [|reflexivity].
    rewrite IH. destruct (filterM p t) as [r|e]; cbn [bind]; [|reflexivity].
    destruct b; [rewrite <- app_assoc|]; reflexivity.
Qed.

(** A comprehension whose condition reads only: the new list holds the
    selected items, and nothing else changes. *)
Lemma comprehension_reads (hp : heap) (l : value) (items : list value)
    (cond : value -> Py bool) (p : value -> result bool) :
  list_at hp l = Some items ->
  (forall x, In x items -> cond x hp = (p x, hp)) ->
  comprehension l cond hp =
  match filterM p items with
  | Ok selected => (Ok (VRef (List.length hp)), hp ++ [OList selected])
  | Raise e => (Raise e, hp)
  end.
Proof.
  intros L C. unfold comprehension. rewrite bind_py_run.
  rewrite (for_in_reads hp l items _
             (fun acc x => b <- p x ;; Ok (if b then acc ++ [x] else acc)) [] L).
  - rewrite foldM_select. destruct (filterM p items); reflexivity.
  - intros acc x I. rewrite bind_py_run, (C x I).
    destruct (p x); reflexivity.
Qed.

(** ** Lists of records *)

Lemma records_at_Forall2 (hp : heap) (items : list value) (rs : list record) :
  records_at hp items = Some rs <->
  Forall2 (fun x r => record_at hp x = Some r) items rs.
Proof.
  revert rs. induction items as [|x t IH]; intros rs; simpl.
  - split; [intros H; inversion H; constructor | intros H; inversion H; reflexivity].
  - destruct (record_at hp x) as [r|] eqn:E.
    + destruct (records_at hp t) as [rs'|].
      * split.
        -- intros H. inversion H. subst. constructor; [exact E | apply IH; reflexivity].
        -- intros H. inversion H as [|? r' ? rs'' Hr Ht]; subst.
           apply IH in Ht. congruence.
      * split; [discriminate|]. intros H. inversion H as [|? r' ? rs'' Hr Ht]; subst.
        apply IH in Ht. discriminate.
    + split; [discriminate|]. intros H. inversion H. congruence.
Qed.

Lemma Forall2_record_old (hp new : heap) (items : list value) (rs : list record) :
  Forall2 (fun x r => record_at hp x = Some r) items rs ->
  Forall2 (fun x r => record_at (hp ++ new) x = Some r) items rs.
Proof.
  intros H. eapply Forall2_impl; [|exact H].
  intros x r. apply record_at_old.
Qed.

Lemma Forall2_record_In (hp : heap) (items : list value) (rs : list record) (x : value) :
  Forall2 (fun x r => record_at hp x = Some r) items rs -> In x items ->
  exists r, record_at hp x = Some r.
Proof.
  induction 1 as [|y r t rs' Hy _ IH]; intros I; [contradiction|].
  destruct I as [<-|I]; [exists r; exact Hy | apply IH, I].
Qed.

Lemma filterM_records (hp : heap) (items : list value) (rs : list record)
    (p : value -> result bool) (q : record -> result bool) :
  Forall2 (fun x r => record_at hp x = Some r) items rs ->
  (forall x r, record_at hp x = Some r -> p x = q r) ->
  match filterM q rs with
  | Ok rs' =>
      exists selected,
        filterM p items = Ok selected /\
        Forall2 (fun x r => record_at hp x = Some r) selected rs'
  | Raise e => filterM p items = Raise e
  end.
Proof.
  intros F E. induction F as [|x r t rs' Hx _ IH]; cbn [filterM].
  - exists []. split; [reflexivity | constructor].
  - rewrite (E x r Hx). destruct (q r) as [b|e]; cbn [bind]; [|reflexivity].
    destruct (filterM q rs') as [rs''|e]; cbn [bind].
    + destruct IH as (sel & -> & Fs). cbn [bind]. destruct b.
      * exists (x :: sel). split; [reflexivity | constructor; assumption].
      * exists sel. split; [reflexivity | assumption].
    + rewrite IH. reflexivity.
Qed.

(** A comprehension over a list of records whose condition reads the
    record. *)
Lemma comprehension_records (hp : heap) (l : value) (items : list value)
    (rs : list record) (cond : value -> Py bool) (q : record -> result bool) :
  list_at hp l = Some items ->
  Forall2 (fun x r => record_at hp x = Some r) items rs ->
  (forall x r, record_at hp x = Some r -> cond x hp = (q r, hp)) ->
  match filterM q rs with
  | Ok rs' =>
      exists selected,
        comprehension l cond hp =
        (Ok (VRef (List.length hp)), hp ++ [OList selected]) /\
        Forall2 (fun x r => record_at hp x = Some r) selected rs'
  | Raise e => comprehension l cond hp = (Raise e, hp)
  end.
Proof.
  intros L F C.
  set (p := fun x => match record_at hp x with
                     | Some r => q r
                     | None => Raise TypeError
                     end).
  assert (Cp : forall x, In x items -> cond x hp = (p x, hp)).
  { intros x I. destruct (Forall2_record_In _ _ _ _ F I) as (r & Hr).
    unfold p. rewrite Hr. apply C, Hr. }
  rewrite (comprehension_reads hp l items cond p L Cp).
  assert (E : forall x r, record_at hp x = Some r -> p x = q r)
    by (intros x r Hr; unfold p; rewrite Hr; reflexivity).
  pose proof (filterM_records hp items rs p q F E) as R.
  destruct (filterM q rs) as [rs'|e].
  - destruct R as (sel & -> & Fs). exists sel. auto.
  - rewrite R. reflexivity.
Qed.

(** *** sorted *)

Lemma map_py_keys (hp : heap) (items : list value) (rs : list record) :
  Forall2 (fun x r => record_at hp x = Some r) items rs ->
  map_py (fun x => k <~ start_key x ;; ret (k, x)) items hp =
  (Ok (combine (map start rs) items), hp).
Proof.
  induction 1 as [|x r t rs' Hx _ IH]; cbn [map_py map combine]; [reflexivity|].
  rewrite bind_py_run, bind_py_run, (start_key_record _ _ _ Hx).
  unfold ret at 1. rewrite bind_py_run, IH. reflexivity.
Qed.

Lemma insert_by_keyed (hp : heap) (x : value) (r : record)
    (keyed : list (string * value)) (rs : list record) :
  record_at hp x = Some r ->
  Forall2 (fun kx r => fst kx = start r /\ record_at hp (snd kx) = Some r) keyed rs ->
  Forall2 (fun kx r => fst kx = start r /\ record_at hp (snd kx) = Some r)
          (insert_by fst (start r, x) keyed) (insert_by start r rs).
Proof.
  intros Hx. induction 1 as [|ky y t rs' [Hk Hy] F IH]; cbn [insert_by].
  - constructor; [split; [reflexivity | exact Hx] | constructor].
  - cbn [fst]. rewrite Hk. destruct (String.ltb (start y) (start r)).
    + constructor; [split; assumption | exact IH].
    + constructor; [split; [reflexivity | exact Hx]|].
      constructor; [split; assumption | exact F].
Qed.

Lemma sorted_keyed (hp : heap) (items : list value) (rs : list record) :
  Forall2 (fun x r => record_at hp x = Some r) items rs ->
  Forall2 (fun kx r => fst kx = start r /\ record_at hp (snd kx) = Some r)
          (sorted fst (combine (map start rs) items)) (sorted start rs).
Proof.
  induction 1 as [|x r t rs' Hx _ IH]; cbn [map combine sorted]; [constructor|].
  apply insert_by_keyed; assumption.
Qed.

Lemma py_sorted_records (hp : heap) (l : value) (items : list value)
    (rs : list record) :
  list_at hp l = Some items ->
  Forall2 (fun x r => record_at hp x = Some r) items rs ->
  exists sorted_items,
    py_sorted l start_key hp =
    (Ok (VRef (List.length hp)), hp ++ [OList sorted_items]) /\
    Forall2 (fun x r => record_at hp x = Some r) sorted_items (sorted start rs).
Proof.
  intros L F. unfold py_sorted.
  rewrite bind_py_run, (items_of_list _ _ _ L).
  rewrite bind_py_run, (map_py_keys _ _ _ F).
  eexists. split; [reflexivity|].
  pose proof (sorted_keyed _ _ _ F) as K.
  induction K as [|kx r t rs' [_ Hr] _ IH]; cbn [map]; constructor; assumption.
Qed.

(** *** min and sum *)

Lemma py_min_records (hp : heap) (l : value) (items : list value)
    (rs : list record) :
  list_at hp l = Some items ->
  Forall2 (fun x r => record_at hp x = Some r) items rs ->
  match min_by start rs with
  | Ok m => exists x, py_min l start_key hp = (Ok x, hp) /\ record_at hp x = Some m
  | Raise e => py_min l start_key hp = (Raise e, hp)
  end.
Proof.
  intros L F. unfold py_min. rewrite bind_py_run.
  set (f := fun (best : option (string * value)) x =>
              match record_at hp x with
              | Some r =>
                  Ok (match best with
                      | None => Some (start r, x)
                      | Some (kb, _) =>
                          if String.ltb (start r) kb then Some (start r, x) else best
                      end)
              | None => Raise TypeError
              end).
  rewrite (for_in_reads hp l items _ f None L).
  2:{ intros acc x I. destruct (Forall2_record_In _ _ _ _ F I) as (r & Hr).
      rewrite bind_py_run, (start_key_record _ _ _ Hr). unfold f. rewrite Hr.
      reflexivity. }
  destruct F as [|x r t rs' Hx F]; cbn [foldM min_by]; [reflexivity|].
  unfold f at 1. rewrite Hx. cbn [bind].
  assert (G : forall b xb, record_at hp xb = Some b ->
            exists xb',
              foldM f t (Some (start b, xb)) =
              Ok (Some (start (fold_left
                                 (fun best y =>
                                    if String.ltb (start y) (start best) then y else best)
                                 rs' b), xb')) /\
              record_at hp xb' =
              Some (fold_left
                      (fun best y => if String.ltb (start y) (start best) then y else best)
                      rs' b)).
  { clear Hx L. induction F as [|y ry t' rs'' Hy _ IH]; intros b xb Hb; cbn [foldM fold_left].
    - exists xb. auto.
    - unfold f at 1. rewrite Hy. cbn [bind].
      destruct (String.ltb (start ry) (start b)); apply IH; assumption. }
  destruct (G r x Hx) as (xb' & -> & Hb'). exists xb'. auto.
Qed.

Lemma volume_loop (hp : heap) (l : value) (items : list value) (rs : list record) :
  list_at hp l = Some items ->
  Forall2 (fun x r => record_at hp x = Some r) items rs ->
  for_in l (fun total h => t <~ getitem h "title" ;; ret (total + get_volume_py t))
         0 hp =
  (Ok (volume_of rs), hp).
Proof.
  intros L F.
  set (f := fun (total : Z) x =>
              match record_at hp x with
              | Some r => Ok (total + get_volume (title r))
              | None => Raise TypeError
              end).
  rewrite (for_in_reads hp l items _ f 0 L).
  2:{ intros acc x I. destruct (Forall2_record_In _ _ _ _ F I) as (r & Hr).
      rewrite bind_py_run, (getitem_title _ _ _ Hr). unfold f. rewrite Hr.
      reflexivity. }
  clear L. f_equal. unfold volume_of, sum. generalize 0.
  induction F as [|x r t rs' Hx _ IH]; intros acc; cbn [foldM map fold_left];
    [reflexivity|].
  unfold f at 1. rewrite Hx. cbn [bind]. apply IH.
Qed.

(** ** The steps of the engine on the heap *)

Lemma next_available_after_py_record (hp : heap) (v : value) (r : record)
    (don_type gender : string) :
  record_at hp v = Some r ->
  next_available_after_py v don_type gender hp =
  (next_available_after r don_type gender, hp).
Proof.
  intros H. unfold next_available_after_py, next_available_after.
  rewrite bind_py_run, (start_date_record _ _ _ H).
  destruct (strptime (start r)) as [d|e]; cbn [bind]; [|reflexivity].
  rewrite bind_py_run, (title_has_record _ _ _ _ H).
  destruct (contains "全血" (title r)).
  - destruct (don_type =? "成分献血")%string; [reflexivity|].
    rewrite bind_py_run, (title_is_record _ _ _ _ H).
    destruct (title r =? "400ml全血")%string; [reflexivity|].
    rewrite bind_py_run, (title_is_record _ _ _ _ H).
    destruct (title r =? "200ml全血")%string; reflexivity.
  - rewrite bind_py_run, (title_has_record _ _ _ _ H).
    destruct (contains "成分" (title r)); reflexivity.
Qed.

Lemma minimum_interval_py_reads (hp : heap) (lv : value) (ld : option record)
    (target_date : date) (gender don_type : string) :
  match ld with
  | Some r => record_at hp lv = Some r
  | None => lv = VNone
  end ->
  minimum_interval_py target_date lv gender don_type hp =
  (minimum_interval target_date ld gender don_type, hp).
Proof.
  intros H. unfold minimum_interval_py, minimum_interval. destruct ld as [r|].
  - rewrite bind_py_run, (truthy_record _ _ _ H).
    rewrite bind_py_run, (next_available_after_py_record _ _ _ _ _ H).
    destruct (next_available_after r don_type gender); reflexivity.
  - subst lv. reflexivity.
Qed.

(** The yearly cap creates its lists and changes nothing else. *)
Lemma annual_cap_py_records (hp : heap) (sv : value) (sitems : list value)
    (srs : list record) (target_date : date) (gender don_type : string) :
  list_at hp sv = Some sitems ->
  Forall2 (fun x r => record_at hp x = Some r) sitems srs ->
  exists new,
    annual_cap_py target_date sv gender don_type hp =
    (annual_cap target_date srs gender don_type, hp ++ new).
Proof.
  intros L F. unfold annual_cap_py, annual_cap, relevant_history, donations_in_window.
  destruct (contains "全血" don_type); [|exists []; rewrite app_nil_r; reflexivity].
  rewrite bind_py_run. unfold lift at 1.
  destruct (rd_sub target_date (rd_years 1)) as [window_start|e]; cbn [bind];
    [|exists []; rewrite app_nil_r; reflexivity].
  set (q1 := fun h : record =>
               d <- strptime (start h) ;;
               Ok ((window_start <? d)%date && (d <? target_date)%date &&
                   contains "全血" (title h))).
  set (q2 := fun h : record =>
               d <- strptime (start h) ;;
               Ok ((window_start <=? d)%date && (d <? target_date)%date &&
                   contains "全血" (title h))).
  rewrite bind_py_run.
  pose proof (comprehension_records hp sv sitems srs
                (fun h =>
                   d <~ start_date h ;;
                   if (window_start <? d)%date && (d <? target_date)%date
                   then title_has "全血" h else ret false) q1 L F) as C1.
  assert (P1 : forall x r, record_at hp x = Some r ->
               (d <~ start_date x ;;
                if (window_start <? d)%date && (d <? target_date)%date
                then title_has "全血" x else ret false) hp = (q1 r, hp)).
  { intros x r Hr. rewrite bind_py_run, (start_date_record _ _ _ Hr). unfold q1.
    destruct (strptime (start r)) as [d|e]; cbn [bind]; [|reflexivity].
    destruct ((window_start <? d)%date && (d <? target_date)%date); cbn [andb];
      [apply (title_has_record _ _ _ _ Hr) | reflexivity]. }
  specialize (C1 P1). clear P1.
  destruct (filterM q1 srs) as [relevant|e]; cbn [bind].
  2:{ exists []. rewrite C1, app_nil_r. reflexivity. }
  destruct C1 as (sel1 & C1 & F1). rewrite C1. clear C1.
  set (hp1 := hp ++ [OList sel1]).
  assert (L1 : list_at hp1 (VRef (List.length hp)) = Some sel1) by apply list_at_new.
  pose proof (Forall2_record_old hp [OList sel1] _ _ F1) as F1'. fold hp1 in F1'.
  rewrite bind_py_run, (volume_loop hp1 _ sel1 relevant L1 F1').
  rewrite bind_py_run. unfold lift at 1.
  destruct (dict_item MAX_VOLUME gender) as [cap|e]; cbn [bind];
    [|exists [OList sel1]; reflexivity].
  destruct (cap <? volume_of relevant + get_volume don_type);
    [|exists [OList sel1]; reflexivity].
  rewrite bind_py_run.
  pose proof (list_at_old hp [OList sel1] _ _ L) as L'. fold hp1 in L'.
  pose proof (Forall2_record_old hp [OList sel1] _ _ F) as F'. fold hp1 in F'.
  pose proof (comprehension_records hp1 sv sitems srs
                (fun h =>
                   lo <~ lift (Ok window_start) ;;
                   d <~ start_date h ;;
                   if (lo <=? d)%date && (d <? target_date)%date
                   then title_has "全血" h else ret false) q2 L' F') as C2.
  assert (P2 : forall x r, record_at hp1 x = Some r ->
               (lo <~ lift (Ok window_start) ;;
                d <~ start_date x ;;
                if (lo <=? d)%date && (d <? target_date)%date
                then title_has "全血" x else ret false) hp1 = (q2 r, hp1)).
  { intros x r Hr. rewrite bind_py_run. unfold lift at 1. unfold q2. cbv iota beta.
    rewrite bind_py_run, (start_date_record _ _ _ Hr).
    destruct (strptime (start r)) as [d|e]; cbn [bind]; [|reflexivity].
    destruct ((window_start <=? d)%date && (d <? target_date)%date); cbn [andb];
      [apply (title_has_record _ _ _ _ Hr) | reflexivity]. }
  specialize (C2 P2). clear P2.
  destruct (filterM q2 srs) as [in_window|e]; cbn [bind].
  2:{ exists [OList sel1]. rewrite C2. reflexivity. }
  destruct C2 as (sel2 & C2 & F2). rewrite C2. clear C2.
  assert (E2 : hp1 ++ [OList sel2] = hp ++ [OList sel1; OList sel2])
    by (unfold hp1; rewrite <- app_assoc; reflexivity).
  exists [OList sel1; OList sel2]. rewrite <- E2. clear E2.
  pose proof (list_at_new hp1 [] sel2) as L2.
  pose proof (Forall2_record_old hp1 [OList sel2] _ _ F2) as F2'.
  rewrite bind_py_run, (truthy_list _ _ _ L2).
  pose proof (py_min_records _ _ sel2 in_window L2 F2') as M.
  destruct F2 as [|x r t rs' Hx Ft]; [reflexivity|].
  rewrite bind_py_run.
  destruct (min_by start (r :: rs')) as [m|e]; cbn [bind].
  2:{ rewrite M. reflexivity. }
  destruct M as (xm & M & Hm). rewrite M.
  rewrite bind_py_run, (start_date_record _ _ _ Hm).
  destruct (strptime (start m)) as [d|e]; cbn [bind]; [|reflexivity].
  rewrite bind_py_run. unfold lift at 1.
  destruct (rd_add (rd_years 1) d); reflexivity.
Qed.

Lemma check_type_py_records (hp : heap) (sv lv : value) (sitems : list value)
    (srs : list record) (ld : option record) (target_date : date)
    (gender : string) (age : Z) (don_type : string) :
  list_at hp sv = Some sitems ->
  Forall2 (fun x r => record_at hp x = Some r) sitems srs ->
  match ld with
  | Some r => record_at hp lv = Some r
  | None => lv = VNone
  end ->
  exists new,
    check_type_py target_date sv lv gender age don_type hp =
    (match check_type target_date srs ld gender age don_type with
     | Ok v => Ok (display_of v)
     | Raise e => Raise e
     end, hp ++ new).
Proof.
  intros L F Hl. unfold check_type_py, check_type.
  destruct (negb (is_age_ok don_type gender age));
    [exists []; rewrite app_nil_r; reflexivity|].
  rewrite bind_py_run, (minimum_interval_py_reads _ _ _ _ _ _ Hl).
  destruct (minimum_interval target_date ld gender don_type) as [[na|]|e]; cbn [bind];
    try (exists []; rewrite app_nil_r; reflexivity).
  destruct (annual_cap_py_records hp sv sitems srs target_date gender don_type L F)
    as (new & A).
  rewrite bind_py_run, A. exists new.
  destruct (annual_cap target_date srs gender don_type) as [[bl|]|e]; reflexivity.
Qed.

(** ** The verdict map on the heap *)

Lemma verdict_of_display (v : verdict) : verdict_of_dict (display_of v) = Some v.
Proof. destruct v as [a [r|] [n|]]; reflexivity. Qed.

Lemma record_at_same (hp hp' : heap) (v : value) (r : record) :
  (forall l o, v = VRef l -> nth_error hp l = Some o -> nth_error hp' l = Some o) ->
  record_at hp v = Some r -> record_at hp' v = Some r.
Proof.
  intros S H. destruct (record_at_loc _ _ _ H) as (l & d & -> & E & R & _).
  unfold record_at. rewrite (S l _ eq_refl E). exact R.
Qed.

Lemma verdict_at_same (hp hp' : heap) (v : value) (x : verdict) :
  (forall l o, v = VRef l -> nth_error hp l = Some o -> nth_error hp' l = Some o) ->
  verdict_at hp v = Some x -> verdict_at hp' v = Some x.
Proof.
  intros S. unfold verdict_at. destruct v as [| | |l]; try discriminate.
  destruct (nth_error hp l) as [[d|]|] eqn:E; try discriminate.
  rewrite (S l _ eq_refl E). auto.
Qed.

Lemma verdicts_at_same (hp hp' : heap) (rl : loc) (d : dict value)
    (results : dict verdict) :
  (forall l o, l <> rl -> nth_error hp l = Some o -> nth_error hp' l = Some o) ->
  Forall (fun kv => exists l, snd kv = VRef l /\ l <> rl) d ->
  verdicts_at hp d = Some results -> verdicts_at hp' d = Some results.
Proof.
  intros S F. revert results.
  induction F as [|[k v] t (l & Hv & Hl) _ IH]; intros results; cbn [verdicts_at];
    [auto|].
  cbn [snd] in Hv. subst v.
  destruct (verdict_at hp (VRef l)) as [x|] eqn:E; [|discriminate].
  destruct (verdicts_at hp t) as [r|]; [|discriminate].
  assert (Sl : forall l' o, VRef l = VRef l' -> nth_error hp l' = Some o ->
                            nth_error hp' l' = Some o).
  { intros l' o E' N. inversion E'. subst l'. apply S; assumption. }
  rewrite (verdict_at_same hp hp' _ _ Sl E).
  rewrite (IH r eq_refl). auto.
Qed.

Lemma verdicts_at_set (hp : heap) (d : dict value) (results : dict verdict)
    (k : string) (entry : value) (v : verdict) :
  verdicts_at hp d = Some results -> verdict_at hp entry = Some v ->
  verdicts_at hp (dict_set k entry d) = Some (dict_set k v results).
Proof.
  intros H E. revert results H.
  induction d as [|[k' x] t IH]; intros results H; cbn [verdicts_at dict_set] in *.
  - inversion H. cbn [dict_set verdicts_at]. rewrite E. reflexivity.
  - destruct (verdict_at hp x) as [vx|] eqn:Ex; [|discriminate].
    destruct (verdicts_at hp t) as [r|] eqn:Et; [|discriminate].
    inversion H. subst results. cbn [dict_set].
    destruct (k' =? k)%string; cbn [verdicts_at].
    + rewrite E, Et. reflexivity.
    + rewrite Ex, (IH r eq_refl). reflexivity.
Qed.

Lemma dict_set_Forall {V : Type} (P : string * V -> Prop) (k : string) (v : V)
    (d : dict V) :
  Forall P d -> P (k, v) -> Forall P (dict_set k v d).
Proof.
  intros F H. induction F as [|[k' x] t Hx Ft IH]; cbn [dict_set].
  - constructor; [exact H | constructor].
  - destruct (k' =? k)%string; constructor; assumption.
Qed.

Lemma last_or_none_Forall2 {A B : Type} (R : A -> B -> Prop) (l : list A) (l' : list B) :
  Forall2 R l l' ->
  match last_or_none l, last_or_none l' with
  | Some x, Some y => R x y
  | None, None => True
  | _, _ => False
  end.
Proof.
  induction 1 as [|x y t t' Hxy F IH]; cbn [last_or_none]; [exact I|].
  destruct F as [|x' y' t2 t2' H' F']; [exact Hxy | exact IH].
Qed.

(** The loop over the donation types assigns to [results] and to nothing
    that existed before the call. *)
Lemma for_each_py_records (hp0 : heap) (rl : loc) (sv lv : value)
    (sitems : list value) (srs : list record) (ld : option record)
    (target_date : date) (gender : string) (age : Z) :
  (List.length hp0 <= rl)%nat ->
  sv <> VRef rl ->
  forall (types : list string) (rest : heap) (d : dict value) (results : dict verdict),
    list_at (hp0 ++ rest) sv = Some sitems ->
    Forall2 (fun x r => record_at (hp0 ++ rest) x = Some r /\ x <> VRef rl) sitems srs ->
    match ld with
    | Some r => record_at (hp0 ++ rest) lv = Some r /\ lv <> VRef rl
    | None => lv = VNone
    end ->
    nth_error (hp0 ++ rest) rl = Some (ODict d) ->
    verdicts_at (hp0 ++ rest) d = Some results ->
    Forall (fun kv => exists l, snd kv = VRef l /\ l <> rl) d ->
    exists rest',
      match for_each types (check_type target_date srs ld gender age) results with
      | Ok results' =>
          exists d',
            for_each_py types (check_type_py target_date sv lv gender age)
                        (VRef rl) (hp0 ++ rest) = (Ok tt, hp0 ++ rest') /\
            nth_error (hp0 ++ rest') rl = Some (ODict d') /\
            verdicts_at (hp0 ++ rest') d' = Some results'
      | Raise e =>
          for_each_py types (check_type_py target_date sv lv gender age)
                      (VRef rl) (hp0 ++ rest) = (Raise e, hp0 ++ rest')
      end.
Proof.
  intros Hrl Hsv.
  induction types as [|don_type types IH]; intros rest d results L F Hl Hd Hv Fd.
  - exists rest, d. auto.
  - set (hp := hp0 ++ rest) in *.
    assert (F' : Forall2 (fun x r => record_at hp x = Some r) sitems srs).
    { eapply Forall2_impl; [|exact F]. intros x r [H _]. exact H. }
    assert (Hl' : match ld with
                  | Some r => record_at hp lv = Some r
                  | None => lv = VNone
                  end) by (destruct ld; [apply Hl | exact Hl]).
    destruct (check_type_py_records hp sv lv sitems srs ld target_date gender age
                don_type L F' Hl') as (new & C).
    cbn [for_each].
    destruct (check_type target_date srs ld gender age don_type) as [v|e]; cbn [bind].
    2:{ exists (rest ++ new). cbn [for_each_py]. rewrite bind_py_run, C.
        unfold hp. rewrite app_assoc. reflexivity. }
    set (entry := List.length (hp ++ new)).
    set (hpA := (hp ++ new) ++ [ODict (display_of v)]).
    set (d2 := dict_set don_type (VRef entry) d).
    set (hpB := update rl (ODict d2) hpA).
    assert (Old : forall l o, nth_error hp l = Some o -> nth_error hpA l = Some o).
    { intros l o H. unfold hpA. apply nth_error_old, nth_error_old, H. }
    assert (Step : for_each_py (don_type :: types)
                     (check_type_py target_date sv lv gender age) (VRef rl) hp =
                   for_each_py types
                     (check_type_py target_date sv lv gender age) (VRef rl) hpB).
    { cbn [for_each_py]. rewrite bind_py_run, C.
      rewrite bind_py_run. unfold alloc at 1. cbv iota beta.
      rewrite bind_py_run. unfold setitem. rewrite bind_py_run. unfold load at 1.
      fold entry hpA. rewrite (Old _ _ Hd). reflexivity. }
    rewrite Step. clear Step C.
    assert (Lrl : (rl < List.length hp)%nat)
      by (apply nth_error_Some; congruence).
    assert (Ne : entry <> rl) by (unfold entry; rewrite length_app; lia).
    assert (EB : hpB =
                 hp0 ++ update (rl - List.length hp0)%nat (ODict d2)
                          (rest ++ new ++ [ODict (display_of v)])).
    { unfold hpB, hpA, hp. rewrite <- !app_assoc. apply update_app_r, Hrl. }
    assert (Same : forall l o, l <> rl -> nth_error hp l = Some o ->
                               nth_error hpB l = Some o).
    { intros l o N H. unfold hpB. rewrite nth_error_update_other by congruence.
      apply Old, H. }
    assert (LB : list_at hpB sv = Some sitems).
    { destruct (list_at_loc _ _ _ L) as (l & -> & E).
      unfold list_at. rewrite (Same l _ ltac:(congruence) E). reflexivity. }
    assert (FB : Forall2 (fun x r => record_at hpB x = Some r /\ x <> VRef rl) sitems srs).
    { eapply Forall2_impl; [|exact F]. intros x r [H N]. split; [|exact N].
      apply (record_at_same hp); [|exact H].
      intros l o -> E. apply Same; [congruence | exact E]. }
    assert (HlB : match ld with
                  | Some r => record_at hpB lv = Some r /\ lv <> VRef rl
                  | None => lv = VNone
                  end).
    { destruct ld as [r|]; [|exact Hl]. destruct Hl as [H N]. split; [|exact N].
      apply (record_at_same hp); [|exact H].
      intros l o -> E. apply Same; [congruence | exact E]. }
    assert (HdB : nth_error hpB rl = Some (ODict d2)).
    { unfold hpB. apply (nth_error_update_same _ _ _ (ODict d)), Old, Hd. }
    assert (HvB : verdicts_at hpB d2 = Some (dict_set don_type v results)).
    { apply verdicts_at_set.
      - apply (verdicts_at_same hp hpB rl); assumption.
      - unfold verdict_at, hpB. rewrite nth_error_update_other by congruence.
        unfold hpA, entry. rewrite nth_error_new. apply verdict_of_display. }
    assert (FdB : Forall (fun kv => exists l, snd kv = VRef l /\ l <> rl) d2).
    { apply dict_set_Forall; [exact Fd|]. exists entry. auto. }
    rewrite EB in LB, FB, HlB, HdB, HvB |- *.
    apply (IH _ d2 (dict_set don_type v results) LB FB HlB HdB HvB FdB).
Qed.

(** ** The whole call on the heap *)

Lemma records_at_old (hp new : heap) (items : list value) (rs : list record) :
  records_at hp items = Some rs -> records_at (hp ++ new) items = Some rs.
Proof.
  intros H. apply records_at_Forall2. apply records_at_Forall2 in H.
  apply Forall2_record_old, H.
Qed.

Lemma history_at_old (hp new : heap) (v : value) (rs : list record) :
  history_at hp v = Some rs -> history_at (hp ++ new) v = Some rs.
Proof.
  unfold history_at. destruct (list_at hp v) as [items|] eqn:L; [|discriminate].
  rewrite (list_at_old _ new _ _ L). apply records_at_old.
Qed.

(** The call creates objects and changes none that existed before; what
    it returns or raises is what [check_availability] gives for the records
    the history holds. *)
Lemma check_availability_py_refines
    (target_date : date) (history : value) (gender : string) (birthday : date)
    (hp : heap) (rs : list record) :
  history_at hp history = Some rs ->
  exists res new,
    check_availability_py target_date history gender birthday hp = (res, hp ++ new) /\
    outcome_at (hp ++ new) res =
    Some (check_availability target_date rs gender birthday).
Proof.
  intros H. unfold history_at in H.
  destruct (list_at hp history) as [items|] eqn:L; [|discriminate].
  apply records_at_Forall2 in H.
  unfold check_availability_py, check_availability.
  rewrite bind_py_run. unfold alloc at 1. cbv iota beta.
  set (rl := List.length hp). set (hp1 := hp ++ [ODict []]).
  rewrite bind_py_run. unfold lift at 1.
  destruct (relativedelta_between target_date birthday) as [delta|e]; cbn [bind].
  2:{ exists (Raise e), [ODict []]. split; reflexivity. }
  pose proof (list_at_old hp [ODict []] _ _ L) as L1. fold hp1 in L1.
  pose proof (Forall2_record_old hp [ODict []] _ _ H) as H1. fold hp1 in H1.
  destruct (py_sorted_records hp1 history items rs L1 H1) as (sitems & Es & Fs).
  rewrite bind_py_run, Es.
  set (sv := VRef (List.length hp1)). set (hp2 := hp1 ++ [OList sitems]).
  pose proof (list_at_new hp1 [] sitems) as L2. fold hp2 sv in L2.
  pose proof (Forall2_record_old hp1 [OList sitems] _ _ Fs) as F2. fold hp2 in F2.
  rewrite bind_py_run. unfold donations_before.
  pose proof (comprehension_records hp2 sv sitems (sorted start rs)
                (fun h => d <~ start_date h ;; ret (d <? target_date)%date)
                (fun h => d <- strptime (start h) ;; Ok (d <? target_date)%date)
                L2 F2) as C.
  assert (P : forall x r, record_at hp2 x = Some r ->
              (d <~ start_date x ;; ret (d <? target_date)%date) hp2 =
              (d <- strptime (start r) ;; Ok (d <? target_date)%date, hp2)).
  { intros x r Hr. rewrite bind_py_run, (start_date_record _ _ _ Hr).
    destruct (strptime (start r)); reflexivity. }
  specialize (C P). clear P.
  destruct (filterM _ (sorted start rs)) as [before|e]; cbn [bind].
  2:{ rewrite C. exists (Raise e), [ODict []; OList sitems].
      unfold hp2, hp1. rewrite <- app_assoc. split; reflexivity. }
  destruct C as (bitems & C & Fb). rewrite C. clear C.
  set (bv := VRef (List.length hp2)). set (hp3 := hp2 ++ [OList bitems]).
  pose proof (list_at_new hp2 [] bitems) as L3. fold hp3 bv in L3.
  assert (E3 : hp3 = hp ++ [ODict []; OList sitems; OList bitems]).
  { unfold hp3, hp2, hp1. rewrite <- !app_assoc. reflexivity. }
  assert (Hrl : nth_error hp3 rl = Some (ODict [])).
  { rewrite E3. apply nth_error_new. }
  assert (Nrec : forall x r, record_at hp3 x = Some r -> x <> VRef rl).
  { intros x r Hr ->. unfold record_at in Hr. rewrite Hrl in Hr. discriminate. }
  assert (F3 : Forall2 (fun x r => record_at hp3 x = Some r /\ x <> VRef rl)
                       sitems (sorted start rs)).
  { eapply Forall2_impl; [|exact F2]. intros x r Hr.
    assert (Hr3 : record_at hp3 x = Some r) by apply record_at_old, Hr.
    split; [exact Hr3 | apply (Nrec _ _ Hr3)]. }
  assert (Ls3 : list_at hp3 sv = Some sitems) by apply list_at_old, L2.
  rewrite bind_py_run, (truthy_list _ _ _ L3).
  pose proof (last_or_none_Forall2 _ _ _ Fb) as Last.
  assert (El : exists lv,
             (if match bitems with [] => false | _ :: _ => true end
              then last_item bv else ret VNone) hp3 = (Ok lv, hp3) /\
             match last_or_none before with
             | Some r => record_at hp3 lv = Some r /\ lv <> VRef rl
             | None => lv = VNone
             end).
  { destruct (last_or_none bitems) as [x|] eqn:Lx;
      destruct (last_or_none before) as [r|] eqn:Lr; try contradiction.
    - exists x. destruct bitems as [|b0 bt]; [discriminate Lx|].
      split; [apply (last_item_list _ _ _ _ L3 Lx)|].
      assert (Hr3 : record_at hp3 x = Some r) by apply record_at_old, Last.
      split; [exact Hr3 | apply (Nrec _ _ Hr3)].
    - exists VNone. destruct bitems as [|b0 bt]; [split; reflexivity|].
      exfalso. clear - Lx. revert b0 Lx. induction bt as [|y t IH]; intros b0 Lx.
      + discriminate.
      + apply (IH y). exact Lx. }
  destruct El as (lv & El & Hl). rewrite bind_py_run, El.
  assert (Svr : sv <> VRef rl).
  { unfold sv, rl, hp1. rewrite length_app. simpl. intros E. inversion E. lia. }
  rewrite E3 in Ls3, F3, Hl, Hrl.
  destruct (for_each_py_records hp rl sv lv sitems (sorted start rs)
              (last_or_none before) target_date gender (years delta)
              (Nat.le_refl _) Svr ALL_TYPES _ [] [] Ls3 F3 Hl Hrl eq_refl
              (Forall_nil _)) as (rest' & R).
  rewrite bind_py_run, E3.
  destruct (for_each ALL_TYPES _ []) as [results|e].
  - destruct R as (d' & R & Hd' & Hv'). rewrite R.
    exists (Ok (VRef rl)), rest'. split; [reflexivity|].
    unfold outcome_at, results_at. rewrite Hd', Hv'. reflexivity.
  - rewrite R. exists (Raise e), rest'. split; reflexivity.
Qed.

(** ** Steps that change no object *)

Lemma keeps_ret {A : Type} (hp0 : heap) (a : A) : keeps hp0 (ret a).
Proof. intros rest. exists rest. reflexivity. Qed.

Lemma keeps_raise {A : Type} (hp0 : heap) (e : exn) : keeps hp0 (@raise A e).
Proof. intros rest. exists rest. reflexivity. Qed.

Lemma keeps_lift {A : Type} (hp0 : heap) (r : result A) : keeps hp0 (lift r).
Proof. intros rest. exists rest. reflexivity. Qed.

Lemma keeps_load (hp0 : heap) (l : loc) : keeps hp0 (load l).
Proof.
  intros rest. exists rest. unfold load.
  destruct (nth_error (hp0 ++ rest) l); reflexivity.
Qed.

Lemma keeps_alloc (hp0 : heap) (o : object) : keeps hp0 (alloc o).
Proof.
  intros rest. exists (rest ++ [o]). unfold alloc. cbn [snd].
  symmetry. apply app_assoc.
Qed.

(** An assignment keeps the objects of [hp0] when its target is not one of
    them. *)
Lemma keeps_store (hp0 : heap) (l : loc) (o : object) :
  (List.length hp0 <= l)%nat -> keeps hp0 (store l o).
Proof.
  intros H rest. eexists. unfold store. cbn [snd]. apply update_app_r, H.
Qed.

Lemma keeps_bind {A B : Type} (hp0 : heap) (c : Py A) (k : A -> Py B) :
  keeps hp0 c -> (forall a, keeps hp0 (k a)) -> keeps hp0 (bind_py c k).
Proof.
  intros Hc Hk rest. destruct (Hc rest) as (rest1 & E). unfold bind_py.
  destruct (c (hp0 ++ rest)) as [[a|e] hp']; cbn [snd] in E; subst hp'.
  - apply Hk.
  - exists rest1. reflexivity.
Qed.

Ltac keeps_step :=
  first
    [ apply keeps_ret | apply keeps_raise | apply keeps_lift | apply keeps_load
    | apply keeps_alloc | assumption
    | apply keeps_bind; [|intros ?]
    | match goal with
      | |- keeps _ (if ?b then _ else _) => destruct b
      | |- keeps _ (match ?x with _ => _ end) => destruct x
      end ].

Ltac keeps_auto := cbv zeta; repeat keeps_step.

Lemma keeps_getitem (hp0 : heap) (v : value) (k : string) : keeps hp0 (getitem v k).
Proof. unfold getitem. keeps_auto. Qed.

Lemma keeps_setitem (hp0 : heap) (l : loc) (k : string) (x : value) :
  (List.length hp0 <= l)%nat -> keeps hp0 (setitem (VRef l) k x).
Proof. intros H. unfold setitem. keeps_auto. apply keeps_store, H. Qed.

Lemma keeps_py_in (hp0 : heap) (sub : string) (v : value) : keeps hp0 (py_in sub v).
Proof. unfold py_in. keeps_auto. Qed.

Lemma keeps_truthy (hp0 : heap) (v : value) : keeps hp0 (truthy v).
Proof. unfold truthy. keeps_auto. Qed.

Lemma keeps_py_strptime (hp0 : heap) (v : value) : keeps hp0 (py_strptime v).
Proof. unfold py_strptime. keeps_auto. Qed.

Lemma keeps_items_of (hp0 : heap) (v : value) : keeps hp0 (items_of v).
Proof. unfold items_of. keeps_auto. Qed.

Lemma keeps_last_item (hp0 : heap) (v : value) : keeps hp0 (last_item v).
Proof. unfold last_item. keeps_auto. Qed.

Lemma keeps_for_in_from {T : Type} (hp0 : heap) (l : value)
    (body : T -> value -> Py T) :
  (forall acc x, keeps hp0 (body acc x)) ->
  forall budget index acc, keeps hp0 (for_in_from budget l index body acc).
Proof.
  intros B. induction budget as [|budget IH]; intros index acc; cbn [for_in_from].
  - apply keeps_bind; [apply keeps_items_of|]. intros items. keeps_auto.
  - apply keeps_bind; [apply keeps_items_of|]. intros items.
    destruct (nth_error items index); [|apply keeps_ret].
    apply keeps_bind; [apply B|]. intros acc'. apply IH.
Qed.

Lemma keeps_for_in {T : Type} (hp0 : heap) (l : value)
    (body : T -> value -> Py T) (acc : T) :
  (forall acc x, keeps hp0 (body acc x)) -> keeps hp0 (for_in l body acc).
Proof.
  intros B. unfold for_in. apply keeps_bind; [apply keeps_items_of|].
  intros items. apply keeps_for_in_from, B.
Qed.

Lemma keeps_comprehension (hp0 : heap) (l : value) (cond : value -> Py bool) :
  (forall h, keeps hp0 (cond h)) -> keeps hp0 (comprehension l cond).
Proof.
  intros C. unfold comprehension. apply keeps_bind; [|intros; apply keeps_alloc].
  apply keeps_for_in. intros acc x. apply keeps_bind; [apply C|]. intros b.
  apply keeps_ret.
Qed.

Lemma keeps_map_py {A B : Type} (hp0 : heap) (f : A -> Py B) (l : list A) :
  (forall x, keeps hp0 (f x)) -> keeps hp0 (map_py f l).
Proof.
  intros F. induction l as [|x t IH]; cbn [map_py]; [apply keeps_ret|].
  apply keeps_bind; [apply F|]. intros y.
  apply keeps_bind; [apply IH|]. intros r. apply keeps_ret.
Qed.

Lemma keeps_py_sorted (hp0 : heap) (l : value) (key : value -> Py string) :
  (forall x, keeps hp0 (key x)) -> keeps hp0 (py_sorted l key).
Proof.
  intros K. unfold py_sorted. apply keeps_bind; [apply keeps_items_of|].
  intros items. apply keeps_bind; [|intros; apply keeps_alloc].
  apply keeps_map_py. intros x. apply keeps_bind; [apply K|]. intros k.
  apply keeps_ret.
Qed.

Lemma keeps_py_min (hp0 : heap) (l : value) (key : value -> Py string) :
  (forall x, keeps hp0 (key x)) -> keeps hp0 (py_min l key).
Proof.
  intros K. unfold py_min. apply keeps_bind.
  - apply keeps_for_in. intros best x. apply keeps_bind; [apply K|]. intros k.
    apply keeps_ret.
  - intros [[k x]|]; [apply keeps_ret | apply keeps_raise].
Qed.

Lemma keeps_start_key (hp0 : heap) (x : value) : keeps hp0 (start_key x).
Proof. unfold start_key. apply keeps_bind; [apply keeps_getitem|]. intros v. keeps_auto. Qed.

Lemma keeps_start_date (hp0 : heap) (h : value) : keeps hp0 (start_date h).
Proof.
  unfold start_date. apply keeps_bind; [apply keeps_getitem|]. intros v.
  apply keeps_py_strptime.
Qed.

Lemma keeps_title_has (hp0 : heap) (sub : string) (h : value) :
  keeps hp0 (title_has sub h).
Proof.
  unfold title_has. apply keeps_bind; [apply keeps_getitem|]. intros v.
  apply keeps_py_in.
Qed.

Lemma keeps_title_is (hp0 : heap) (s : string) (h : value) : keeps hp0 (title_is s h).
Proof.
  unfold title_is. apply keeps_bind; [apply keeps_getitem|]. intros v. apply keeps_ret.
Qed.

Ltac keeps_engine :=
  cbv zeta;
  repeat first
    [ apply keeps_start_date | apply keeps_start_key | apply keeps_title_has
    | apply keeps_title_is | apply keeps_truthy | apply keeps_getitem
    | apply keeps_last_item
    | apply keeps_comprehension; intros ?
    | apply keeps_for_in; intros ? ?
    | apply keeps_py_min; intros ?
    | apply keeps_py_sorted; intros ?
    | keeps_step ].

Lemma keeps_next_available_after_py (hp0 : heap) (last_donation : value)
    (don_type gender : string) :
  keeps hp0 (next_available_after_py last_donation don_type gender).
Proof. unfold next_available_after_py. keeps_engine. Qed.

Lemma keeps_minimum_interval_py (hp0 : heap) (target_date : date)
    (last_donation : value) (gender don_type : string) :
  keeps hp0 (minimum_interval_py target_date last_donation gender don_type).
Proof.
  unfold minimum_interval_py. apply keeps_bind; [apply keeps_truthy|].
  intros [|]; [|apply keeps_ret].
  apply keeps_bind; [apply keeps_next_available_after_py|]. intros na. apply keeps_ret.
Qed.

Lemma keeps_annual_cap_py (hp0 : heap) (target_date : date) (sorted_history : value)
    (gender don_type : string) :
  keeps hp0 (annual_cap_py target_date sorted_history gender don_type).
Proof. unfold annual_cap_py. keeps_engine. Qed.

Lemma keeps_check_type_py (hp0 : heap) (target_date : date)
    (sorted_history last_donation : value) (gender : string) (age : Z)
    (don_type : string) :
  keeps hp0 (check_type_py target_date sorted_history last_donation gender age don_type).
Proof.
  unfold check_type_py. destruct (negb _); [apply keeps_ret|].
  apply keeps_bind; [apply keeps_minimum_interval_py|].
  intros [na|]; [apply keeps_ret|].
  apply keeps_bind; [apply keeps_annual_cap_py|].
  intros [bl|]; apply keeps_ret.
Qed.

Lemma keeps_for_each_py (hp0 : heap) (types : list string)
    (body : string -> Py (dict value)) (rl : loc) :
  (List.length hp0 <= rl)%nat -> (forall t, keeps hp0 (body t)) ->
  keeps hp0 (for_each_py types body (VRef rl)).
Proof.
  intros H B. induction types as [|t types IH]; cbn [for_each_py]; [apply keeps_ret|].
  apply keeps_bind; [apply B|]. intros display.
  apply keeps_bind; [apply keeps_alloc|]. intros entry.
  apply keeps_bind; [apply keeps_setitem, H|]. intros _. exact IH.
Qed.

(** Whatever the arguments and the heap, the call changes no object that
    existed before it, whether it returns or raises. *)
Lemma check_availability_py_keeps
    (target_date : date) (history : value) (gender : string) (birthday : date)
    (hp : heap) :
  exists new,
    snd (check_availability_py target_date history gender birthday hp) = hp ++ new.
Proof.
  unfold check_availability_py. rewrite bind_py_run. unfold alloc at 1. cbv iota beta.
  match goal with
  | |- exists new, snd (?c (hp ++ ?r)) = _ =>
      assert (K : keeps hp c)
  end.
  { apply keeps_bind; [apply keeps_lift|]. intros delta. cbv zeta.
    apply keeps_bind; [apply keeps_py_sorted; intros; apply keeps_start_key|].
    intros sorted_history.
    apply keeps_bind.
    { apply keeps_comprehension. intros h. apply keeps_bind; [apply keeps_start_date|].
      intros d. apply keeps_ret. }
    intros donations_before_target.
    apply keeps_bind; [apply keeps_truthy|]. intros some.
    apply keeps_bind; [destruct some; [apply keeps_last_item | apply keeps_ret]|].
    intros last_donation.
    apply keeps_bind; [|intros; apply keeps_ret].
    apply keeps_for_each_py; [apply Nat.le_refl|].
    intros t. apply keeps_check_type_py. }
  apply K.
Qed.

(** * The claims *)

(** ** C1: a birth date after the target date *)

(** C1, counterexample.  With the birth date 2000-01-01 and the target date
    1999-06-01 the engine does not reject the call: it returns a verdict
    map, every type blocked for age. *)
Lemma born_after_target_not_rejected :
  (mkdate 1999 6 1 <? mkdate 2000 1 1)%date = true /\
  check_availability (mkdate 1999 6 1) [] "男性" (mkdate 2000 1 1) =
  Ok [("400ml全血"%string, Blocked AgeRestriction None);
      ("200ml全血"%string, Blocked AgeRestriction None);
      ("成分献血"%string, Blocked AgeRestriction None)] /\
  forall e, check_availability (mkdate 1999 6 1) [] "男性" (mkdate 2000 1 1) <> Raise e.
Proof.
  split; [reflexivity|]. split; [vm_compute; reflexivity|].
  intros e. vm_compute. discriminate.
Qed.

(** C1, as the code has it.  The engine checks no precondition: for every
    call in which the birth date is strictly after the target date (the
    dates of the records being dates), it returns a verdict map in which
    every donation type is blocked with the reason AgeRestriction and no
    next eligible date. *)
Theorem born_after_target_age_blocked
    (target_date : date) (history : list record) (gender : string) (birthday : date) :
  valid_date target_date = true -> valid_date birthday = true ->
  forallb parseable history = true ->
  (target_date <? birthday)%date = true ->
  check_availability target_date history gender birthday =
  Ok [("400ml全血"%string, Blocked AgeRestriction None);
      ("200ml全血"%string, Blocked AgeRestriction None);
      ("成分献血"%string, Blocked AgeRestriction None)].
Proof.
  intros V1 V2 P L. apply forallb_parseable in P.
  rewrite (check_availability_eq _ _ _ _ V1 V2 P). cbv zeta.
  pose proof (age_before_birth _ _ V1 V2 L) as A.
  assert (N : forall t, is_age_ok t gender (age_at target_date birthday) = false).
  { intros t. destruct (is_age_ok t gender _) eqn:E; [|reflexivity].
    apply is_age_ok_bounds in E. lia. }
  rewrite !check_type_age_blocked by apply N. reflexivity.
Qed.

Lemma born_after_target_age_blocked_witness :
  valid_date (mkdate 1999 6 1) = true /\
  check_availability (mkdate 1999 6 1)
    [mkrecord "a" "400ml全血" "1999-01-10" "" "" ""] "女性" (mkdate 2000 1 1) =
  Ok [("400ml全血"%string, Blocked AgeRestriction None);
      ("200ml全血"%string, Blocked AgeRestriction None);
      ("成分献血"%string, Blocked AgeRestriction None)].
Proof.
  split; [reflexivity|].
  apply born_after_target_age_blocked; reflexivity.
Defined.

(** ** C2: the yearly volume cap *)

(** C2.  On well-formed input, for a whole-blood type that passes the age
    gate and the minimum-interval gate: when the volume of the whole-blood
    records dated strictly inside the last year, plus the volume of the
    type, exceeds the cap of the donor's sex, the verdict of the type is
    blocked with the reason AnnualVolumeCap, and the next eligible date is
    one year after the date of the earliest whole-blood record of the
    half-open window. *)
Theorem annual_cap_blocks
    (target_date : date) (history : list record) (gender : string) (birthday : date)
    (don_type : string) (last_donation : option record) :
  wf_input target_date history gender birthday = true ->
  is_whole_blood don_type = true ->
  is_age_ok don_type gender (age_at target_date birthday) = true ->
  reference_prior target_date history = Ok last_donation ->
  minimum_interval target_date last_donation gender don_type = Ok None ->
  gender_cap gender < window_volume target_date history + get_volume don_type ->
  exists results first,
    check_availability target_date history gender birthday = Ok results /\
    In first history /\ is_whole_blood (title first) = true /\
    in_half_open_window target_date (date_of first) = true /\
    (forall r, In r history -> is_whole_blood (title r) = true ->
               in_half_open_window target_date (date_of r) = true ->
               (date_of first <=? date_of r)%date = true) /\
    dict_get results don_type =
    Some (Blocked AnnualVolumeCap (Some (strftime (shift_year (date_of first) 1)))).
Proof.
  intros W Wb Age Ref Int Cap.
  destruct (wf_input_parts _ _ _ _ W) as (Vt & Vb & _ & Ymin & Ymax & G & Wh).
  pose proof (wf_history_parseable _ Wh) as P.
  rewrite (reference_prior_eq _ _ P) in Ref. inversion Ref as [Rl]; clear Ref.
  destruct (annual_cap_exceeded _ _ _ _ Vt Ymin Ymax G Wh Wb Cap)
    as (first & Hc & I & Wf & Hw & Min).
  destruct (check_availability_total _ _ _ _ Vt Vb Ymin Ymax G P)
    as (v1 & v2 & v3 & (H1 & H2 & _) & ->).
  assert (Hv : exists v,
             check_type target_date (sorted start history) last_donation gender
                        (age_at target_date birthday) don_type = Ok v /\
             dict_get [("400ml全血"%string, v1); ("200ml全血"%string, v2);
                       ("成分献血"%string, v3)] don_type = Some v).
  { rewrite Rl in H1, H2. unfold is_whole_blood in Wb. apply orb_prop in Wb.
    destruct Wb as [E|E]; apply String.eqb_eq in E; subst don_type;
      [exists v1 | exists v2]; split; (assumption || reflexivity). }
  destruct Hv as (v & Hv & Dv).
  exists [("400ml全血"%string, v1); ("200ml全血"%string, v2); ("成分献血"%string, v3)], first.
  split; [reflexivity|]. repeat (split; [assumption|]).
  rewrite Dv. f_equal.
  apply check_type_cases in Hv.
  destruct Hv as [[N _]|[_ [(na & M' & _)|[_ [(bl & C' & ->)|[C' _]]]]]];
    try congruence.
Qed.

Lemma annual_cap_blocks_witness :
  exists results first,
    check_availability (mkdate 2024 6 1)
      [mkrecord "b" "400ml全血" "2023-08-01" "" "" "";
       mkrecord "a" "200ml全血" "2023-06-01" "" "" "";
       mkrecord "c" "400ml全血" "2023-12-01" "" "" ""] "女性" (mkdate 2000 1 1) =
    Ok results /\
    In first [mkrecord "b" "400ml全血" "2023-08-01" "" "" "";
              mkrecord "a" "200ml全血" "2023-06-01" "" "" "";
              mkrecord "c" "400ml全血" "2023-12-01" "" "" ""] /\
    is_whole_blood (title first) = true /\
    in_half_open_window (mkdate 2024 6 1) (date_of first) = true /\
    (forall r, In r [mkrecord "b" "400ml全血" "2023-08-01" "" "" "";
                     mkrecord "a" "200ml全血" "2023-06-01" "" "" "";
                     mkrecord "c" "400ml全血" "2023-12-01" "" "" ""] ->
               is_whole_blood (title r) = true ->
               in_half_open_window (mkdate 2024 6 1) (date_of r) = true ->
               (date_of first <=? date_of r)%date = true) /\
    dict_get results "200ml全血" =
    Some (Blocked AnnualVolumeCap (Some (strftime (shift_year (date_of first) 1)))).
Proof.
  apply (annual_cap_blocks (mkdate 2024 6 1) _ "女性" (mkdate 2000 1 1) "200ml全血"
           (Some (mkrecord "c" "400ml全血" "2023-12-01" "" "" ""))).
  - reflexivity.
  - reflexivity.
  - reflexivity.
  - reflexivity.
  - reflexivity.
  - vm_compute. reflexivity.
Defined.

(** ** C3: the two windows of the yearly cap *)



(** ** C4: records of the same date *)

(** C4.  In a well-formed call whose history holds a record [A] and,
    appended after it, a record [B] of the same date, dated before the
    target date: [B] comes after [A] in the date-ascending view, the engine
    returns, and each verdict is that of the loop body run on that view with
    one record [L] of the history as the last donation.  [L] is dated before
    the target date, no record dated before the target date is more recent,
    and no record appended after [L] has its date.  The place of [L] in
    the history is not that of [A]; when [L] has the date of [A] and [B],
    its place is that of [B] or a later one; and [L] is [B] when no record
    before the target date is more recent than [B] and no record appended
    after [B] has its date. *)
Theorem same_date_tie_break
    (target_date : date) (history l1 l2 l3 : list record) (A B : record)
    (gender : string) (birthday : date) :
  history = l1 ++ A :: l2 ++ B :: l3 ->
  wf_input target_date history gender birthday = true ->
  date_of A = date_of B ->
  (date_of B <? target_date)%date = true ->
  exists pre L post results,
    (exists s1 s2 s3, sorted start history = s1 ++ A :: s2 ++ B :: s3) /\
    history = pre ++ L :: post /\
    (date_of L <? target_date)%date = true /\
    (forall r, In r history -> (date_of r <? target_date)%date = true ->
               (date_of L <? date_of r)%date = false) /\
    (forall r, In r post -> date_of r <> date_of L) /\
    List.length pre <> List.length l1 /\
    (date_of L = date_of B ->
     (List.length (l1 ++ A :: l2) <= List.length pre)%nat) /\
    ((forall r, In r l3 -> date_of r <> date_of B) ->
     (forall r, In r history -> (date_of r <? target_date)%date = true ->
                (date_of B <? date_of r)%date = false) ->
     pre = l1 ++ A :: l2 /\ L = B /\ post = l3) /\
    check_availability target_date history gender birthday = Ok results /\
    forall don_type, In don_type ALL_TYPES ->
      exists v, dict_get results don_type = Some v /\
                check_type target_date (sorted start history) (Some L) gender
                           (age_at target_date birthday) don_type = Ok v.
Proof.
  intros Eh W E LB.
  destruct (wf_input_parts _ _ _ _ W) as (Vt & Vb & _ & Ymin & Ymax & G & Wh).
  pose proof (wf_history_parseable _ Wh) as P.
  assert (Eh' : history = (l1 ++ A :: l2) ++ B :: l3)
    by (rewrite Eh, <- app_assoc; reflexivity).
  assert (IB : In B history).
  { rewrite Eh'. apply in_or_app. right. left. reflexivity. }
  destruct (last_of_latest_date (fun r => (date_of r <? target_date)%date) history)
    as (pre & L & post & Ep & pL & Max & Post).
  { apply existsb_exists. exists B. auto. }
  cbv beta in pL, Max, Post.
  assert (NoLater : forall r, In r post -> date_of r <> date_of L).
  { intros r Ir D.
    assert (pr : (date_of r <? target_date)%date = true) by (rewrite D; exact pL).
    pose proof (Post r Ir pr) as C. rewrite D, date_ltb_irrefl in C. discriminate. }
  assert (Ref : last_or_none (filter (fun h => (date_of h <? target_date)%date)
                                     (sorted start history)) = Some L).
  { rewrite Ep. rewrite Ep in Wh, Max.
    apply reference_is_last_of_latest_date; assumption. }
  destruct (check_availability_total _ _ _ _ Vt Vb Ymin Ymax G P)
    as (v1 & v2 & v3 & (H1 & H2 & H3) & Hc).
  rewrite Ref in H1, H2, H3.
  exists pre, L, post,
    [("400ml全血"%string, v1); ("200ml全血"%string, v2); ("成分献血"%string, v3)].
  split.
  { pose proof (wf_history_canonical _ Wh) as Cn. rewrite Forall_forall in Cn.
    assert (IA : In A history)
      by (rewrite Eh; apply in_or_app; right; left; reflexivity).
    destruct (canonical_start _ (Cn _ IA)) as [_ SA].
    destruct (canonical_start _ (Cn _ IB)) as [_ SB].
    rewrite Eh. apply before_split, sorted_stable.
    rewrite SA, SB, E. reflexivity. }
  split; [exact Ep|]. split; [exact pL|]. split; [exact Max|].
  split; [exact NoLater|].
  assert (AfterB : date_of L = date_of B ->
                   (List.length (l1 ++ A :: l2) <= List.length pre)%nat).
  { intros D.
    destruct (Nat.le_gt_cases (List.length (l1 ++ A :: l2)) (List.length pre))
      as [Hl|Hl]; [exact Hl|].
    exfalso. apply (NoLater B); [|symmetry; exact D].
    apply (app_eq_In_later (l1 ++ A :: l2) l3 pre post B L); [|exact Hl].
    rewrite <- Eh', <- Ep. reflexivity. }
  split.
  { intros Hl.
    assert (Ea : l1 ++ A :: (l2 ++ B :: l3) = pre ++ L :: post)
      by (rewrite <- Eh, <- Ep; reflexivity).
    destruct (app_eq_same_length _ _ _ _ _ _ Ea Hl) as (_ & EA & _).
    assert (D : date_of L = date_of B) by (rewrite <- EA; exact E).
    specialize (AfterB D). rewrite length_app in AfterB. simpl in AfterB. lia. }
  split; [exact AfterB|].
  split.
  { intros Last Recent.
    assert (D : date_of L = date_of B).
    { apply date_total; [apply (Max B IB LB)|].
      apply Recent; [rewrite Ep; apply in_or_app; right; left; reflexivity | exact pL]. }
    pose proof (AfterB D) as Hl.
    assert (Ea : (l1 ++ A :: l2) ++ B :: l3 = pre ++ L :: post)
      by (rewrite <- Eh', <- Ep; reflexivity).
    destruct (Nat.eq_dec (List.length pre) (List.length (l1 ++ A :: l2))) as [Hq|Hq].
    - destruct (app_eq_same_length _ _ _ _ _ _ Ea Hq) as (-> & -> & ->). auto.
    - exfalso. apply (Last L); [|exact D].
      apply (app_eq_In_later pre post (l1 ++ A :: l2) l3 L B); [symmetry; exact Ea | lia]. }
  split; [exact Hc|].
  intros don_type I. unfold ALL_TYPES in I.
  destruct I as [<-|[<-|[<-|[]]]]; eexists; (split; [reflexivity | assumption]).
Qed.

Lemma same_date_tie_break_witness :
  exists pre L post results,
    (exists s1 s2 s3,
       sorted start [mkrecord "c" "成分献血" "2024-03-01" "" "" "";
                     mkrecord "a" "400ml全血" "2024-02-01" "" "" "";
                     mkrecord "b" "成分献血" "2024-02-01" "" "" ""] =
       s1 ++ mkrecord "a" "400ml全血" "2024-02-01" "" "" "" ::
       s2 ++ mkrecord "b" "成分献血" "2024-02-01" "" "" "" :: s3) /\
    [mkrecord "c" "成分献血" "2024-03-01" "" "" "";
     mkrecord "a" "400ml全血" "2024-02-01" "" "" "";
     mkrecord "b" "成分献血" "2024-02-01" "" "" ""] = pre ++ L :: post /\
    (date_of L <? mkdate 2024 2 20)%date = true /\
    (forall r, In r [mkrecord "c" "成分献血" "2024-03-01" "" "" "";
                     mkrecord "a" "400ml全血" "2024-02-01" "" "" "";
                     mkrecord "b" "成分献血" "2024-02-01" "" "" ""] ->
               (date_of r <? mkdate 2024 2 20)%date = true ->
               (date_of L <? date_of r)%date = false) /\
    (forall r, In r post -> date_of r <> date_of L) /\
    List.length pre <> List.length [mkrecord "c" "成分献血" "2024-03-01" "" "" ""] /\
    (date_of L = date_of (mkrecord "b" "成分献血" "2024-02-01" "" "" "") ->
     (List.length ([mkrecord "c" "成分献血" "2024-03-01" "" "" ""] ++
                   mkrecord "a" "400ml全血" "2024-02-01" "" "" "" :: []) <=
      List.length pre)%nat) /\
    ((forall r, In r [] ->
                date_of r <> date_of (mkrecord "b" "成分献血" "2024-02-01" "" "" "")) ->
     (forall r, In r [mkrecord "c" "成分献血" "2024-03-01" "" "" "";
                      mkrecord "a" "400ml全血" "2024-02-01" "" "" "";
                      mkrecord "b" "成分献血" "2024-02-01" "" "" ""] ->
                (date_of r <? mkdate 2024 2 20)%date = true ->
                (date_of (mkrecord "b" "成分献血" "2024-02-01" "" "" "") <? date_of r)%date
                = false) ->
     pre = [mkrecord "c" "成分献血" "2024-03-01" "" "" ""] ++
           mkrecord "a" "400ml全血" "2024-02-01" "" "" "" :: [] /\
     L = mkrecord "b" "成分献血" "2024-02-01" "" "" "" /\ post = []) /\
    check_availability (mkdate 2024 2 20)
      [mkrecord "c" "成分献血" "2024-03-01" "" "" "";
       mkrecord "a" "400ml全血" "2024-02-01" "" "" "";
       mkrecord "b" "成分献血" "2024-02-01" "" "" ""] "男性" (mkdate 2000 1 1) =
    Ok results /\
    forall don_type, In don_type ALL_TYPES ->
      exists v, dict_get results don_type = Some v /\
                check_type (mkdate 2024 2 20)
                  (sorted start [mkrecord "c" "成分献血" "2024-03-01" "" "" "";
                                 mkrecord "a" "400ml全血" "2024-02-01" "" "" "";
                                 mkrecord "b" "成分献血" "2024-02-01" "" "" ""])
                  (Some L) "男性" (age_at (mkdate 2024 2 20) (mkdate 2000 1 1))
                  don_type = Ok v.
Proof.
  apply (same_date_tie_break (mkdate 2024 2 20) _
           [mkrecord "c" "成分献血" "2024-03-01" "" "" ""] [] []
           (mkrecord "a" "400ml全血" "2024-02-01" "" "" "")
           (mkrecord "b" "成分献血" "2024-02-01" "" "" "")); reflexivity.
Defined.

(** The order in which two records of one date were appended decides the
    verdict: after 400 mL of whole blood and a component donation on
    2024-02-01, the engine allows 400 mL of whole blood on 2024-02-20 when
    the component donation was appended last, and blocks it until
    2024-04-25 when the whole-blood donation was. *)
Example same_date_order_decides :
  check_availability (mkdate 2024 2 20)
    [mkrecord "a" "400ml全血" "2024-02-01" "" "" "";
     mkrecord "b" "成分献血" "2024-02-01" "" "" ""] "男性" (mkdate 2000 1 1) =
  Ok [("400ml全血"%string, Available); ("200ml全血"%string, Available);
      ("成分献血"%string, Available)] /\
  check_availability (mkdate 2024 2 20)
    [mkrecord "b" "成分献血" "2024-02-01" "" "" "";
     mkrecord "a" "400ml全血" "2024-02-01" "" "" ""] "男性" (mkdate 2000 1 1) =
  Ok [("400ml全血"%string, Blocked MinimumInterval (Some "2024-04-25"));
      ("200ml全血"%string, Blocked MinimumInterval (Some "2024-04-25"));
      ("成分献血"%string, Blocked MinimumInterval (Some "2024-03-28"))].
Proof. split; vm_compute; reflexivity. Qed.

(** ** C5: the wait is that of the prior donation *)

(** C5.  A donor old enough for 400 mL whole blood whose history is a single
    200 mL whole-blood record may give 400 mL exactly five weeks after it:
    the wait is the four weeks of the prior 200 mL donation.  Every call
    that returns gives the verdict Available, and the call returns when the
    target date is before the last year of the calendar (in that year the
    dates the engine computes for the other two types may not exist). *)
Theorem whole_blood_400_five_weeks_after_200
    (d target_date : date) (r : record) (gender : string) (birthday : date) :
  valid_date d = true -> valid_date birthday = true ->
  start r = strftime d -> title r = "200ml全血"%string ->
  add_days d 35 = Ok target_date ->
  is_age_ok "400ml全血" gender (age_at target_date birthday) = true ->
  (forall results,
     check_availability target_date [r] gender birthday = Ok results ->
     dict_get results "400ml全血" = Some Available) /\
  (year target_date < MAXYEAR ->
   exists results,
     check_availability target_date [r] gender birthday = Ok results /\
     dict_get results "400ml全血" = Some Available).
Proof.
  intros Vd Vb Hs Ht Ha Age.
  pose proof (check_type_400_after_200 _ _ _ _ _ Vd Vb Hs Ht Ha Age) as Core.
  destruct (add_days_Ok _ _ _ Vd Ha) as [Vt _].
  pose proof (add_days_lt _ _ _ Vd Ha) as Lt.
  assert (Sr : strptime (start r) = Ok d) by (rewrite Hs; apply strptime_strftime, Vd).
  assert (Dr : date_of r = d) by (unfold date_of; rewrite Sr; reflexivity).
  assert (Pr : parseable r = true) by (unfold parseable; rewrite Sr; reflexivity).
  assert (P : Forall (fun x => parseable x = true) [r]) by (constructor; [exact Pr | constructor]).
  assert (E : check_availability target_date [r] gender birthday =
              (v2 <- check_type target_date [r] (Some r) gender
                                (age_at target_date birthday) "200ml全血" ;;
               v3 <- check_type target_date [r] (Some r) gender
                                (age_at target_date birthday) "成分献血" ;;
               Ok [("400ml全血"%string, Available); ("200ml全血"%string, v2);
                   ("成分献血"%string, v3)])).
  { rewrite (check_availability_eq _ _ _ _ Vt Vb P). cbv zeta.
    cbn [sorted insert_by filter]. rewrite Dr, Lt. cbn [last_or_none].
    rewrite Core. reflexivity. }
  split.
  - intros results H. rewrite E in H.
    apply bind_Ok in H. destruct H as (v2 & _ & H).
    apply bind_Ok in H. destruct H as (v3 & _ & H).
    inversion H. reflexivity.
  - intros Y.
    pose proof (is_age_ok_gender _ _ Age) as G.
    pose proof (is_age_ok_bounds _ _ _ Age) as Ab.
    pose proof (age_le_year_diff _ _ Vt Vb ltac:(lia)) as Ay.
    assert (Ymin : MINYEAR < year target_date)
      by (revert Vb; date_simpl; lia).
    destruct (check_availability_total _ _ _ _ Vt Vb Ymin Y G P)
      as (v1 & v2 & v3 & _ & T).
    exists [("400ml全血"%string, v1); ("200ml全血"%string, v2); ("成分献血"%string, v3)].
    split; [exact T|]. rewrite E in T.
    apply bind_Ok in T. destruct T as (v2' & _ & T).
    apply bind_Ok in T. destruct T as (v3' & _ & T).
    inversion T. reflexivity.
Qed.

Lemma whole_blood_400_five_weeks_after_200_witness :
  (forall results,
     check_availability (mkdate 2024 2 5)
       [mkrecord "a" "200ml全血" "2024-01-01" "" "" ""] "男性" (mkdate 2000 1 1) =
     Ok results ->
     dict_get results "400ml全血" = Some Available) /\
  (year (mkdate 2024 2 5) < MAXYEAR ->
   exists results,
     check_availability (mkdate 2024 2 5)
       [mkrecord "a" "200ml全血" "2024-01-01" "" "" ""] "男性" (mkdate 2000 1 1) =
     Ok results /\
     dict_get results "400ml全血" = Some Available).
Proof.
  apply (whole_blood_400_five_weeks_after_200 (mkdate 2024 1 1)); reflexivity.
Defined.

(** ** C6: the eighteenth birthday *)

(** C6, counterexample.  A donor born on 2000-02-29 is seventeen on
    2018-02-28 and eighteen on 2018-03-01 when the age is counted by
    comparing month and day, so the eighteenth birthday falls on 2018-03-01;
    on the day before, 2018-02-28, the engine does not block the component
    donation for age: it answers Available. *)
Lemma component_leap_day_eve_not_age_blocked :
  tomorrow (mkdate 2018 2 28) = Ok (mkdate 2018 3 1) /\
  age_by_month_day (mkdate 2018 3 1) (mkdate 2000 2 29) = 18 /\
  age_by_month_day (mkdate 2018 2 28) (mkdate 2000 2 29) = 17 /\
  wf_input (mkdate 2018 3 1) [] "女性" (mkdate 2000 2 29) = true /\
  check_availability (mkdate 2018 2 28) [] "女性" (mkdate 2000 2 29) =
  Ok [("400ml全血"%string, Available); ("200ml全血"%string, Available);
      ("成分献血"%string, Available)] /\
  dict_get [("400ml全血"%string, Available); ("200ml全血"%string, Available);
            ("成分献血"%string, Available)] "成分献血" <>
  Some (Blocked AgeRestriction None).
Proof.
  repeat split; try (vm_compute; reflexivity). vm_compute. discriminate.
Qed.

(** C6, as the code has it.  On well-formed input, when the donor is
    eighteen on the target date and seventeen on the day before, the age
    being counted by comparing month and day: the verdict for the component
    donation on the target date is not blocked for age; on the day before it
    is blocked for age, unless the donor was born on 29 February.  For a
    donor born on 29 February the day before is 28 February, on which the
    engine already counts eighteen years and does not block for age; it
    blocks for age on 27 February. *)
Theorem component_eighteenth_birthday
    (eve target_date : date) (history : list record) (gender : string)
    (birthday : date) :
  wf_input target_date history gender birthday = true ->
  valid_date eve = true -> tomorrow eve = Ok target_date ->
  age_by_month_day target_date birthday = 18 ->
  age_by_month_day eve birthday = 17 ->
  (exists results v,
     check_availability target_date history gender birthday = Ok results /\
     dict_get results "成分献血" = Some v /\
     reason v <> Some AgeRestriction) /\
  (exists results v,
     check_availability eve history gender birthday = Ok results /\
     dict_get results "成分献血" = Some v /\
     (born_on_leap_day birthday = false -> v = Blocked AgeRestriction None) /\
     (born_on_leap_day birthday = true ->
      reason v <> Some AgeRestriction /\
      eve = mkdate (year birthday + 18) 2 28 /\
      exists results',
        check_availability (mkdate (year birthday + 18) 2 27) history gender birthday =
        Ok results' /\
        dict_get results' "成分献血" = Some (Blocked AgeRestriction None))).
Proof.
  intros W Ve T A18 A17.
  destruct (wf_input_parts _ _ _ _ W) as (Vt & Vb & Le & Ymin & Ymax & G & Wh).
  pose proof (wf_history_parseable _ Wh) as P.
  pose proof (tomorrow_year _ _ Ve T) as Ye.
  destruct (eve_of_eighteenth_birthday _ _ _ Ve Vb T A18 A17) as (Ct & Ce & Eve).
  assert (Lb : (birthday <=? eve)%date = true).
  { revert A17. unfold age_by_month_day. rewrite date_leb_ltb.
    revert Vb Ve. date_simpl. split_ifs; lia. }
  assert (At : age_at target_date birthday = 18).
  { rewrite (age_at_month_day _ _ Vt Vb Le), Ct. lia. }
  assert (Ae : age_at eve birthday = if born_on_leap_day birthday then 18 else 17).
  { rewrite (age_at_month_day _ _ Ve Vb Lb), Ce.
    destruct (born_on_leap_day birthday); lia. }
  assert (Yemin : MINYEAR < year eve).
  { revert A17 Vb. unfold age_by_month_day. date_simpl. split_ifs; lia. }
  assert (Yemax : year eve < MAXYEAR) by lia.
  assert (Open : forall v age,
             check_type target_date (sorted start history)
               (last_or_none (filter (fun h => (date_of h <? target_date)%date)
                                     (sorted start history)))
               gender age "成分献血" = Ok v ->
             age = 18 -> reason v <> Some AgeRestriction).
  { intros v age H ->. apply check_type_cases in H.
    destruct H as [[N _]|[_ [(na & _ & ->)|[_ [(bl & _ & ->)|[_ ->]]]]]];
      [discriminate N | | |]; discriminate. }
  split.
  - destruct (check_availability_total _ _ _ _ Vt Vb Ymin Ymax G P)
      as (v1 & v2 & v3 & (_ & _ & H3) & ->).
    exists [("400ml全血"%string, v1); ("200ml全血"%string, v2); ("成分献血"%string, v3)], v3.
    split; [reflexivity|]. split; [reflexivity|].
    apply (Open _ _ H3 At).
  - destruct (check_availability_total _ _ _ _ Ve Vb Yemin Yemax G P)
      as (v1 & v2 & v3 & (_ & _ & H3) & ->).
    exists [("400ml全血"%string, v1); ("200ml全血"%string, v2); ("成分献血"%string, v3)], v3.
    split; [reflexivity|]. split; [reflexivity|]. rewrite Ae in H3. split.
    + intros B. rewrite B in H3.
      rewrite check_type_age_blocked in H3 by reflexivity. congruence.
    + intros B. rewrite B in H3. split.
      { apply check_type_cases in H3.
        destruct H3 as [[N _]|[_ [(na & _ & ->)|[_ [(bl & _ & ->)|[_ ->]]]]]];
          [discriminate N | | |]; discriminate. }
      split; [exact (Eve B)|].
      set (d := mkdate (year birthday + 18) 2 27).
      pose proof (Eve B) as E. rewrite E in Ve, Yemin, Yemax.
      cbn [year] in Yemin, Yemax.
      assert (Vd : valid_date d = true).
      { subst d. revert Ve. date_simpl. unfold days_in_month.
        change (2 =? 2) with true. cbv iota. split_ifs; lia. }
      assert (Ld : (birthday <=? d)%date = true).
      { subst d. rewrite date_leb_ltb. revert Vb. date_simpl. lia. }
      assert (Ad : age_at d birthday = 17).
      { rewrite (age_at_month_day _ _ Vd Vb Ld).
        revert B. unfold age_by_month_day, leap_day_clipped, born_on_leap_day. subst d.
        cbn [year month day]. split_ifs; lia. }
      destruct (check_availability_total d history gender birthday Vd Vb Yemin Yemax G P)
        as (w1 & w2 & w3 & (_ & _ & K3) & ->).
      eexists. split; [reflexivity|]. cbn [dict_get].
      change ("400ml全血" =? "成分献血")%string with false.
      change ("200ml全血" =? "成分献血")%string with false.
      change ("成分献血" =? "成分献血")%string with true. cbv iota. f_equal.
      rewrite Ad in K3. rewrite check_type_age_blocked in K3 by reflexivity.
      congruence.
Qed.

Lemma component_eighteenth_birthday_witness :
  (exists results v,
     check_availability (mkdate 2018 3 1)
       [mkrecord "a" "200ml全血" "2017-12-01" "" "" ""] "女性" (mkdate 2000 2 29) =
     Ok results /\
     dict_get results "成分献血" = Some v /\
     reason v <> Some AgeRestriction) /\
  (exists results v,
     check_availability (mkdate 2018 2 28)
       [mkrecord "a" "200ml全血" "2017-12-01" "" "" ""] "女性" (mkdate 2000 2 29) =
     Ok results /\
     dict_get results "成分献血" = Some v /\
     (born_on_leap_day (mkdate 2000 2 29) = false -> v = Blocked AgeRestriction None) /\
     (born_on_leap_day (mkdate 2000 2 29) = true ->
      reason v <> Some AgeRestriction /\
      mkdate 2018 2 28 = mkdate (year (mkdate 2000 2 29) + 18) 2 28 /\
      exists results',
        check_availability (mkdate (year (mkdate 2000 2 29) + 18) 2 27)
          [mkrecord "a" "200ml全血" "2017-12-01" "" "" ""] "女性" (mkdate 2000 2 29) =
        Ok results' /\
        dict_get results' "成分献血" = Some (Blocked AgeRestriction None))).
Proof.
  apply component_eighteenth_birthday; reflexivity.
Defined.

(** ** C7: the engine is a function of its arguments and changes nothing *)

(** An assignment to a key of a record of the history is a step of this
    heap like any other, and the history holds another record after it:
    that a call leaves the history as it was is a property of the code of
    the engine, not of the way calls are written here. *)
Example setitem_changes_history :
  history_at [ODict [("id", VStr "a"); ("title", VStr "400ml全血");
                     ("start", VStr "2024-01-10"); ("location", VStr "");
                     ("notes", VStr ""); ("color", VStr "")];
              OList [VRef 0]] (VRef 1) =
  Some [mkrecord "a" "400ml全血" "2024-01-10" "" "" ""] /\
  history_at
    (snd (setitem (VRef 0) "title" (VStr "成分献血")
            [ODict [("id", VStr "a"); ("title", VStr "400ml全血");
                    ("start", VStr "2024-01-10"); ("location", VStr "");
                    ("notes", VStr ""); ("color", VStr "")];
             OList [VRef 0]])) (VRef 1) =
  Some [mkrecord "a" "成分献血" "2024-01-10" "" "" ""].
Proof. split; reflexivity. Qed.

(** C7.  Whatever the heap and the arguments, the call creates objects and
    leaves every object that existed before as it was, whether it returns
    or raises.  For a history held by a list object of the heap, the history
    holds the same records after the call, and what the call returns or
    raises is determined by the target date, the sex, the birth date and
    those records: a call on the same history held anywhere in another heap,
    and a second call in the heap the first one left, return the same
    verdict map (or raise the same exception). *)
Theorem check_availability_pure
    (target_date : date) (gender : string) (birthday : date)
    (history : list record) (hp1 hp2 : heap) (ref1 ref2 : value) :
  history_at hp1 ref1 = Some history ->
  history_at hp2 ref2 = Some history ->
  (forall (hp : heap) (ref : value),
     exists new,
       snd (check_availability_py target_date ref gender birthday hp) = hp ++ new) /\
  exists res1 new1 res2 new2 res3 new3,
    check_availability_py target_date ref1 gender birthday hp1 =
    (res1, hp1 ++ new1) /\
    check_availability_py target_date ref2 gender birthday hp2 =
    (res2, hp2 ++ new2) /\
    check_availability_py target_date ref1 gender birthday (hp1 ++ new1) =
    (res3, (hp1 ++ new1) ++ new3) /\
    history_at (hp1 ++ new1) ref1 = Some history /\
    outcome_at (hp1 ++ new1) res1 =
    Some (check_availability target_date history gender birthday) /\
    outcome_at (hp2 ++ new2) res2 = outcome_at (hp1 ++ new1) res1 /\
    outcome_at ((hp1 ++ new1) ++ new3) res3 = outcome_at (hp1 ++ new1) res1.
Proof.
  intros H1 H2.
  split; [intros hp ref; apply check_availability_py_keeps|].
  destruct (check_availability_py_refines target_date ref1 gender birthday hp1
              history H1) as (res1 & new1 & E1 & O1).
  destruct (check_availability_py_refines target_date ref2 gender birthday hp2
              history H2) as (res2 & new2 & E2 & O2).
  pose proof (history_at_old hp1 new1 _ _ H1) as H3.
  destruct (check_availability_py_refines target_date ref1 gender birthday
              (hp1 ++ new1) history H3) as (res3 & new3 & E3 & O3).
  exists res1, new1, res2, new2, res3, new3.
  repeat split; try assumption; congruence.
Qed.

Lemma check_availability_pure_witness :
  (forall (hp : heap) (ref : value),
     exists new,
       snd (check_availability_py (mkdate 2024 6 1) ref "男性" (mkdate 2000 1 1) hp) =
       hp ++ new) /\
  exists res1 new1 res2 new2 res3 new3,
    check_availability_py (mkdate 2024 6 1) (VRef 2) "男性" (mkdate 2000 1 1)
      [ODict [("id", VStr "a"); ("title", VStr "400ml全血");
              ("start", VStr "2024-05-01"); ("location", VStr "bus");
              ("notes", VStr ""); ("color", VStr "#FF4C4C")];
       ODict [("id", VStr "b"); ("title", VStr "成分献血");
              ("start", VStr "2023-12-25"); ("location", VStr "room");
              ("notes", VStr ""); ("color", VStr "#4CAF50")];
       OList [VRef 0; VRef 1; VRef 0]] =
    (res1,
     [ODict [("id", VStr "a"); ("title", VStr "400ml全血");
             ("start", VStr "2024-05-01"); ("location", VStr "bus");
             ("notes", VStr ""); ("color", VStr "#FF4C4C")];
      ODict [("id", VStr "b"); ("title", VStr "成分献血");
             ("start", VStr "2023-12-25"); ("location", VStr "room");
             ("notes", VStr ""); ("color", VStr "#4CAF50")];
      OList [VRef 0; VRef 1; VRef 0]] ++ new1) /\
    check_availability_py (mkdate 2024 6 1) (VRef 0) "男性" (mkdate 2000 1 1)
      [OList [VRef 2; VRef 1; VRef 2];
       ODict [("start", VStr "2023-12-25"); ("title", VStr "成分献血");
              ("id", VStr "b"); ("color", VStr "#4CAF50");
              ("location", VStr "room"); ("notes", VStr "")];
       ODict [("id", VStr "a"); ("title", VStr "400ml全血");
              ("start", VStr "2024-05-01"); ("location", VStr "bus");
              ("notes", VStr ""); ("color", VStr "#FF4C4C")]] =
    (res2,
     [OList [VRef 2; VRef 1; VRef 2];
      ODict [("start", VStr "2023-12-25"); ("title", VStr "成分献血");
             ("id", VStr "b"); ("color", VStr "#4CAF50");
             ("location", VStr "room"); ("notes", VStr "")];
      ODict [("id", VStr "a"); ("title", VStr "400ml全血");
             ("start", VStr "2024-05-01"); ("location", VStr "bus");
             ("notes", VStr ""); ("color", VStr "#FF4C4C")]] ++ new2) /\
    check_availability_py (mkdate 2024 6 1) (VRef 2) "男性" (mkdate 2000 1 1)
      ([ODict [("id", VStr "a"); ("title", VStr "400ml全血");
               ("start", VStr "2024-05-01"); ("location", VStr "bus");
               ("notes", VStr ""); ("color", VStr "#FF4C4C")];
        ODict [("id", VStr "b"); ("title", VStr "成分献血");
               ("start", VStr "2023-12-25"); ("location", VStr "room");
               ("notes", VStr ""); ("color", VStr "#4CAF50")];
        OList [VRef 0; VRef 1; VRef 0]] ++ new1) =
    (res3,
     ([ODict [("id", VStr "a"); ("title", VStr "400ml全血");
              ("start", VStr "2024-05-01"); ("location", VStr "bus");
              ("notes", VStr ""); ("color", VStr "#FF4C4C")];
       ODict [("id", VStr "b"); ("title", VStr "成分献血");
              ("start", VStr "2023-12-25"); ("location", VStr "room");
              ("notes", VStr ""); ("color", VStr "#4CAF50")];
       OList [VRef 0; VRef 1; VRef 0]] ++ new1) ++ new3) /\
    history_at
      ([ODict [("id", VStr "a"); ("title", VStr "400ml全血");
               ("start", VStr "2024-05-01"); ("location", VStr "bus");
               ("notes", VStr ""); ("color", VStr "#FF4C4C")];
        ODict [("id", VStr "b"); ("title", VStr "成分献血");
               ("start", VStr "2023-12-25"); ("location", VStr "room");
               ("notes", VStr ""); ("color", VStr "#4CAF50")];
        OList [VRef 0; VRef 1; VRef 0]] ++ new1) (VRef 2) =
    Some [mkrecord "a" "400ml全血" "2024-05-01" "bus" "" "#FF4C4C";
          mkrecord "b" "成分献血" "2023-12-25" "room" "" "#4CAF50";
          mkrecord "a" "400ml全血" "2024-05-01" "bus" "" "#FF4C4C"] /\
    outcome_at
      ([ODict [("id", VStr "a"); ("title", VStr "400ml全血");
               ("start", VStr "2024-05-01"); ("location", VStr "bus");
               ("notes", VStr ""); ("color", VStr "#FF4C4C")];
        ODict [("id", VStr "b"); ("title", VStr "成分献血");
               ("start", VStr "2023-12-25"); ("location", VStr "room");
               ("notes", VStr ""); ("color", VStr "#4CAF50")];
        OList [VRef 0; VRef 1; VRef 0]] ++ new1) res1 =
    Some (check_availability (mkdate 2024 6 1)
            [mkrecord "a" "400ml全血" "2024-05-01" "bus" "" "#FF4C4C";
             mkrecord "b" "成分献血" "2023-12-25" "room" "" "#4CAF50";
             mkrecord "a" "400ml全血" "2024-05-01" "bus" "" "#FF4C4C"]
            "男性" (mkdate 2000 1 1)) /\
    outcome_at
      ([OList [VRef 2; VRef 1; VRef 2];
        ODict [("start", VStr "2023-12-25"); ("title", VStr "成分献血");
               ("id", VStr "b"); ("color", VStr "#4CAF50");
               ("location", VStr "room"); ("notes", VStr "")];
        ODict [("id", VStr "a"); ("title", VStr "400ml全血");
               ("start", VStr "2024-05-01"); ("location", VStr "bus");
               ("notes", VStr ""); ("color", VStr "#FF4C4C")]] ++ new2) res2 =
    outcome_at
      ([ODict [("id", VStr "a"); ("title", VStr "400ml全血");
               ("start", VStr "2024-05-01"); ("location", VStr "bus");
               ("notes", VStr ""); ("color", VStr "#FF4C4C")];
        ODict [("id", VStr "b"); ("title", VStr "成分献血");
               ("start", VStr "2023-12-25"); ("location", VStr "room");
               ("notes", VStr ""); ("color", VStr "#4CAF50")];
        OList [VRef 0; VRef 1; VRef 0]] ++ new1) res1 /\
    outcome_at
      (([ODict [("id", VStr "a"); ("title", VStr "400ml全血");
                ("start", VStr "2024-05-01"); ("location", VStr "bus");
                ("notes", VStr ""); ("color", VStr "#FF4C4C")];
         ODict [("id", VStr "b"); ("title", VStr "成分献血");
                ("start", VStr "2023-12-25"); ("location", VStr "room");
                ("notes", VStr ""); ("color", VStr "#4CAF50")];
         OList [VRef 0; VRef 1; VRef 0]] ++ new1) ++ new3) res3 =
    outcome_at
      ([ODict [("id", VStr "a"); ("title", VStr "400ml全血");
               ("start", VStr "2024-05-01"); ("location", VStr "bus");
               ("notes", VStr ""); ("color", VStr "#FF4C4C")];
        ODict [("id", VStr "b"); ("title", VStr "成分献血");
               ("start", VStr "2023-12-25"); ("location", VStr "room");
               ("notes", VStr ""); ("color", VStr "#4CAF50")];
        OList [VRef 0; VRef 1; VRef 0]] ++ new1) res1.
Proof.
  apply check_availability_pure; reflexivity.
Defined.

(** The call of the witness, evaluated: the verdict map is a new dict that
    refers to three new dicts, behind the two lists the call has built. *)
Example check_availability_py_run :
  check_availability_py (mkdate 2024 6 1) (VRef 2) "男性" (mkdate 2000 1 1)
    [ODict [("id", VStr "a"); ("title", VStr "400ml全血");
            ("start", VStr "2024-05-01"); ("location", VStr "bus");
            ("notes", VStr ""); ("color", VStr "#FF4C4C")];
     ODict [("id", VStr "b"); ("title", VStr "成分献血");
            ("start", VStr "2023-12-25"); ("location", VStr "room");
            ("notes", VStr ""); ("color", VStr "#4CAF50")];
     OList [VRef 0; VRef 1; VRef 0]] =
  (Ok (VRef 3),
   [ODict [("id", VStr "a"); ("title", VStr "400ml全血");
           ("start", VStr "2024-05-01"); ("location", VStr "bus");
           ("notes", VStr ""); ("color", VStr "#FF4C4C")];
    ODict [("id", VStr "b"); ("title", VStr "成分献血");
           ("start", VStr "2023-12-25"); ("location", VStr "room");
           ("notes", VStr ""); ("color", VStr "#4CAF50")];
    OList [VRef 0; VRef 1; VRef 0];
    ODict [("400ml全血", VRef 6); ("200ml全血", VRef 7); ("成分献血", VRef 8)];
    OList [VRef 1; VRef 0; VRef 0];
    OList [VRef 1; VRef 0; VRef 0];
    ODict [("available", VBool false); ("reason", VStr "献血間隔");
           ("next", VStr "2024-07-24")];
    ODict [("available", VBool false); ("reason", VStr "献血間隔");
           ("next", VStr "2024-07-24")];
    ODict [("available", VBool false); ("reason", VStr "献血間隔");
           ("next", VStr "2024-06-26")]]).
Proof. vm_compute. reflexivity. Qed.

(** ** C8: the date after a minimum interval *)

(** C8.  Whenever the engine returns, for a donation type, a verdict blocked
    with the reason MinimumInterval, the next eligible date it reports is the
    text of a date strictly after the target date. *)
Theorem minimum_interval_next_is_future
    (target_date : date) (history : list record) (gender : string) (birthday : date)
    (results : dict verdict) (don_type : string) (v : verdict) :
  check_availability target_date history gender birthday = Ok results ->
  dict_get results don_type = Some v ->
  reason v = Some MinimumInterval ->
  exists d, next v = Some (strftime d) /\ valid_date d = true /\
            strptime (strftime d) = Ok d /\ (target_date <? d)%date = true.
Proof.
  intros H G R.
  apply check_availability_Ok in H.
  destruct H as (delta & before & v1 & v2 & v3 & _ & _ & (H1 & H2 & H3) & ->).
  assert (C : exists t, check_type target_date (sorted start history)
                          (last_or_none before) gender (years delta) t = Ok v).
  { apply dict_get_results in G.
    destruct G as [[-> ->]|[[-> ->]|[-> ->]]]; eexists; eassumption. }
  destruct C as (t & C). apply check_type_cases in C.
  destruct C as [[_ ->]|[_ [(na & M & ->)|[_ [(bl & _ & ->)|[_ ->]]]]]];
    try discriminate R.
  apply minimum_interval_Some in M. destruct M as [L V].
  exists na. repeat split; try assumption. apply strptime_strftime, V.
Qed.

Lemma minimum_interval_next_is_future_witness :
  exists d, next (Blocked MinimumInterval (Some "2024-07-24")) = Some (strftime d) /\
            valid_date d = true /\ strptime (strftime d) = Ok d /\
            (mkdate 2024 6 1 <? d)%date = true.
Proof.
  apply (minimum_interval_next_is_future (mkdate 2024 6 1)
           [mkrecord "a" "400ml全血" "2024-05-01" "" "" ""] "男性" (mkdate 2000 1 1)
           [("400ml全血"%string, Blocked MinimumInterval (Some "2024-07-24"));
            ("200ml全血"%string, Blocked MinimumInterval (Some "2024-07-24"));
            ("成分献血"%string, Blocked MinimumInterval (Some "2024-06-26"))]
           "400ml全血").
  - vm_compute. reflexivity.
  - reflexivity.
  - reflexivity.
Defined.

(** ** C9: a cap lifted on the target date itself *)

(** C9.  There is a well-formed input for which a type is blocked with the
    reason AnnualVolumeCap and the next eligible date is the target date
    itself: a woman, target date 2024-06-01, a whole-blood record on
    2023-06-01, exactly one year before, and 800 mL of whole blood after
    it. *)
Theorem cap_lift_date_can_be_target :
  exists target_date history gender birthday results,
    wf_input target_date history gender birthday = true /\
    check_availability target_date history gender birthday = Ok results /\
    dict_get results "400ml全血" =
    Some (Blocked AnnualVolumeCap (Some (strftime target_date))).
Proof.
  exists (mkdate 2024 6 1),
    [mkrecord "a" "200ml全血" "2023-06-01" "" "" "";
     mkrecord "b" "400ml全血" "2023-08-01" "" "" "";
     mkrecord "c" "400ml全血" "2023-12-01" "" "" ""],
    "女性"%string, (mkdate 2000 1 1).
  eexists. split; [vm_compute; reflexivity|].
  split; [vm_compute; reflexivity|]. vm_compute. reflexivity.
Qed.

(** ** C10: the order of a history without equal dates *)

(** C10.  When no two records of the history have the same date, the result
    of the engine is the same for every reordering of the history. *)
Theorem verdicts_permutation_invariant
    (target_date : date) (history history' : list record)
    (gender : string) (birthday : date) :
  NoDup (map (fun r => strptime (start r)) history) ->
  Permutation history history' ->
  check_availability target_date history gender birthday =
  check_availability target_date history' gender birthday.
Proof.
  intros N P.
  assert (Ns : NoDup (map start history)).
  { rewrite <- (map_map start strptime) in N. revert N.
    generalize (map start history). clear.
    induction l as [|x l IH]; simpl; intros N; [constructor|].
    inversion N; subst. constructor; [|apply IH; assumption].
    intros I. apply (in_map strptime) in I. contradiction. }
  unfold check_availability.
  rewrite (sorted_permutation_invariant start history history' P Ns). reflexivity.
Qed.

Lemma verdicts_permutation_invariant_witness :
  check_availability (mkdate 2024 6 1)
    [mkrecord "a" "400ml全血" "2023-08-01" "" "" "";
     mkrecord "b" "200ml全血" "2023-06-01" "" "" "";
     mkrecord "c" "成分献血" "2024-05-25" "" "" ""] "女性" (mkdate 2000 1 1) =
  check_availability (mkdate 2024 6 1)
    [mkrecord "b" "200ml全血" "2023-06-01" "" "" "";
     mkrecord "a" "400ml全血" "2023-08-01" "" "" "";
     mkrecord "c" "成分献血" "2024-05-25" "" "" ""] "女性" (mkdate 2000 1 1).
Proof.
  apply verdicts_permutation_invariant.
  - vm_compute. repeat constructor; simpl; intuition discriminate.
  - apply perm_swap.
Defined.

(** * Further properties of the engine *)

(** ** Records the engine cannot date *)

Lemma strptime_raises (s : string) (e : exn) :
  strptime s = Raise e -> e = ValueError.
Proof.
  unfold strptime.
  destruct (cut s) as [[yt s1]|]; [|intros H; inversion H; reflexivity].
  destruct (cut s1) as [[mt dt]|]; [|intros H; inversion H; reflexivity].
  destruct (year_of yt), (month_of mt), (day_of dt);
    try (intros H; inversion H; reflexivity).
  unfold new_date. destruct (valid_date _); intros H; inversion H; reflexivity.
Qed.

Lemma filterM_raises {A : Type} (p : A -> result bool) (l : list A) (e : exn) :
  (forall h e', p h = Raise e' -> e' = e) ->
  (exists h, In h l /\ exists e', p h = Raise e') ->
  filterM p l = Raise e.
Proof.
  intros Only (h & I & e' & R). induction l as [|x t IH]; [contradiction|].
  simpl. destruct (p x) as [b|ex] eqn:Px; cbn [bind].
  - destruct I as [->|I]; [congruence|].
    rewrite (IH I). reflexivity.
  - rewrite (Only _ _ Px). reflexivity.
Qed.

Lemma filterM_In {A : Type} (p : A -> result bool) (l r : list A) (x : A) :
  filterM p l = Ok r -> In x r -> In x l /\ p x = Ok true.
Proof.
  intros H I. destruct (filterM_Ok _ _ _ H) as (q & F & ->).
  apply filter_In in I. destruct I as [I Q]. split; [exact I|].
  rewrite Forall_forall in F. rewrite (F x I), Q. reflexivity.
Qed.

Lemma filterM_Ok_all {A : Type} (p : A -> result bool) (l r : list A) (x : A) :
  filterM p l = Ok r -> In x l -> exists b, p x = Ok b.
Proof.
  intros H I. destruct (filterM_Ok _ _ _ H) as (q & F & _).
  rewrite Forall_forall in F. exists (q x). apply F, I.
Qed.

(** A call that returns has dated every record of the history. *)
Lemma check_availability_Ok_parseable (target_date : date) (history : list record)
    (gender : string) (birthday : date) (results : dict verdict) :
  check_availability target_date history gender birthday = Ok results ->
  Forall (fun r => parseable r = true) history.
Proof.
  intros H. apply check_availability_Ok in H.
  destruct H as (delta & before & v1 & v2 & v3 & _ & Hb & _ & _).
  apply Forall_forall. intros r Ir.
  destruct (filterM_Ok_all _ _ _ r Hb) as (b & Hr); [apply sorted_In, Ir|].
  cbv beta in Hr. unfold parseable.
  destruct (strptime (start r)); [reflexivity | discriminate].
Qed.

(** X1.  One record whose [start] [strptime] does not read as a date (the
    year being four decimal digits of any script), wherever it is in the
    history, makes the call end in ValueError. *)
Theorem unparseable_record_raises
    (target_date : date) (history : list record) (gender : string) (birthday : date) :
  valid_date target_date = true -> valid_date birthday = true ->
  existsb (fun r => negb (parseable r)) history = true ->
  check_availability target_date history gender birthday = Raise ValueError.
Proof.
  intros V1 V2 E. apply existsb_exists in E. destruct E as (r & Ir & Nr).
  unfold check_availability.
  destruct (relativedelta_between_total _ _ V1 V2) as (rd & -> & _).
  cbn [bind]. unfold donations_before.
  rewrite (filterM_raises _ _ ValueError); [reflexivity| |].
  - intros h e'. cbv beta. destruct (strptime (start h)) as [d|e0] eqn:S; cbn [bind];
      [discriminate|].
    intros H. inversion H. subst. apply (strptime_raises _ _ S).
  - exists r. split; [apply sorted_In, Ir|].
    unfold parseable in Nr. cbv beta.
    destruct (strptime (start r)) as [d|e0]; [discriminate|].
    exists e0. reflexivity.
Qed.

Lemma unparseable_record_raises_witness :
  check_availability (mkdate 2024 6 1)
    [mkrecord "a" "400ml全血" "2030-01-01" "" "" "";
     mkrecord "b" "成分献血" "2023/05/01" "" "" ""] "男性" (mkdate 2000 1 1) =
  Raise ValueError.
Proof. apply unparseable_record_raises; reflexivity. Defined.

(** ** Records dated on or after the target date *)

Section SortedFilter.
Context {A : Type} (key : A -> string) (p : A -> bool).

Lemma insert_by_head (x : A) (l : list A) :
  (forall z, In z l -> key_le key x z) -> insert_by key x l = x :: l.
Proof.
  destruct l as [|y t]; [reflexivity|]. intros H. simpl.
  rewrite (H y (or_introl eq_refl)). reflexivity.
Qed.

Lemma insert_by_filter (x : A) (s : list A) :
  StronglySorted (key_le key) s ->
  filter p (insert_by key x s) =
  if p x then insert_by key x (filter p s) else filter p s.
Proof.
  induction 1 as [|y t St IH Hy]; simpl.
  - destruct (p x); reflexivity.
  - destruct (String.ltb (key y) (key x)) eqn:L.
    + simpl. rewrite IH. destruct (p y), (p x); simpl; rewrite ?L; reflexivity.
    + assert (G : forall z, In z (filter p (y :: t)) -> key_le key x z).
      { intros z Hz. apply filter_In in Hz. destruct Hz as [[<-|Hz] _]; [exact L|].
        rewrite Forall_forall in Hy. unfold key_le in *.
        eapply str_le_trans; [exact L | apply Hy, Hz]. }
      cbn [filter] in *. destruct (p x); [|reflexivity].
      rewrite (insert_by_head x _ G). reflexivity.
Qed.

(** Selecting commutes with the stable sort. *)
Lemma sorted_filter (l : list A) :
  sorted key (filter p l) = filter p (sorted key l).
Proof.
  induction l as [|x t IH]; simpl; [reflexivity|].
  rewrite (insert_by_filter x _ (sorted_sorted key t)).
  destruct (p x); simpl; rewrite IH; reflexivity.
Qed.

End SortedFilter.

Lemma filter_filter_implied {A : Type} (f g : A -> bool) (l : list A) :
  (forall x, f x = true -> g x = true) -> filter f (filter g l) = filter f l.
Proof.
  intros H. induction l as [|x t IH]; simpl; [reflexivity|].
  destruct (g x) eqn:G; simpl.
  - rewrite IH. reflexivity.
  - destruct (f x) eqn:F; [rewrite (H x F) in G; discriminate | exact IH].
Qed.

Lemma donations_in_window_filter (target_date lo : date) (s : list record) :
  rd_sub target_date (rd_years 1) = Ok lo ->
  Forall (fun r => parseable r = true) s ->
  donations_in_window target_date s =
  Ok (filter (fun h => (lo <=? date_of h)%date && (date_of h <? target_date)%date &&
                       contains "全血" (title h)) s).
Proof.
  intros R H. unfold donations_in_window. apply filterM_pure.
  eapply Forall_impl; [|exact H]. intros r Hr. cbv beta.
  rewrite R. cbn [bind].
  destruct (parseable_date_of r Hr) as [-> _]. reflexivity.
Qed.

Lemma filter_parseable (p : record -> bool) (l : list record) :
  Forall (fun r => parseable r = true) l ->
  Forall (fun r => parseable r = true) (filter p l).
Proof.
  rewrite !Forall_forall. intros H r Hr. apply filter_In in Hr. apply H, Hr.
Qed.

(** The yearly cap reads only the records dated before the target date. *)
Lemma annual_cap_before (target_date : date) (s : list record)
    (gender don_type : string) :
  Forall (fun r => parseable r = true) s ->
  annual_cap target_date
    (filter (fun r => (date_of r <? target_date)%date) s) gender don_type =
  annual_cap target_date s gender don_type.
Proof.
  intros P. pose proof (filter_parseable (fun r => (date_of r <? target_date)%date) _ P) as P'.
  unfold annual_cap. destruct (contains "全血" don_type); [|reflexivity].
  destruct (rd_sub target_date (rd_years 1)) as [lo|e] eqn:R; [|reflexivity].
  cbn [bind]. rewrite (relevant_history_pure _ _ _ P), (relevant_history_pure _ _ _ P').
  cbn [bind]. rewrite filter_filter_implied.
  2:{ intros x Hx. apply andb_prop in Hx. destruct Hx as [Hx _].
      apply andb_prop in Hx. apply Hx. }
  destruct (dict_item MAX_VOLUME gender) as [cap|e]; [|reflexivity]. cbn [bind].
  destruct (cap <? _); [|reflexivity].
  rewrite (donations_in_window_filter _ _ _ R P), (donations_in_window_filter _ _ _ R P').
  cbn [bind]. rewrite filter_filter_implied; [reflexivity|].
  intros x Hx. apply andb_prop in Hx. destruct Hx as [Hx _].
  apply andb_prop in Hx. apply Hx.
Qed.

Lemma check_availability_before
    (target_date : date) (history : list record) (gender : string) (birthday : date) :
  Forall (fun r => parseable r = true) history ->
  check_availability target_date history gender birthday =
  check_availability target_date
    (filter (fun r => (date_of r <? target_date)%date) history) gender birthday.
Proof.
  intros P.
  pose proof (filter_parseable (fun r => (date_of r <? target_date)%date) _ P) as P'.
  unfold check_availability.
  destruct (relativedelta_between target_date birthday) as [delta|e]; [|reflexivity].
  cbn [bind].
  rewrite (donations_before_pure _ _ (sorted_parseable _ P)).
  rewrite (donations_before_pure _ _ (sorted_parseable _ P')).
  cbn [bind]. rewrite sorted_filter.
  rewrite (filter_filter_implied _ _ _ (fun x H => H)).
  rewrite !for_each_all_types.
  unfold check_type. rewrite !(annual_cap_before _ _ _ _ (sorted_parseable _ P)).
  reflexivity.
Qed.

(** X2.  The records dated on or after the target date do not count: the
    result is that of the history without them. *)
Theorem later_records_ignored
    (target_date : date) (history : list record) (gender : string) (birthday : date) :
  forallb parseable history = true ->
  check_availability target_date history gender birthday =
  check_availability target_date
    (filter (fun r => (date_of r <? target_date)%date) history) gender birthday.
Proof.
  intros P. apply check_availability_before, forallb_parseable, P.
Qed.

Lemma later_records_ignored_witness :
  check_availability (mkdate 2024 6 1)
    [mkrecord "a" "400ml全血" "2024-06-01" "" "" "";
     mkrecord "b" "成分献血" "2023-05-01" "" "" ""] "男性" (mkdate 2000 1 1) =
  check_availability (mkdate 2024 6 1)
    (filter (fun r => (date_of r <? mkdate 2024 6 1)%date)
       [mkrecord "a" "400ml全血" "2024-06-01" "" "" "";
        mkrecord "b" "成分献血" "2023-05-01" "" "" ""]) "男性" (mkdate 2000 1 1).
Proof. apply later_records_ignored. reflexivity. Defined.

(** ** No donation before the target date *)

Lemma no_record_before (target_date : date) (history : list record) :
  forallb (fun r => parseable r && negb (date_of r <? target_date)%date) history = true ->
  forallb parseable history = true /\
  filter (fun r => (date_of r <? target_date)%date) history = [].
Proof.
  intros H. rewrite forallb_forall in H. split.
  - apply forallb_forall. intros r Ir. specialize (H r Ir).
    apply andb_prop in H. apply H.
  - apply filter_none. intros r Ir. specialize (H r Ir).
    apply andb_prop in H. destruct H as [_ H]. apply negb_true_iff in H. exact H.
Qed.

Lemma check_type_no_history (target_date : date) (gender : string) (age : Z)
    (don_type : string) :
  valid_date target_date = true -> MINYEAR < year target_date ->
  wf_gender gender = true ->
  In don_type ALL_TYPES ->
  check_type target_date [] None gender age don_type =
  Ok (if is_age_ok don_type gender age then Available
      else Blocked AgeRestriction None).
Proof.
  intros V Y G I. unfold check_type.
  destruct (is_age_ok don_type gender age); [|reflexivity].
  cbn [negb minimum_interval bind]. unfold annual_cap.
  rewrite (rd_sub_year _ V Y), (max_volume_item _ G).
  assert (C : 800 <= gender_cap gender)
    by (unfold gender_cap; destruct (gender =? "男性")%string; lia).
  destruct I as [<-|[<-|[<-|[]]]]; cbn -[gender_cap Z.ltb]; try reflexivity;
    match goal with |- context [gender_cap gender <? ?v] =>
      replace (gender_cap gender <? v) with false by lia
    end; reflexivity.
Qed.

(** X3.  When no record is dated before the target date, only the age
    decides: each donation type is Available if the age gate lets it pass
    and blocked for age otherwise. *)
Theorem no_prior_donation_only_age
    (target_date : date) (history : list record) (gender : string) (birthday : date) :
  valid_date target_date = true -> valid_date birthday = true ->
  MINYEAR < year target_date -> wf_gender gender = true ->
  forallb (fun r => parseable r && negb (date_of r <? target_date)%date) history = true ->
  let by_age don_type :=
    if is_age_ok don_type gender (age_at target_date birthday) then Available
    else Blocked AgeRestriction None in
  check_availability target_date history gender birthday =
  Ok [("400ml全血"%string, by_age "400ml全血"%string);
      ("200ml全血"%string, by_age "200ml全血"%string);
      ("成分献血"%string, by_age "成分献血"%string)].
Proof.
  intros V1 V2 Y G N by_age. destruct (no_record_before _ _ N) as [P E].
  rewrite (check_availability_before _ _ _ _ (forallb_parseable _ P)), E.
  rewrite (check_availability_eq _ _ _ _ V1 V2 (Forall_nil _)). cbv zeta.
  cbn [sorted filter last_or_none].
  rewrite !(check_type_no_history _ _ _ _ V1 Y G) by (unfold ALL_TYPES; simpl; auto).
  reflexivity.
Qed.

Lemma no_prior_donation_only_age_witness :
  check_availability (mkdate 2017 6 1)
    [mkrecord "a" "400ml全血" "2017-06-01" "" "" ""] "女性" (mkdate 2000 1 1) =
  Ok [("400ml全血"%string,
       if is_age_ok "400ml全血" "女性" (age_at (mkdate 2017 6 1) (mkdate 2000 1 1))
       then Available else Blocked AgeRestriction None);
      ("200ml全血"%string,
       if is_age_ok "200ml全血" "女性" (age_at (mkdate 2017 6 1) (mkdate 2000 1 1))
       then Available else Blocked AgeRestriction None);
      ("成分献血"%string,
       if is_age_ok "成分献血" "女性" (age_at (mkdate 2017 6 1) (mkdate 2000 1 1))
       then Available else Blocked AgeRestriction None)].
Proof.
  apply (no_prior_donation_only_age (mkdate 2017 6 1)); (reflexivity || (vm_compute; reflexivity)).
Defined.

(** ** A sex the table of caps does not know *)

(** X4.  For a sex that is neither of the two keys of MAX_VOLUME, a donor of
    16 to 69 years without a donation before the target date gets no
    verdict: the 200 mL type passes the age gate and the lookup of the cap
    ends in KeyError. *)
Theorem unknown_gender_raises
    (target_date : date) (history : list record) (gender : string) (birthday : date) :
  valid_date target_date = true -> valid_date birthday = true ->
  MINYEAR < year target_date -> wf_gender gender = false ->
  forallb (fun r => parseable r && negb (date_of r <? target_date)%date) history = true ->
  16 <= age_at target_date birthday <= 69 ->
  check_availability target_date history gender birthday = Raise KeyError.
Proof.
  intros V1 V2 Y G N A. destruct (no_record_before _ _ N) as [P E].
  rewrite (check_availability_before _ _ _ _ (forallb_parseable _ P)), E.
  rewrite (check_availability_eq _ _ _ _ V1 V2 (Forall_nil _)). cbv zeta.
  cbn [sorted filter last_or_none].
  unfold wf_gender in G. apply orb_false_iff in G. destruct G as [G1 G2].
  assert (A4 : is_age_ok "400ml全血" gender (age_at target_date birthday) = false).
  { unfold is_age_ok. rewrite G1, G2. reflexivity. }
  assert (A2 : is_age_ok "200ml全血" gender (age_at target_date birthday) = true).
  { unfold is_age_ok. cbn -[Z.leb].
    replace (16 <=? age_at target_date birthday) with true by lia.
    replace (age_at target_date birthday <=? 69) with true by lia. reflexivity. }
  rewrite (check_type_age_blocked _ _ _ _ _ _ A4). cbn [bind].
  unfold check_type at 1. rewrite A2. cbn [negb minimum_interval bind].
  unfold annual_cap. rewrite (rd_sub_year _ V1 Y).
  assert (K : dict_item MAX_VOLUME gender = Raise KeyError).
  { unfold dict_item, MAX_VOLUME. cbn [dict_get].
    rewrite (String.eqb_sym "男性" gender), (String.eqb_sym "女性" gender), G1, G2.
    reflexivity. }
  cbn -[dict_item MAX_VOLUME]. rewrite K. reflexivity.
Qed.

Lemma unknown_gender_raises_witness :
  check_availability (mkdate 2024 6 1) [] "その他" (mkdate 2000 1 1) = Raise KeyError.
Proof.
  apply unknown_gender_raises; try reflexivity. vm_compute. split; discriminate.
Defined.

(** ** Outside the ages of donation *)

(** X5.  A donor younger than 16 or older than 69 on the target date has
    every donation type blocked for age, whatever the history holds. *)
Theorem outside_donation_ages_all_blocked
    (target_date : date) (history : list record) (gender : string) (birthday : date) :
  valid_date target_date = true -> valid_date birthday = true ->
  forallb parseable history = true ->
  age_at target_date birthday < 16 \/ 69 < age_at target_date birthday ->
  check_availability target_date history gender birthday =
  Ok [("400ml全血"%string, Blocked AgeRestriction None);
      ("200ml全血"%string, Blocked AgeRestriction None);
      ("成分献血"%string, Blocked AgeRestriction None)].
Proof.
  intros V1 V2 P A. apply forallb_parseable in P.
  rewrite (check_availability_eq _ _ _ _ V1 V2 P). cbv zeta.
  assert (N : forall t, is_age_ok t gender (age_at target_date birthday) = false).
  { intros t. destruct (is_age_ok t gender _) eqn:E; [|reflexivity].
    apply is_age_ok_bounds in E. lia. }
  rewrite !check_type_age_blocked by apply N. reflexivity.
Qed.

Lemma outside_donation_ages_all_blocked_witness :
  check_availability (mkdate 2024 6 1)
    [mkrecord "a" "400ml全血" "2020-01-10" "" "" ""] "男性" (mkdate 1954 5 31) =
  Ok [("400ml全血"%string, Blocked AgeRestriction None);
      ("200ml全血"%string, Blocked AgeRestriction None);
      ("成分献血"%string, Blocked AgeRestriction None)].
Proof.
  apply outside_donation_ages_all_blocked; try reflexivity.
  right. vm_compute. reflexivity.
Defined.

(** ** The shape of the result *)

(** X6.  A call that returns gives one entry per donation type, in the
    order of ALL_TYPES, and every entry is of one of four forms: available,
    without reason or date; blocked for age, without date; blocked for the
    interval, with the text of a date after the target date; blocked for the
    yearly volume, with the text of a date, and then for a whole-blood type
    only. *)
Theorem result_shape
    (target_date : date) (history : list record) (gender : string) (birthday : date)
    (results : dict verdict) :
  check_availability target_date history gender birthday = Ok results ->
  map fst results = ALL_TYPES /\
  forall don_type v, In (don_type, v) results ->
    v = Available \/
    v = Blocked AgeRestriction None \/
    (exists d, v = Blocked MinimumInterval (Some (strftime d)) /\
               valid_date d = true /\ (target_date <? d)%date = true) \/
    (exists d, v = Blocked AnnualVolumeCap (Some (strftime d)) /\
               valid_date d = true /\ contains "全血" don_type = true).
Proof.
  intros H. apply check_availability_Ok in H.
  destruct H as (delta & before & v1 & v2 & v3 & _ & _ & (H1 & H2 & H3) & ->).
  split; [reflexivity|]. intros don_type v I.
  assert (C : check_type target_date (sorted start history) (last_or_none before)
                         gender (years delta) don_type = Ok v).
  { destruct I as [I|[I|[I|[]]]]; inversion I; subst; assumption. }
  apply check_type_cases in C.
  destruct C as [[_ ->]|[_ [(na & M & ->)|[_ [(bl & Hc & ->)|[_ ->]]]]]]; auto.
  - right. right. left. exists na. apply minimum_interval_Some in M.
    destruct M. auto.
  - right. right. right. exists bl. split; [reflexivity|].
    unfold annual_cap in Hc.
    destruct (contains "全血" don_type); [|discriminate]. split; [|reflexivity].
    apply bind_Ok in Hc. destruct Hc as (ws & _ & Hc).
    apply bind_Ok in Hc. destruct Hc as (rel & _ & Hc).
    apply bind_Ok in Hc. destruct Hc as (cap & _ & Hc).
    destruct (cap <? _); [|discriminate].
    apply bind_Ok in Hc. destruct Hc as ([|x w] & _ & Hc); [discriminate|].
    apply bind_Ok in Hc. destruct Hc as (f & _ & Hc).
    apply bind_Ok in Hc. destruct Hc as (d & Hd & Hc).
    apply bind_Ok in Hc. destruct Hc as (bl' & Hb & Hc). inversion Hc; subst.
    unfold rd_add, rd_years in Hb. cbn [years months days fst snd Z.eqb] in Hb.
    apply bind_Ok in Hb. destruct Hb as (r & Hr & Hb).
    rewrite add_timedelta_0 in Hb. inversion Hb; subst.
    apply new_date_Ok in Hr. apply Hr.
Qed.

Lemma result_shape_witness :
  map fst [("400ml全血"%string, Blocked MinimumInterval (Some "2024-07-24"));
           ("200ml全血"%string, Blocked MinimumInterval (Some "2024-07-24"));
           ("成分献血"%string, Blocked MinimumInterval (Some "2024-06-26"))] =
  ALL_TYPES /\
  forall don_type v,
    In (don_type, v)
       [("400ml全血"%string, Blocked MinimumInterval (Some "2024-07-24"));
        ("200ml全血"%string, Blocked MinimumInterval (Some "2024-07-24"));
        ("成分献血"%string, Blocked MinimumInterval (Some "2024-06-26"))] ->
    v = Available \/
    v = Blocked AgeRestriction None \/
    (exists d, v = Blocked MinimumInterval (Some (strftime d)) /\
               valid_date d = true /\ (mkdate 2024 6 1 <? d)%date = true) \/
    (exists d, v = Blocked AnnualVolumeCap (Some (strftime d)) /\
               valid_date d = true /\ contains "全血" don_type = true).
Proof.
  apply (result_shape (mkdate 2024 6 1)
           [mkrecord "a" "400ml全血" "2024-05-01" "" "" ""] "男性" (mkdate 2000 1 1)).
  vm_compute. reflexivity.
Defined.

(** ** 400 mL and 200 mL *)

Lemma minimum_interval_whole_blood (target_date : date)
    (last_donation : option record) (gender : string) :
  minimum_interval target_date last_donation gender "200ml全血" =
  minimum_interval target_date last_donation gender "400ml全血".
Proof. reflexivity. Qed.

Lemma annual_cap_200_of_400 (target_date : date) (s : list record) (gender : string) :
  annual_cap target_date s gender "400ml全血" = Ok None ->
  annual_cap target_date s gender "200ml全血" = Ok None.
Proof.
  unfold annual_cap.
  change (contains "全血" "400ml全血") with true.
  change (contains "全血" "200ml全血") with true.
  change (get_volume "400ml全血") with 400. change (get_volume "200ml全血") with 200.
  cbv iota.
  destruct (rd_sub target_date (rd_years 1)) as [ws|e]; [|discriminate]. cbn [bind].
  destruct (relevant_history ws target_date s) as [rel|e]; [|discriminate]. cbn [bind].
  destruct (dict_item MAX_VOLUME gender) as [cap|e]; [|discriminate]. cbn [bind].
  destruct (cap <? volume_of rel + 400) eqn:C4.
  - destruct (donations_in_window target_date s) as [[|x w]|e]; cbn [bind];
      [intros _; destruct (cap <? volume_of rel + 200); reflexivity | | discriminate].
    intros H. exfalso.
    apply bind_Ok in H. destruct H as (f & _ & H).
    apply bind_Ok in H. destruct H as (d & _ & H).
    apply bind_Ok in H. destruct H as (bl & _ & H). discriminate.
  - intros _. replace (cap <? volume_of rel + 200) with false by lia. reflexivity.
Qed.

(** X7.  Whenever 400 mL whole blood is available, so is 200 mL: its age
    range is wider, its wait is the same and it adds less to the yearly
    volume. *)
Theorem available_400_implies_available_200
    (target_date : date) (history : list record) (gender : string) (birthday : date)
    (results : dict verdict) :
  check_availability target_date history gender birthday = Ok results ->
  dict_get results "400ml全血" = Some Available ->
  dict_get results "200ml全血" = Some Available.
Proof.
  intros H A. apply check_availability_Ok in H.
  destruct H as (delta & before & v1 & v2 & v3 & _ & _ & (H1 & H2 & _) & ->).
  cbn in A. inversion A; subst v1. cbn. f_equal.
  apply check_type_cases in H1.
  destruct H1 as [[_ E]|[Age [(na & _ & E)|[M [(bl & _ & E)|[C _]]]]]];
    try discriminate E.
  rewrite <- minimum_interval_whole_blood in M.
  apply annual_cap_200_of_400 in C.
  assert (Age2 : is_age_ok "200ml全血" gender (years delta) = true).
  { pose proof (is_age_ok_bounds _ _ _ Age) as B.
    assert (B4 : 17 <= years delta).
    { revert Age. unfold is_age_ok. cbn -[Z.leb].
      destruct (gender =? "男性")%string, (gender =? "女性")%string;
        cbn -[Z.leb]; split_ifs; intros; try discriminate; lia. }
    unfold is_age_ok. cbn -[Z.leb].
    replace (16 <=? years delta) with true by lia.
    replace (years delta <=? 69) with true by lia. reflexivity. }
  unfold check_type in H2. rewrite Age2, M in H2. cbn [negb bind] in H2.
  rewrite C in H2. cbn [bind] in H2. inversion H2. reflexivity.
Qed.

Lemma available_400_implies_available_200_witness :
  dict_get [("400ml全血"%string, Available); ("200ml全血"%string, Available);
            ("成分献血"%string, Available)] "200ml全血" = Some Available.
Proof.
  apply (available_400_implies_available_200 (mkdate 2024 6 1)
           [mkrecord "a" "200ml全血" "2024-01-01" "" "" ""] "男性" (mkdate 2000 1 1)).
  - vm_compute. reflexivity.
  - reflexivity.
Defined.

(** ** The date the yearly cap is lifted *)

Lemma days_in_month_other_year (y y' m : Z) :
  m <> 2 -> days_in_month y m = days_in_month y' m.
Proof.
  intros H. unfold days_in_month.
  replace (m =? 2) with false by lia. reflexivity.
Qed.

Lemma shift_year_back_and_forth (target_date d : date) :
  valid_date target_date = true -> valid_date d = true ->
  (month target_date =? 2) && (day target_date =? 29) = false ->
  (shift_year target_date (-1) <=? d)%date = true ->
  (shift_year d 1 <? target_date)%date = false.
Proof.
  intros V Vd F L.
  pose proof (days_in_month_bounds (year target_date + -1) (month target_date)) as B1.
  pose proof (days_in_month_bounds (year d + 1) (month d)) as B2.
  destruct (Z.eq_dec (month target_date) 2) as [E|E].
  - assert (B3 : days_in_month (year target_date) (month target_date) <= 29).
    { rewrite E. unfold days_in_month. cbn [Z.eqb Pos.eqb].
      destruct (isleap (year target_date)); lia. }
    revert V Vd F L. unfold shift_year. date_simpl. lia.
  - pose proof (days_in_month_other_year (year target_date)
                  (year target_date + -1) (month target_date) E) as D1.
    destruct (Z.eq_dec (month d) (month target_date)) as [Em|Em].
    + assert (D2 : days_in_month (year target_date) (month target_date) =
                   days_in_month (year d + 1) (month d))
        by (rewrite Em; apply days_in_month_other_year; exact E).
      revert V Vd F L. unfold shift_year. date_simpl. lia.
    + revert V Vd F L. unfold shift_year. date_simpl. lia.
Qed.

(** X8.  The date reported with the reason AnnualVolumeCap is never before
    the target date, unless the target date is a 29 February. *)
Theorem cap_lift_date_not_before_target
    (target_date : date) (history : list record) (gender : string) (birthday : date)
    (results : dict verdict) (don_type : string) (v : verdict) :
  valid_date target_date = true ->
  (month target_date =? 2) && (day target_date =? 29) = false ->
  check_availability target_date history gender birthday = Ok results ->
  dict_get results don_type = Some v ->
  reason v = Some AnnualVolumeCap ->
  exists d, next v = Some (strftime d) /\ valid_date d = true /\
            (d <? target_date)%date = false.
Proof.
  intros V F H G R.
  apply check_availability_Ok in H.
  destruct H as (delta & before & v1 & v2 & v3 & _ & _ & (H1 & H2 & H3) & ->).
  assert (C : exists t, check_type target_date (sorted start history)
                          (last_or_none before) gender (years delta) t = Ok v).
  { apply dict_get_results in G.
    destruct G as [[-> ->]|[[-> ->]|[-> ->]]]; eexists; eassumption. }
  destruct C as (t & C). apply check_type_cases in C.
  destruct C as [[_ ->]|[_ [(na & _ & ->)|[_ [(bl & Hc & ->)|[_ ->]]]]]];
    try discriminate R.
  exists bl. split; [reflexivity|].
  unfold annual_cap in Hc. destruct (contains "全血" t); [|discriminate].
  apply bind_Ok in Hc. destruct Hc as (ws & Hws & Hc).
  apply bind_Ok in Hc. destruct Hc as (rel & _ & Hc).
  apply bind_Ok in Hc. destruct Hc as (cap & _ & Hc).
  destruct (cap <? _); [|discriminate].
  apply bind_Ok in Hc. destruct Hc as ([|x w] & Hw & Hc); [discriminate|].
  apply bind_Ok in Hc. destruct Hc as (f & Hf & Hc).
  apply bind_Ok in Hc. destruct Hc as (d & Hd & Hc).
  apply bind_Ok in Hc. destruct Hc as (bl' & Hb & Hc). inversion Hc; subst bl'.
  (* the window starts one year before the target date *)
  assert (Ews : ws = shift_year target_date (-1)).
  { unfold rd_sub, rd_add, rd_neg, rd_years in Hws.
    cbn [years months days fst snd Z.eqb Z.opp] in Hws.
    apply bind_Ok in Hws. destruct Hws as (r & Hr & Hws).
    rewrite add_timedelta_0 in Hws. inversion Hws; subst.
    apply new_date_Ok in Hr. apply Hr. }
  (* the earliest record is in the half-open window *)
  apply min_by_spec in Hf. destruct Hf as [If _].
  destruct (filterM_In _ _ _ _ Hw If) as [_ Pf]. cbv beta in Pf.
  rewrite Hws, Hd in Pf. cbn [bind] in Pf. injection Pf as Pb.
  apply andb_prop in Pb. destruct Pb as [Pb _].
  apply andb_prop in Pb. destruct Pb as [Pb _]. rewrite Ews in Pb.
  assert (Vd : valid_date d = true).
  { assert (P : parseable f = true) by (unfold parseable; rewrite Hd; reflexivity).
    destruct (parseable_date_of _ P) as [E Vf]. rewrite Hd in E.
    congruence. }
  (* the date reported is one year after it *)
  unfold rd_add, rd_years in Hb. cbn [years months days fst snd Z.eqb] in Hb.
  apply bind_Ok in Hb. destruct Hb as (r & Hr & Hb).
  rewrite add_timedelta_0 in Hb. injection Hb as Hb. subst r.
  apply new_date_Ok in Hr. destruct Hr as [Er Vr]. split; [exact Vr|].
  rewrite Er. apply (shift_year_back_and_forth target_date d); assumption.
Qed.

Lemma cap_lift_date_not_before_target_witness :
  exists d, next (Blocked AnnualVolumeCap (Some "2024-06-01")) = Some (strftime d) /\
            valid_date d = true /\ (d <? mkdate 2024 6 1)%date = false.
Proof.
  apply (cap_lift_date_not_before_target (mkdate 2024 6 1)
           [mkrecord "a" "200ml全血" "2023-06-01" "" "" "";
            mkrecord "b" "400ml全血" "2023-08-01" "" "" "";
            mkrecord "c" "400ml全血" "2023-12-01" "" "" ""] "女性" (mkdate 2000 1 1)
           [("400ml全血"%string, Blocked AnnualVolumeCap (Some "2024-06-01"));
            ("200ml全血"%string, Blocked AnnualVolumeCap (Some "2024-06-01"));
            ("成分献血"%string, Available)] "400ml全血").
  - reflexivity.
  - reflexivity.
  - vm_compute. reflexivity.
  - reflexivity.
  - reflexivity.
Defined.

(** On a 29 February the date reported can be the day before the target
    date. *)
Example cap_lift_date_before_leap_day :
  check_availability (mkdate 2024 2 29)
    [mkrecord "a" "400ml全血" "2023-02-28" "" "" "";
     mkrecord "b" "400ml全血" "2023-06-01" "" "" "";
     mkrecord "c" "400ml全血" "2023-10-01" "" "" ""] "女性" (mkdate 2000 1 1) =
  Ok [("400ml全血"%string, Blocked AnnualVolumeCap (Some "2024-02-28"));
      ("200ml全血"%string, Blocked AnnualVolumeCap (Some "2024-02-28"));
      ("成分献血"%string, Available)].
Proof. vm_compute. reflexivity. Qed.

(** ** The volume that counts *)

Lemma get_volume_whole_blood (t : string) :
  contains "全血" t = false -> get_volume t = 0.
Proof.
  intros H. unfold get_volume.
  destruct (String.eqb_spec t "200ml全血") as [->|_]; [discriminate H|].
  destruct (String.eqb_spec t "400ml全血") as [->|_]; [discriminate H|].
  reflexivity.
Qed.

(** X9.  Only titles that hold "全血" have a volume, so the test for "全血"
    in the selection of line 111 never changes the volume summed. *)
Theorem whole_blood_test_keeps_volume (f : record -> bool) (l : list record) :
  volume_of (filter (fun h => f h && contains "全血" (title h)) l) =
  volume_of (filter f l).
Proof.
  induction l as [|x t IH]; simpl; [reflexivity|].
  destruct (f x); cbn [andb]; [|exact IH].
  destruct (contains "全血" (title x)) eqn:C.
  - rewrite !volume_of_cons, IH. reflexivity.
  - rewrite volume_of_cons, (get_volume_whole_blood _ C), IH. lia.
Qed.

(** ** The two weeks after a donation *)

Lemma next_available_at_least_two_weeks (l : record) (don_type gender : string)
    (na e : date) :
  parseable l = true ->
  In (title l) ALL_TYPES ->
  next_available_after l don_type gender = Ok na ->
  add_days (date_of l) 14 = Ok e ->
  (na <? e)%date = false.
Proof.
  intros P T H E. destruct (parseable_date_of l P) as [S V].
  unfold next_available_after in H. rewrite S in H. cbn [bind] in H.
  destruct (add_days_Ok _ _ _ V E) as [Ve _].
  assert (W : forall w, 2 <= w <= 16 ->
                rd_add (rd_weeks w) (date_of l) = Ok na -> (na <? e)%date = false).
  { intros w Rw Hw. rewrite (rd_add_weeks w _ V) in Hw by lia.
    replace (Z.to_nat (w * 7)) with (14 + Z.to_nat (w * 7 - 14))%nat in Hw by lia.
    rewrite add_days_plus, E in Hw. cbn [bind] in Hw.
    apply (add_days_Ok _ _ _ Ve Hw). }
  destruct (gender =? "男性")%string, (don_type =? "成分献血")%string;
    destruct T as [T|[T|[T|[]]]]; rewrite <- T in H;
    repeat match type of H with
           | context [contains ?a ?b] =>
               let v := eval vm_compute in (contains a b) in
               change (contains a b) with v in H
           | context [String.eqb ?a ?b] =>
               let v := eval vm_compute in (String.eqb a b) in
               change (String.eqb a b) with v in H
           end;
    cbv iota in H; (eapply W; [|exact H]; lia).
Qed.

(** X10.  On well-formed input, during the two weeks after the reference
    prior donation every donation type that passes the age gate is blocked
    with the reason MinimumInterval, until a date at least two weeks after
    that donation. *)
Theorem blocked_within_two_weeks
    (target_date : date) (history : list record) (gender : string) (birthday : date)
    (l : record) (e : date) (don_type : string) :
  wf_input target_date history gender birthday = true ->
  reference_prior target_date history = Ok (Some l) ->
  add_days (date_of l) 14 = Ok e ->
  (target_date <? e)%date = true ->
  In don_type ALL_TYPES ->
  is_age_ok don_type gender (age_at target_date birthday) = true ->
  exists results d,
    check_availability target_date history gender birthday = Ok results /\
    dict_get results don_type = Some (Blocked MinimumInterval (Some (strftime d))) /\
    (d <? e)%date = false.
Proof.
  intros W Ref E L I Age.
  destruct (wf_input_parts _ _ _ _ W) as (Vt & Vb & _ & Ymin & Ymax & G & Wh).
  pose proof (wf_history_parseable _ Wh) as P.
  rewrite (reference_prior_eq _ _ P) in Ref. injection Ref as Rl.
  destruct (last_before_target _ _ _ P Ymax Rl) as [Pl Yl].
  assert (Tl : In (title l) ALL_TYPES).
  { apply last_or_none_In in Rl. apply filter_In in Rl. destruct Rl as [Il _].
    apply sorted_In in Il.
    destruct (wf_history_title _ _ Wh Il) as [-> | [-> | ->]]; simpl; auto. }
  destruct (next_available_after_total l don_type gender Pl Yl) as (na & Hna).
  pose proof (next_available_at_least_two_weeks _ _ _ _ _ Pl Tl Hna E) as Le.
  assert (Lt : (target_date <? na)%date = true)
    by (revert L Le; date_simpl; lia).
  destruct (check_availability_total _ _ _ _ Vt Vb Ymin Ymax G P)
    as (v1 & v2 & v3 & (H1 & H2 & H3) & ->).
  rewrite Rl in H1, H2, H3.
  assert (Hv : exists v,
             check_type target_date (sorted start history) (Some l) gender
                        (age_at target_date birthday) don_type = Ok v /\
             dict_get [("400ml全血"%string, v1); ("200ml全血"%string, v2);
                       ("成分献血"%string, v3)] don_type = Some v).
  { destruct I as [<-|[<-|[<-|[]]]]; eexists; split; (eassumption || reflexivity). }
  destruct Hv as (v & Hv & Dv).
  exists [("400ml全血"%string, v1); ("200ml全血"%string, v2); ("成分献血"%string, v3)], na.
  split; [reflexivity|]. split; [|exact Le]. rewrite Dv. f_equal.
  unfold check_type in Hv. rewrite Age in Hv. cbn [negb] in Hv.
  unfold minimum_interval in Hv. rewrite Hna in Hv. cbn [bind] in Hv.
  rewrite Lt in Hv. injection Hv as Hv. symmetry. exact Hv.
Qed.

Lemma blocked_within_two_weeks_witness :
  exists results d,
    check_availability (mkdate 2024 5 10)
      [mkrecord "a" "成分献血" "2024-05-01" "" "" ""] "男性" (mkdate 2000 1 1) =
    Ok results /\
    dict_get results "成分献血" = Some (Blocked MinimumInterval (Some (strftime d))) /\
    (d <? mkdate 2024 5 15)%date = false.
Proof.
  apply (blocked_within_two_weeks (mkdate 2024 5 10) _ "男性" (mkdate 2000 1 1)
           (mkrecord "a" "成分献血" "2024-05-01" "" "" ""));
    try reflexivity.
  unfold ALL_TYPES. simpl. auto.
Defined.

(** ** The date-ascending view *)

Lemma strongly_sorted_filter {A : Type} (R : A -> A -> Prop) (p : A -> bool)
    (l : list A) :
  StronglySorted R l -> StronglySorted R (filter p l).
Proof.
  induction 1 as [|x t St IH Hx]; simpl; [constructor|].
  destruct (p x); [|exact IH]. constructor; [exact IH|].
  rewrite Forall_forall in *. intros y Hy. apply filter_In in Hy. apply Hx, Hy.
Qed.

Lemma last_or_none_greatest {A : Type} (R : A -> A -> Prop) (l : list A) (x : A) :
  StronglySorted R l -> last_or_none l = Some x ->
  forall y, In y l -> y = x \/ R y x.
Proof.
  induction 1 as [|a t St IH Ha]; simpl; [discriminate|].
  destruct t as [|b t'].
  - intros H y [<-|[]]. inversion H. auto.
  - intros H y [<-|Hy].
    + right. rewrite Forall_forall in Ha. apply Ha.
      apply last_or_none_In. exact H.
    + apply IH; assumption.
Qed.

Lemma sorted_by_date (history : list record) :
  wf_history history = true ->
  StronglySorted (fun a b => (date_of b <? date_of a)%date = false)
                 (sorted start history).
Proof.
  intros W. pose proof (wf_history_canonical _ W) as Cn. rewrite Forall_forall in Cn.
  pose proof (sorted_sorted start history) as S.
  assert (I : forall x, In x (sorted start history) -> canonical x = true)
    by (intros x Hx; apply Cn, (sorted_In start), Hx).
  revert I. induction S as [|a t St IH Ha]; intros I; constructor.
  - apply IH. intros x Hx. apply I. right. exact Hx.
  - rewrite Forall_forall in *. intros b Hb. specialize (Ha b Hb).
    destruct (canonical_start _ (I a (or_introl eq_refl))) as [Pa Sa].
    destruct (canonical_start _ (I b (or_intror Hb))) as [Pb Sb].
    destruct (parseable_date_of _ Pa) as [_ Va].
    destruct (parseable_date_of _ Pb) as [_ Vb].
    unfold key_le in Ha. rewrite Sa, Sb, (strftime_ltb _ _ Vb Va) in Ha. exact Ha.
Qed.

(** X11.  Sorting by the text of the dates puts a well-formed history in
    the order of the dates: no record of the view is dated before one that
    precedes it. *)
Theorem sorted_view_chronological (history : list record) :
  wf_history history = true ->
  Permutation (sorted start history) history /\
  StronglySorted (fun a b => (date_of b <? date_of a)%date = false)
                 (sorted start history).
Proof.
  intros W. split; [apply sorted_perm | apply sorted_by_date, W].
Qed.

Lemma sorted_view_chronological_witness :
  Permutation
    (sorted start [mkrecord "a" "400ml全血" "2024-03-01" "" "" "";
                   mkrecord "b" "成分献血" "2023-12-25" "" "" ""])
    [mkrecord "a" "400ml全血" "2024-03-01" "" "" "";
     mkrecord "b" "成分献血" "2023-12-25" "" "" ""] /\
  StronglySorted (fun a b => (date_of b <? date_of a)%date = false)
    (sorted start [mkrecord "a" "400ml全血" "2024-03-01" "" "" "";
                   mkrecord "b" "成分献血" "2023-12-25" "" "" ""]).
Proof. apply sorted_view_chronological. reflexivity. Defined.

(** With a month on one digit, which [strptime] accepts, the order of the
    texts is not the order of the dates. *)
Example sorted_view_unpadded :
  map start (sorted start [mkrecord "a" "成分献血" "2024-2-01" "" "" "";
                           mkrecord "b" "成分献血" "2024-10-01" "" "" ""]) =
  ["2024-10-01"%string; "2024-2-01"%string] /\
  (date_of (mkrecord "a" "成分献血" "2024-2-01" "" "" "") <?
   date_of (mkrecord "b" "成分献血" "2024-10-01" "" "" ""))%date = true.
Proof. split; reflexivity. Qed.

(** X12.  On a well-formed history the reference prior donation is a record
    of the history dated before the target date, and no record dated before
    the target date is more recent; there is none exactly when no record is
    dated before the target date. *)
Theorem reference_prior_most_recent
    (target_date : date) (history : list record) :
  wf_history history = true ->
  exists last_donation,
    reference_prior target_date history = Ok last_donation /\
    match last_donation with
    | Some l =>
        In l history /\ (date_of l <? target_date)%date = true /\
        forall r, In r history -> (date_of r <? target_date)%date = true ->
                  (date_of l <? date_of r)%date = false
    | None =>
        forall r, In r history -> (date_of r <? target_date)%date = false
    end.
Proof.
  intros W. pose proof (wf_history_parseable _ W) as P.
  rewrite (reference_prior_eq _ _ P). eexists. split; [reflexivity|].
  set (before := filter (fun h => (date_of h <? target_date)%date)
                        (sorted start history)).
  assert (S : StronglySorted (fun a b => (date_of b <? date_of a)%date = false) before)
    by apply strongly_sorted_filter, sorted_by_date, W.
  destruct (last_or_none before) as [l|] eqn:E.
  - pose proof (last_or_none_In _ _ E) as Il. apply filter_In in Il.
    destruct Il as [Il Ll]. apply sorted_In in Il.
    split; [exact Il|]. split; [exact Ll|]. intros r Ir Lr.
    assert (Ib : In r before).
    { apply filter_In. split; [apply sorted_In, Ir | exact Lr]. }
    destruct (last_or_none_greatest _ _ _ S E r Ib) as [->|H];
      [apply date_ltb_irrefl | exact H].
  - intros r Ir. destruct (date_of r <? target_date)%date eqn:Lr; [|reflexivity].
    assert (Ib : In r before).
    { apply filter_In. split; [apply sorted_In, Ir | exact Lr]. }
    destruct before as [|x t]; [contradiction|].
    exfalso. clear - E. revert x E. induction t as [|y t IH]; intros x E.
    + discriminate.
    + apply (IH y). exact E.
Qed.

Lemma reference_prior_most_recent_witness :
  exists last_donation,
    reference_prior (mkdate 2024 6 1)
      [mkrecord "a" "400ml全血" "2024-03-01" "" "" "";
       mkrecord "b" "成分献血" "2023-12-25" "" "" ""] = Ok last_donation /\
    match last_donation with
    | Some l =>
        In l [mkrecord "a" "400ml全血" "2024-03-01" "" "" "";
              mkrecord "b" "成分献血" "2023-12-25" "" "" ""] /\
        (date_of l <? mkdate 2024 6 1)%date = true /\
        forall r, In r [mkrecord "a" "400ml全血" "2024-03-01" "" "" "";
                        mkrecord "b" "成分献血" "2023-12-25" "" "" ""] ->
                  (date_of r <? mkdate 2024 6 1)%date = true ->
                  (date_of l <? date_of r)%date = false
    | None =>
        forall r, In r [mkrecord "a" "400ml全血" "2024-03-01" "" "" "";
                        mkrecord "b" "成分献血" "2023-12-25" "" "" ""] ->
                  (date_of r <? mkdate 2024 6 1)%date = false
    end.
Proof. apply reference_prior_most_recent. reflexivity. Defined.

(** * Properties of the forms and of the map view *)

(** ** The entry form *)

Lemma wf_history_app (h1 h2 : list record) :
  wf_history (h1 ++ h2) = wf_history h1 && wf_history h2.
Proof. unfold wf_history. apply forallb_app. Qed.

Lemma wf_record_stored (new_id don_type loc notes col : string) (d : date) :
  valid_date d = true -> In don_type ALL_TYPES ->
  wf_record (mkrecord new_id don_type (strftime d) loc notes col) = true.
Proof.
  intros V I. unfold wf_record, canonical. cbn [start title].
  rewrite (strptime_strftime d V), String.eqb_refl. cbn [andb].
  apply existsb_exists. exists don_type. split; [exact I | apply String.eqb_refl].
Qed.

(** X13.  The entry form keeps the history well-formed, for a target date
    of the years 1000 to 9999 (the years whose text is [strftime] on every
    platform) and a type of ALL_TYPES: nothing is stored for an empty place,
    and otherwise one record is appended, whose [start] [strptime] reads back
    as the target date. *)
Theorem submit_new_well_formed
    (new_id : string) (target_date : date) (don_type loc notes : string)
    (history : list record) :
  valid_date target_date = true -> 1000 <= year target_date ->
  In don_type ALL_TYPES -> wf_history history = true ->
  wf_history (submit_new new_id target_date don_type loc notes history) = true /\
  (is_empty loc = true ->
   submit_new new_id target_date don_type loc notes history = history) /\
  (is_empty loc = false ->
   exists r, submit_new new_id target_date don_type loc notes history = history ++ [r] /\
             strptime (start r) = Ok target_date /\ title r = don_type /\
             rec_id r = new_id).
Proof.
  intros V _ I W. unfold submit_new. destruct (is_empty loc).
  - split; [exact W | split; [reflexivity | discriminate]].
  - cbv zeta. split; [|split; [discriminate|]].
    + rewrite wf_history_app, W. unfold wf_history. cbn [forallb andb].
      rewrite (wf_record_stored _ _ _ _ _ _ V I). reflexivity.
    + intros _. eexists. split; [reflexivity|]. cbn [start title rec_id].
      repeat split. apply strptime_strftime, V.
Qed.

Lemma submit_new_well_formed_witness :
  wf_history (submit_new "id2" (mkdate 2024 6 1) "成分献血" "room" ""
                [mkrecord "id1" "400ml全血" "2024-01-01" "bus" "" "#FF4C4C"]) = true /\
  (is_empty "room" = true ->
   submit_new "id2" (mkdate 2024 6 1) "成分献血" "room" ""
     [mkrecord "id1" "400ml全血" "2024-01-01" "bus" "" "#FF4C4C"] =
   [mkrecord "id1" "400ml全血" "2024-01-01" "bus" "" "#FF4C4C"]) /\
  (is_empty "room" = false ->
   exists r, submit_new "id2" (mkdate 2024 6 1) "成分献血" "room" ""
               [mkrecord "id1" "400ml全血" "2024-01-01" "bus" "" "#FF4C4C"] =
             [mkrecord "id1" "400ml全血" "2024-01-01" "bus" "" "#FF4C4C"] ++ [r] /\
             strptime (start r) = Ok (mkdate 2024 6 1) /\ title r = "成分献血"%string /\
             rec_id r = "id2"%string).
Proof.
  apply submit_new_well_formed; try reflexivity; [simpl; lia|].
  unfold ALL_TYPES. simpl. auto.
Defined.

Lemma check_type_available (target_date : date) (s : list record)
    (last_donation : option record) (gender : string) (age : Z) (don_type : string)
    (v : verdict) :
  check_type target_date s last_donation gender age don_type = Ok v ->
  available v = true -> v = Available.
Proof.
  intros H A. apply check_type_cases in H.
  destruct H as [[_ ->]|[_ [(na & _ & ->)|[_ [(bl & _ & ->)|[_ ->]]]]]];
    (reflexivity || discriminate A).
Qed.

(** X14.  The form offers exactly the donation types whose verdict is
    Available. *)
Theorem available_types_are_available
    (target_date : date) (history : list record) (gender : string) (birthday : date)
    (results : dict verdict) (don_type : string) :
  check_availability target_date history gender birthday = Ok results ->
  (In don_type (available_types results) <->
   dict_get results don_type = Some Available).
Proof.
  intros H. apply check_availability_Ok in H.
  destruct H as (delta & before & v1 & v2 & v3 & _ & _ & (H1 & H2 & H3) & ->).
  pose proof (check_type_available _ _ _ _ _ _ _ H1) as A1.
  pose proof (check_type_available _ _ _ _ _ _ _ H2) as A2.
  pose proof (check_type_available _ _ _ _ _ _ _ H3) as A3.
  unfold available_types. cbn [filter snd].
  split.
  - intros I.
    destruct (available v1) eqn:E1, (available v2) eqn:E2, (available v3) eqn:E3;
      cbn [map fst In] in I;
      repeat (destruct I as [<-|I]);
      try contradiction;
      rewrite ?(A1 eq_refl), ?(A2 eq_refl), ?(A3 eq_refl); reflexivity.
  - intros G. apply dict_get_results in G.
    destruct G as [[-> E]|[[-> E]|[-> E]]]; rewrite <- E;
      change (available Available) with true; cbv iota;
      repeat match goal with
             | |- context [available ?v] => destruct (available v)
             end;
      cbn [map fst In]; auto.
Qed.

Lemma available_types_are_available_witness :
  In "成分献血"%string
     (available_types
        [("400ml全血"%string, Blocked AnnualVolumeCap (Some "2024-06-01"));
         ("200ml全血"%string, Blocked AnnualVolumeCap (Some "2024-06-01"));
         ("成分献血"%string, Available)]) <->
  dict_get [("400ml全血"%string, Blocked AnnualVolumeCap (Some "2024-06-01"));
            ("200ml全血"%string, Blocked AnnualVolumeCap (Some "2024-06-01"));
            ("成分献血"%string, Available)] "成分献血" = Some Available.
Proof.
  apply (available_types_are_available (mkdate 2024 6 1)
           [mkrecord "a" "200ml全血" "2023-06-01" "" "" "";
            mkrecord "b" "400ml全血" "2023-08-01" "" "" "";
            mkrecord "c" "400ml全血" "2023-12-01" "" "" ""] "女性" (mkdate 2000 1 1)).
  vm_compute. reflexivity.
Defined.

(** X15.  Recording a donation on a date of the years 1000 to 9999 (the
    years whose text is [strftime] on every platform) does not change what
    the engine answers for that date: the new record is not dated before
    it. *)
Theorem saving_keeps_verdicts_of_the_day
    (new_id : string) (target_date : date) (don_type loc notes : string)
    (history : list record) (gender : string) (birthday : date) :
  valid_date target_date = true -> 1000 <= year target_date ->
  forallb parseable history = true ->
  check_availability target_date
    (submit_new new_id target_date don_type loc notes history) gender birthday =
  check_availability target_date history gender birthday.
Proof.
  intros V _ P. apply forallb_parseable in P. unfold submit_new.
  destruct (is_empty loc); [reflexivity|]. cbv zeta.
  set (r := mkrecord new_id don_type (strftime target_date) loc notes
                     (record_color don_type)).
  assert (Sr : strptime (start r) = Ok target_date) by apply strptime_strftime, V.
  assert (Pr : parseable r = true) by (unfold parseable; rewrite Sr; reflexivity).
  assert (Dr : date_of r = target_date) by (unfold date_of; rewrite Sr; reflexivity).
  assert (P' : Forall (fun x => parseable x = true) (history ++ [r])).
  { apply Forall_app. split; [exact P | repeat constructor; exact Pr]. }
  rewrite (check_availability_before _ _ _ _ P').
  rewrite (check_availability_before _ history _ _ P).
  rewrite filter_app. cbn [filter]. rewrite Dr, date_ltb_irrefl, app_nil_r.
  reflexivity.
Qed.

Lemma saving_keeps_verdicts_of_the_day_witness :
  check_availability (mkdate 2024 6 1)
    (submit_new "id2" (mkdate 2024 6 1) "400ml全血" "room" ""
       [mkrecord "id1" "200ml全血" "2024-01-01" "bus" "" "#FF4C4C"])
    "男性" (mkdate 2000 1 1) =
  check_availability (mkdate 2024 6 1)
    [mkrecord "id1" "200ml全血" "2024-01-01" "bus" "" "#FF4C4C"]
    "男性" (mkdate 2000 1 1).
Proof. apply saving_keeps_verdicts_of_the_day; (reflexivity || (simpl; lia)). Defined.

(** ** Identifiers: looking up, deleting and editing *)

Lemma delete_record_fresh (rcd : record) (history : list record) :
  forallb (fun r => negb (rec_id r =? rec_id rcd)%string) history = true ->
  delete_record rcd history = history.
Proof.
  unfold delete_record. induction history as [|x t IH]; simpl; [reflexivity|].
  intros H. apply andb_prop in H. destruct H as [Hx Ht].
  rewrite Hx, (IH Ht). reflexivity.
Qed.

(** X16.  Deleting the record just entered gives the history back, when its
    identifier is new. *)
Theorem submit_then_delete
    (new_id : string) (target_date : date) (don_type loc notes : string)
    (history : list record) (rcd : record) :
  rec_id rcd = new_id ->
  forallb (fun r => negb (rec_id r =? new_id)%string) history = true ->
  delete_record rcd (submit_new new_id target_date don_type loc notes history) =
  history.
Proof.
  intros <- F. unfold submit_new. destruct (is_empty loc).
  - apply delete_record_fresh, F.
  - cbv zeta. unfold delete_record. rewrite filter_app. cbn [filter rec_id].
    rewrite String.eqb_refl. cbn [negb]. rewrite app_nil_r.
    apply delete_record_fresh, F.
Qed.

Lemma submit_then_delete_witness :
  delete_record (mkrecord "id2" "" "" "" "" "")
    (submit_new "id2" (mkdate 2024 6 1) "400ml全血" "room" ""
       [mkrecord "id1" "200ml全血" "2024-01-01" "bus" "" "#FF4C4C"]) =
  [mkrecord "id1" "200ml全血" "2024-01-01" "bus" "" "#FF4C4C"].
Proof. apply submit_then_delete; reflexivity. Defined.

(** X17.  A click on the record just entered finds it, when its identifier
    is new. *)
Theorem find_event_after_submit
    (new_id : string) (target_date : date) (don_type loc notes : string)
    (history : list record) :
  is_empty loc = false ->
  forallb (fun r => negb (rec_id r =? new_id)%string) history = true ->
  find_event new_id (submit_new new_id target_date don_type loc notes history) =
  Some (mkrecord new_id don_type (strftime target_date) loc notes
                 (record_color don_type)).
Proof.
  intros L F. unfold submit_new. rewrite L. cbv zeta. unfold find_event.
  induction history as [|x t IH]; simpl.
  - rewrite String.eqb_refl. reflexivity.
  - simpl in F. apply andb_prop in F. destruct F as [Fx Ft].
    apply negb_true_iff in Fx. rewrite Fx. apply IH, Ft.
Qed.

Lemma find_event_after_submit_witness :
  find_event "id2"
    (submit_new "id2" (mkdate 2024 6 1) "400ml全血" "room" ""
       [mkrecord "id1" "200ml全血" "2024-01-01" "bus" "" "#FF4C4C"]) =
  Some (mkrecord "id2" "400ml全血" (strftime (mkdate 2024 6 1)) "room" ""
                 (record_color "400ml全血")).
Proof. apply find_event_after_submit; reflexivity. Defined.

(** X18.  An update moves the record to the end of the history with its
    identifier and its date, and leaves the other records in their order,
    when no other record has its identifier. *)
Theorem update_record_moves_to_end
    (rcd : record) (don_type loc notes : string) (l1 l2 : list record) :
  is_empty loc = false ->
  forallb (fun r => negb (rec_id r =? rec_id rcd)%string) (l1 ++ l2) = true ->
  update_record rcd don_type loc notes (l1 ++ rcd :: l2) =
  l1 ++ l2 ++ [mkrecord (rec_id rcd) don_type (start rcd) loc notes
                        (record_color don_type)].
Proof.
  intros L F. unfold update_record. rewrite L. cbv zeta.
  rewrite forallb_app in F. apply andb_prop in F. destruct F as [F1 F2].
  unfold delete_record. rewrite filter_app. cbn [filter].
  rewrite String.eqb_refl. cbn [negb].
  fold (delete_record rcd l1). fold (delete_record rcd l2).
  rewrite (delete_record_fresh _ _ F1), (delete_record_fresh _ _ F2).
  rewrite <- app_assoc. reflexivity.
Qed.

Lemma update_record_moves_to_end_witness :
  update_record (mkrecord "id1" "200ml全血" "2024-01-01" "bus" "" "#FF4C4C")
    "成分献血" "room" "n"
    ([] ++ mkrecord "id1" "200ml全血" "2024-01-01" "bus" "" "#FF4C4C" ::
     [mkrecord "id2" "400ml全血" "2024-03-01" "bus" "" "#FF4C4C"]) =
  [] ++ [mkrecord "id2" "400ml全血" "2024-03-01" "bus" "" "#FF4C4C"] ++
  [mkrecord "id1" "成分献血" "2024-01-01" "room" "n" (record_color "成分献血")].
Proof. apply update_record_moves_to_end; reflexivity. Defined.

(** X19.  An edited record counts as the one appended last: when its date
    is the most recent one before the target date, it is the reference
    prior donation afterwards, also among records of the same date. *)
Theorem updated_record_is_reference
    (target_date : date) (rcd : record) (don_type loc notes : string)
    (history : list record) :
  wf_history history = true -> In rcd history ->
  is_empty loc = false ->
  (date_of rcd <? target_date)%date = true ->
  (forall r, In r history -> (date_of r <? target_date)%date = true ->
             (date_of rcd <? date_of r)%date = false) ->
  reference_prior target_date (update_record rcd don_type loc notes history) =
  Ok (Some (mkrecord (rec_id rcd) don_type (start rcd) loc notes
                     (record_color don_type))).
Proof.
  intros W I L Lt Recent. unfold update_record. rewrite L. cbv zeta.
  set (new := mkrecord (rec_id rcd) don_type (start rcd) loc notes
                       (record_color don_type)).
  pose proof (wf_history_canonical _ W) as Cn. rewrite Forall_forall in Cn.
  assert (Dn : date_of new = date_of rcd) by reflexivity.
  assert (Cnew : canonical new = true) by (apply (Cn rcd I)).
  assert (Cn' : forall x, In x (delete_record rcd history ++ [new]) ->
                          canonical x = true /\
                          (In x history \/ x = new)).
  { intros x Hx. apply in_app_or in Hx. destruct Hx as [Hx|[<-|[]]].
    - apply filter_In in Hx. destruct Hx as [Hx _]. split; [apply Cn, Hx | auto].
    - split; [exact Cnew | auto]. }
  assert (P : Forall (fun r => parseable r = true) (delete_record rcd history ++ [new])).
  { apply Forall_forall. intros x Hx. apply canonical_start, (Cn' x Hx). }
  rewrite (reference_prior_eq _ _ P).
  destruct (sorted_last_of_key start (delete_record rcd history) [] new)
    as (lo & hi & Es & _ & Hhi & _); [intros x []|].
  rewrite Es, filter_app. cbn [filter]. rewrite Dn, Lt.
  rewrite (filter_none _ hi).
  - f_equal. apply (last_or_none_app (filter _ lo) new).
  - intros x Hx. rewrite Forall_forall in Hhi. pose proof (Hhi x Hx) as Lx.
    assert (Ix : In x (delete_record rcd history ++ [new])).
    { apply (sorted_In start). rewrite Es. apply in_or_app. right. right. exact Hx. }
    destruct (Cn' x Ix) as [Cx Ox].
    destruct (canonical_start _ Cx) as [Px Sx].
    destruct (canonical_start _ Cnew) as [Pn Sn].
    destruct (parseable_date_of _ Px) as [_ Vx].
    destruct (parseable_date_of _ Pn) as [_ Vn].
    unfold key_lt in Lx. rewrite Sn, Sx, (strftime_ltb _ _ Vn Vx), Dn in Lx.
    destruct (date_of x <? target_date)%date eqn:Tx; [|reflexivity].
    destruct Ox as [Ox| ->].
    + rewrite (Recent x Ox Tx) in Lx. discriminate.
    + rewrite Dn, date_ltb_irrefl in Lx. discriminate.
Qed.

Lemma updated_record_is_reference_witness :
  reference_prior (mkdate 2024 6 1)
    (update_record (mkrecord "id1" "200ml全血" "2024-03-01" "bus" "" "#FF4C4C")
       "成分献血" "room" ""
       [mkrecord "id1" "200ml全血" "2024-03-01" "bus" "" "#FF4C4C";
        mkrecord "id2" "400ml全血" "2024-03-01" "bus" "" "#FF4C4C"]) =
  Ok (Some (mkrecord "id1" "成分献血" "2024-03-01" "room" ""
                     (record_color "成分献血"))).
Proof.
  apply (updated_record_is_reference (mkdate 2024 6 1)
           (mkrecord "id1" "200ml全血" "2024-03-01" "bus" "" "#FF4C4C")).
  - reflexivity.
  - left. reflexivity.
  - reflexivity.
  - reflexivity.
  - intros r [<-|[<-|[]]] _; reflexivity.
Defined.

(** X20.  Updating and deleting keep the history well-formed: an update
    with a type of ALL_TYPES changes neither the identifier nor the date of
    the record, and a deletion only removes records. *)
Theorem edit_keeps_well_formed
    (rcd : record) (don_type loc notes : string) (history : list record) :
  wf_history history = true -> In rcd history -> In don_type ALL_TYPES ->
  wf_history (update_record rcd don_type loc notes history) = true /\
  wf_history (delete_record rcd history) = true.
Proof.
  intros W I T.
  assert (D : wf_history (delete_record rcd history) = true).
  { unfold wf_history in *. rewrite forallb_forall in *.
    intros x Hx. apply filter_In in Hx. apply W, Hx. }
  split; [|exact D]. unfold update_record. destruct (is_empty loc); [exact W|].
  cbv zeta. rewrite wf_history_app, D. unfold wf_history. cbn [forallb andb].
  rewrite andb_true_r.
  unfold wf_history in W. rewrite forallb_forall in W. specialize (W rcd I).
  unfold wf_record in *. apply andb_prop in W. destruct W as [C _].
  change (canonical (mkrecord (rec_id rcd) don_type (start rcd) loc notes
                              (record_color don_type))) with (canonical rcd).
  rewrite C. cbn [andb title].
  apply existsb_exists. exists don_type. split; [exact T | apply String.eqb_refl].
Qed.

Lemma edit_keeps_well_formed_witness :
  wf_history
    (update_record (mkrecord "id1" "200ml全血" "2024-03-01" "bus" "" "#FF4C4C")
       "成分献血" "room" ""
       [mkrecord "id1" "200ml全血" "2024-03-01" "bus" "" "#FF4C4C";
        mkrecord "id2" "400ml全血" "2024-03-01" "bus" "" "#FF4C4C"]) = true /\
  wf_history
    (delete_record (mkrecord "id1" "200ml全血" "2024-03-01" "bus" "" "#FF4C4C")
       [mkrecord "id1" "200ml全血" "2024-03-01" "bus" "" "#FF4C4C";
        mkrecord "id2" "400ml全血" "2024-03-01" "bus" "" "#FF4C4C"]) = true.
Proof.
  apply edit_keeps_well_formed.
  - reflexivity.
  - left. reflexivity.
  - unfold ALL_TYPES. simpl. auto.
Defined.

(** ** The map view *)

Lemma dict_get_set {V : Type} (d : dict V) (k k' : string) (v : V) :
  dict_get (dict_set k v d) k' =
  if (k =? k')%string then Some v else dict_get d k'.
Proof.
  induction d as [|[k1 v1] t IH]; simpl.
  - reflexivity.
  - destruct (String.eqb_spec k1 k) as [->|N]; simpl.
    + destruct (String.eqb_spec k k'); reflexivity.
    + rewrite IH. destruct (String.eqb_spec k1 k') as [->|N'];
        [|reflexivity].
      destruct (String.eqb_spec k k') as [->|_]; [contradiction | reflexivity].
Qed.

(** The number of occurrences of [k] in [l]. *)
Lemma counter_fold (l : list string) (counts : dict Z) (k : string) :
  dict_get (fold_left counter_add l counts) k =
  match dict_get counts k with
  | Some n => Some (n + Z.of_nat (count_occ string_dec l k))
  | None => if (count_occ string_dec l k =? 0)%nat
            then None else Some (Z.of_nat (count_occ string_dec l k))
  end.
Proof.
  revert counts. induction l as [|x t IH]; intros counts.
  - simpl. destruct (dict_get counts k); [f_equal; lia | reflexivity].
  - cbn [fold_left]. rewrite IH. unfold counter_add. rewrite dict_get_set.
    cbn [count_occ].
    destruct (string_dec x k) as [->|N].
    + rewrite String.eqb_refl.
      destruct (dict_get counts k); cbn [Nat.eqb]; f_equal; lia.
    + apply String.eqb_neq in N. rewrite N. reflexivity.
Qed.

Lemma count_occ_locations (history : list record) (name : string) :
  is_empty name = false ->
  count_occ string_dec
    (map location (filter (fun r => negb (is_empty (location r))) history)) name =
  List.length (filter (fun r => (location r =? name)%string) history).
Proof.
  intros N. induction history as [|x t IH]; [reflexivity|].
  cbn [filter]. destruct (String.eqb_spec (location x) name) as [E|E].
  - rewrite E, N. cbn [negb map count_occ List.length location]. rewrite E.
    destruct (string_dec name name); [|contradiction]. rewrite IH. reflexivity.
  - destruct (is_empty (location x)); cbn [negb map count_occ]; [exact IH|].
    destruct (string_dec (location x) name); [contradiction | exact IH].
Qed.

(** X21.  For a room with a name, the count shown on the map is the number
    of records whose place is that name, and the room is marked visited
    exactly when there is such a record. *)
Theorem donation_count_counts (history : list record) (name : string) :
  is_empty name = false ->
  donation_count history name =
  Z.of_nat (List.length (filter (fun r => (location r =? name)%string) history)) /\
  visited history name = existsb (fun r => (location r =? name)%string) history.
Proof.
  intros N. unfold donation_count, visited, visited_locations_counts, Counter.
  rewrite counter_fold. cbn [dict_get]. rewrite (count_occ_locations _ _ N).
  assert (E : existsb (fun r => (location r =? name)%string) history =
              negb (List.length (filter (fun r => (location r =? name)%string) history) =? 0)%nat).
  { clear. induction history as [|x t IH]; simpl; [reflexivity|].
    destruct (location x =? name)%string; simpl; [reflexivity | exact IH]. }
  rewrite E.
  destruct (List.length (filter (fun r => (location r =? name)%string) history) =? 0)%nat eqn:Z0.
  - apply Nat.eqb_eq in Z0. rewrite Z0. split; reflexivity.
  - split; reflexivity.
Qed.

Lemma donation_count_counts_witness :
  donation_count [mkrecord "id1" "200ml全血" "2024-01-01" "room" "" "";
                  mkrecord "id2" "400ml全血" "2024-03-01" "" "" "";
                  mkrecord "id3" "成分献血" "2024-05-01" "room" "" ""] "room" =
  Z.of_nat (List.length (filter (fun r => (location r =? "room")%string)
                     [mkrecord "id1" "200ml全血" "2024-01-01" "room" "" "";
                      mkrecord "id2" "400ml全血" "2024-03-01" "" "" "";
                      mkrecord "id3" "成分献血" "2024-05-01" "room" "" ""])) /\
  visited [mkrecord "id1" "200ml全血" "2024-01-01" "room" "" "";
           mkrecord "id2" "400ml全血" "2024-03-01" "" "" "";
           mkrecord "id3" "成分献血" "2024-05-01" "room" "" ""] "room" =
  existsb (fun r => (location r =? "room")%string)
          [mkrecord "id1" "200ml全血" "2024-01-01" "room" "" "";
           mkrecord "id2" "400ml全血" "2024-03-01" "" "" "";
           mkrecord "id3" "成分献血" "2024-05-01" "room" "" ""].
Proof. apply donation_count_counts. reflexivity. Defined.

(** X22.  Entering a donation at a room adds one to the count of that room
    and leaves the counts of the other rooms as they were. *)
Theorem submit_new_counts
    (new_id : string) (target_date : date) (don_type loc notes : string)
    (history : list record) (name : string) :
  is_empty loc = false -> is_empty name = false ->
  donation_count (submit_new new_id target_date don_type loc notes history) name =
  donation_count history name + (if (loc =? name)%string then 1 else 0).
Proof.
  intros L N. unfold submit_new. rewrite L. cbv zeta.
  unfold donation_count, visited_locations_counts, Counter.
  rewrite !counter_fold. cbn [dict_get]. rewrite !(count_occ_locations _ _ N).
  rewrite filter_app, length_app. cbn [filter location].
  destruct (loc =? name)%string; cbn [List.length];
    repeat match goal with
           | |- context [(?n =? 0)%nat] => destruct (Nat.eqb_spec n 0)
           end; lia.
Qed.

Lemma submit_new_counts_witness :
  donation_count
    (submit_new "id2" (mkdate 2024 6 1) "400ml全血" "room" ""
       [mkrecord "id1" "200ml全血" "2024-01-01" "room" "" "#FF4C4C"]) "room" =
  donation_count [mkrecord "id1" "200ml全血" "2024-01-01" "room" "" "#FF4C4C"] "room" +
  (if ("room" =? "room")%string then 1 else 0).
Proof. apply submit_new_counts; reflexivity. Defined.
